(** * Shipping-address and user-profile controllers of the e-commerce backend

    A shallow embedding of the Express/Sequelize request handlers
    ([createShippingAddress], [getShippingAddressesByUserId],
    [getAllShippingAddresses], [getShippingAddressById],
    [deleteShippingAddress], [updateShippingAddress], [setDefaultAddress],
    [bulkDeleteAddresses], [getUserProfile], [updateUserProfile],
    [getAllUsers]) together with the JavaScript primitives they
    rely on ([String.prototype.trim], [parseInt], [RegExp.prototype.test],
    truthiness, [Math.max]/[Math.min]/[Math.ceil]).

    Conventions of the embedding:
    - a JavaScript string is a [string] whose characters stand for code
      units in the range 0..255;
    - a JavaScript number that the handlers use as an integer is the [Z]
      it denotes; [parseInt] and the arithmetic of the page window round
      to the nearest double ([JS.to_double]); [NaN] and [undefined] are
      [None];
    - the database is a record of finite maps keyed by primary key; a
      handler is a function from the database to a response and the next
      database;
    - a query whose [LIMIT] or [OFFSET] the database refuses raises an
      error, which the handler's [catch] turns into a 500;
    - [new Date()] and the salt drawn by [bcrypt.genSalt] are inputs of the
      handler that consumes them. *)

From Stdlib Require Import ZArith Ascii String List Lia Bool.
From stdpp Require Import gmap strings list fin_maps sorting.

Local Open Scope string_scope.
Local Open Scope Z_scope.

(** ** JavaScript primitives *)

Module JS.

(** [WhiteSpace] and [LineTerminator] code units below 256: TAB, LF, VT,
    FF, CR, SP and NBSP.  Both [trim] and [parseInt] strip exactly these. *)
Definition is_whitespace (c : ascii) : bool :=
  let n := nat_of_ascii c in
  ((9 <=? n)%nat && (n <=? 13)%nat) || (n =? 32)%nat || (n =? 160)%nat.

Fixpoint trimStart (s : string) : string :=
  match s with
  | EmptyString => EmptyString
  | String c s' => if is_whitespace c then trimStart s' else s
  end.

Fixpoint trimEnd (s : string) : string :=
  match s with
  | EmptyString => EmptyString
  | String c s' =>
      match trimEnd s' with
      | EmptyString => if is_whitespace c then EmptyString else String c EmptyString
      | t => String c t
      end
  end.

(** [s.trim()] *)
Definition trim (s : string) : string := trimEnd (trimStart s).

(** Truthiness of a value that is either [undefined] or a string: only a
    non-empty string is truthy. *)
Definition truthy (o : option string) : bool :=
  match o with
  | Some EmptyString => false
  | Some _ => true
  | None => false
  end.

(** Truthiness of a value that is either [undefined] or a number. *)
Definition truthy_num (o : option Z) : bool :=
  match o with
  | Some n => negb (n =? 0)
  | None => false
  end.

Definition decimal_digit (c : ascii) : option Z :=
  let n := nat_of_ascii c in
  if (48 <=? n)%nat && (n <=? 57)%nat then Some (Z.of_nat n - 48) else None.

Definition hex_digit (c : ascii) : option Z :=
  let n := nat_of_ascii c in
  if (48 <=? n)%nat && (n <=? 57)%nat then Some (Z.of_nat n - 48)
  else if (65 <=? n)%nat && (n <=? 70)%nat then Some (Z.of_nat n - 55)
  else if (97 <=? n)%nat && (n <=? 102)%nat then Some (Z.of_nat n - 87)
  else None.

(** The longest prefix of [s] made of digits in radix [R], read as a
    number; [acc] is [None] until the first digit has been seen. *)
Fixpoint read_digits (digit : ascii -> option Z) (R : Z) (acc : option Z)
    (s : string) : option Z :=
  match s with
  | EmptyString => acc
  | String c s' =>
      match digit c with
      | Some d => read_digits digit R (Some (R * default 0 acc + d)) s'
      | None => acc
      end
  end.

(** The double nearest to the integer [n], ties going to the even
    significand: integers up to 2^53 in size are their own double, larger
    ones keep 53 significant bits.  Past the largest finite double
    JavaScript has [Infinity]; the handlers send it to the database like
    any other number beyond the range of a [LIMIT] or [OFFSET], so it has
    no value of its own here. *)
Definition to_double (n : Z) : Z :=
  let a := Z.abs n in
  if a <=? 2 ^ 53 then n
  else
    let e := Z.log2 a - 52 in
    let q := a / 2 ^ e in
    let r := a mod 2 ^ e in
    let half := 2 ^ (e - 1) in
    let q' :=
      if r <? half then q
      else if half <? r then q + 1
      else if Z.even q then q else q + 1 in
    Z.sgn n * (q' * 2 ^ e).

(** [a - b] and [a * b] on numbers that hold integers. *)
Definition minus (a b : Z) : Z := to_double (a - b).

Definition times (a b : Z) : Z := to_double (a * b).

(** [parseInt(x)] with no radix argument, for [x] a string or [undefined].
    [None] is [NaN].  The digits are read as the exact integer, which is
    then rounded to the nearest double. *)
Definition parseInt (x : option string) : option Z :=
  match x with
  | None => None
  | Some s =>
      let s1 := trimStart s in
      let '(sign, s2) :=
        match s1 with
        | String "-" r => (-1, r)
        | String "+" r => (1, r)
        | _ => (1, s1)
        end in
      let '(digit, R, s3) :=
        match s2 with
        | String "0" (String "x" r) => (hex_digit, 16, r)
        | String "0" (String "X" r) => (hex_digit, 16, r)
        | _ => (decimal_digit, 10, s2)
        end in
      (fun n => to_double (sign * n)) <$> read_digits digit R None s3
  end.

(** [x || d] for a numeric [x]: [NaN] and [0] are falsy. *)
Definition or_default (x : option Z) (d : Z) : Z :=
  match x with
  | Some n => if n =? 0 then d else n
  | None => d
  end.

(** [Math.ceil(a / b)] for integers [a >= 0] and [b > 0]. *)
Definition ceil_div (a b : Z) : Z := (a + b - 1) / b.

End JS.

(** ** Regular expressions

    The fragment of the JavaScript regular-expression syntax that the
    postal-code pattern uses: character classes, concatenation,
    alternation, the optional group [(...)?] and the counted repetition
    [{n}].  [test] on a pattern anchored by [^] and [$] (no [m] flag) is a
    match of the whole string. *)

Module Regex.

Inductive regex : Type :=
| Void : regex
| Eps : regex
| Class : (ascii -> bool) -> regex
| Cat : regex -> regex -> regex
| Alt : regex -> regex -> regex.

Definition Opt (r : regex) : regex := Alt r Eps.

Fixpoint Rep (n : nat) (r : regex) : regex :=
  match n with
  | O => Eps
  | S n' => Cat r (Rep n' r)
  end.

(** [\d]: the ten ASCII digits. *)
Definition digit : ascii -> bool :=
  fun c => let n := nat_of_ascii c in (48 <=? n)%nat && (n <=? 57)%nat.

(** A literal character. *)
Definition lit (a : ascii) : ascii -> bool := fun c => Ascii.eqb a c.

Fixpoint nullable (r : regex) : bool :=
  match r with
  | Void => false
  | Eps => true
  | Class _ => false
  | Cat r1 r2 => nullable r1 && nullable r2
  | Alt r1 r2 => nullable r1 || nullable r2
  end.

Fixpoint deriv (c : ascii) (r : regex) : regex :=
  match r with
  | Void => Void
  | Eps => Void
  | Class p => if p c then Eps else Void
  | Cat r1 r2 =>
      if nullable r1 then Alt (Cat (deriv c r1) r2) (deriv c r2)
      else Cat (deriv c r1) r2
  | Alt r1 r2 => Alt (deriv c r1) (deriv c r2)
  end.

(** Whole-string match. *)
Fixpoint matches (r : regex) (s : string) : bool :=
  match s with
  | EmptyString => nullable r
  | String c s' => matches (deriv c r) s'
  end.

(** A pattern with no string at all. *)
Fixpoint dead (r : regex) : bool :=
  match r with
  | Void => true
  | Eps => false
  | Class _ => false
  | Cat r1 r2 => dead r1 || dead r2
  | Alt r1 r2 => dead r1 && dead r2
  end.

(** The language of a pattern, as a relation on strings. *)
Inductive lang : regex -> string -> Prop :=
| lang_eps : lang Eps EmptyString
| lang_class p c : p c = true -> lang (Class p) (String c EmptyString)
| lang_cat r1 r2 s1 s2 : lang r1 s1 -> lang r2 s2 -> lang (Cat r1 r2) (s1 ++ s2)
| lang_alt_l r1 r2 s : lang r1 s -> lang (Alt r1 r2) s
| lang_alt_r r1 r2 s : lang r2 s -> lang (Alt r1 r2) s.

End Regex.

(** [/^\d{5}(-\d{4})?$/] *)
Definition postalCodeRegex : Regex.regex :=
  Regex.Cat (Regex.Rep 5 (Regex.Class Regex.digit))
            (Regex.Opt (Regex.Cat (Regex.Class (Regex.lit "-"))
                                  (Regex.Rep 4 (Regex.Class Regex.digit)))).

(** [postalCodeRegex.test(s)] *)
Definition postalCodeRegex_test (s : string) : bool :=
  Regex.matches postalCodeRegex s.

(** ** Responses *)

(** The JSON document a handler sends.  A property whose value is
    [undefined] is left out, as [JSON.stringify] does. *)
#[local] Unset Elimination Schemes.
Inductive json : Type :=
| JNull : json
| JBool : bool -> json
| JNum : Z -> json
| JStr : string -> json
| JArr : list json -> json
| JObj : list (string * json) -> json.
#[local] Set Elimination Schemes.

(** [res.set(...)], [res.status(code)] and [res.json(body)]. *)
Record Response : Type := mkResponse {
  headers : list (string * string);
  status : Z;
  body : json
}.

Definition respond (code : Z) (b : json) : Response :=
  {| headers := []; status := code; body := b |}.

(** ** Data model *)

(** A row of the users table.  The model file is not among the sources;
    the columns are those of the User entity that the controllers read
    and write. *)
Record UserRow : Type := mkUser {
  firstName : string;
  lastName_father : string;
  lastName_mother : string;
  email : string;
  hashed_password : string
}.

(** A User instance in memory: the values of its columns, and the
    property [nombre] that [updateUserProfile] assigns.  The model has no
    column of that name, so the property lives on the object only:
    [save] does not write it and the serialisation does not show it. *)
Record UserInstance : Type := mkUserInstance {
  dataValues : UserRow;
  nombre : option string
}.

(** A row of the shipping-address table, without its primary key. *)
Record AddressRow : Type := mkAddress {
  usuario_id : Z;
  direccion : string;
  ciudad : string;
  estado_provincia : string;
  codigo_postal : string;
  pais : string;
  is_default : bool;
  created_at : Z;
  updated_at : Z
}.

(** The database: both tables keyed by primary key, and the
    auto-increment counter of the address table. *)
Record DB : Type := mkDB {
  users : gmap Z UserRow;
  addresses : gmap Z AddressRow;
  next_address_id : Z
}.

Definition set_addresses (m : gmap Z AddressRow) (db : DB) : DB :=
  {| users := users db; addresses := m; next_address_id := next_address_id db |}.

Definition set_users (m : gmap Z UserRow) (db : DB) : DB :=
  {| users := m; addresses := addresses db; next_address_id := next_address_id db |}.

Definition set_email (v : string) (u : UserRow) : UserRow :=
  {| firstName := firstName u; lastName_father := lastName_father u;
     lastName_mother := lastName_mother u;
     email := v; hashed_password := hashed_password u |}.

Definition set_hashed_password (v : string) (u : UserRow) : UserRow :=
  {| firstName := firstName u; lastName_father := lastName_father u;
     lastName_mother := lastName_mother u;
     email := email u; hashed_password := v |}.

(** [user.nombre = v] and the assignment of a column of the instance. *)
Definition set_nombre (v : string) (user : UserInstance) : UserInstance :=
  {| dataValues := dataValues user; nombre := Some v |}.

Definition set_column (f : UserRow -> UserRow) (user : UserInstance) : UserInstance :=
  {| dataValues := f (dataValues user); nombre := nombre user |}.

Definition set_is_default (b : bool) (a : AddressRow) : AddressRow :=
  {| usuario_id := usuario_id a; direccion := direccion a; ciudad := ciudad a;
     estado_provincia := estado_provincia a; codigo_postal := codigo_postal a;
     pais := pais a; is_default := b;
     created_at := created_at a; updated_at := updated_at a |}.

(** Every stored key is below the auto-increment counter. *)
Definition db_wf (db : DB) : Prop :=
  forall id, is_Some (addresses db !! id) -> id < next_address_id db.

(** ** Requests *)

(** [req.body] of the create and update requests. *)
Record AddressBody : Type := mkAddressBody {
  body_usuario_id : option Z;
  body_direccion : option string;
  body_ciudad : option string;
  body_estado_provincia : option string;
  body_codigo_postal : option string;
  body_pais : option string
}.

(** [req.userId] and [req.isAdmin], attached by the authentication
    middleware. *)
Record Caller : Type := mkCaller {
  userId : Z;
  isAdmin : bool
}.

(** [req.query] of the list requests. *)
Record ListQuery : Type := mkListQuery {
  query_page : option string;
  query_limit : option string;
  query_ciudad : option string;
  query_estado_provincia : option string;
  query_pais : option string
}.

(** [req.body] of the profile update. *)
Record ProfileBody : Type := mkProfileBody {
  body_nombre : option string;
  body_email : option string;
  body_password : option string
}.

(** ** The ORM layer *)

Module User.

Definition findByPk (id : Z) (db : DB) : option UserRow := users db !! id.

(** [attributes: ['id', 'firstName', 'lastName_father']] *)
Definition minimal_json (id : Z) (u : UserRow) : json :=
  JObj [("id", JNum id); ("firstName", JStr (firstName u));
        ("lastName_father", JStr (lastName_father u))].

(** [attributes: ['id', 'firstName', 'lastName_father', 'lastName_mother']] *)
Definition full_json (id : Z) (u : UserRow) : json :=
  JObj [("id", JNum id); ("firstName", JStr (firstName u));
        ("lastName_father", JStr (lastName_father u));
        ("lastName_mother", JStr (lastName_mother u))].

(** The columns of a row, as [res.json(user)] serialises an instance. *)
Definition to_json (id : Z) (u : UserRow) : json :=
  JObj [("id", JNum id); ("firstName", JStr (firstName u));
        ("lastName_father", JStr (lastName_father u));
        ("lastName_mother", JStr (lastName_mother u));
        ("email", JStr (email u));
        ("hashed_password", JStr (hashed_password u))].

(** The instance [findByPk] builds from a row. *)
Definition build (u : UserRow) : UserInstance := {| dataValues := u; nombre := None |}.

(** [user.save()]: the columns of the instance are written back. *)
Definition save (id : Z) (user : UserInstance) (db : DB) : DB :=
  set_users (<[id := dataValues user]> (users db)) db.

(** [User.findAll()]: every row, in the order the table enumerates them. *)
Definition findAll (db : DB) : list (Z * UserRow) := map_to_list (users db).

End User.

Module ShippingAddress.

(** The optional equality filters of a [where] clause. *)
Record Where : Type := mkWhere {
  where_usuario_id : option Z;
  where_ciudad : option string;
  where_estado_provincia : option string;
  where_pais : option string
}.

Definition where_owner (u : Z) : Where :=
  {| where_usuario_id := Some u; where_ciudad := None;
     where_estado_provincia := None; where_pais := None |}.

Definition eq_filter {A} `{EqDecision A} (f : option A) (x : A) : bool :=
  match f with
  | Some v => bool_decide (x = v)
  | None => true
  end.

Definition satisfies (w : Where) (a : AddressRow) : bool :=
  eq_filter (where_usuario_id w) (usuario_id a)
  && eq_filter (where_ciudad w) (ciudad a)
  && eq_filter (where_estado_provincia w) (estado_provincia a)
  && eq_filter (where_pais w) (pais a).

(** The rows selected by a [where] clause. *)
Definition select (w : Where) (db : DB) : gmap Z AddressRow :=
  filter (fun kv => satisfies w kv.2 = true) (addresses db).

(** The rows selected by a [where] clause and an
    [include: [{ model: User, required: true }]], an inner join. *)
Definition select_join (w : Where) (db : DB) : gmap Z AddressRow :=
  filter (fun kv => satisfies w kv.2 = true /\ is_Some (users db !! usuario_id kv.2))
         (addresses db).

(** [ShippingAddress.count({ where })] *)
Definition count (w : Where) (db : DB) : Z := Z.of_nat (size (select w db)).

(** [order: [['created_at', 'DESC']]].  Among rows created at the same
    instant the database is free to choose the order, and to choose anew
    in every query; [page_of] takes them as the table enumerates them.
    What is stated of the order of a page therefore either holds for any
    such choice or asks that the creation times differ. *)
Definition newer_first (x y : Z * AddressRow) : Prop :=
  created_at y.2 <= created_at x.2.

#[export] Instance newer_first_dec : RelDecision newer_first.
Proof. intros x y. unfold newer_first. apply _. Defined.

Definition page_of (limit offset : Z) (m : gmap Z AddressRow) : list (Z * AddressRow) :=
  take (Z.to_nat limit) (drop (Z.to_nat offset) (merge_sort newer_first (map_to_list m))).

(** [LIMIT] and [OFFSET] are 64-bit signed integers of the database
    ([bigint] in PostgreSQL). *)
Definition max_bigint : Z := 2 ^ 63 - 1.

(** The database refuses a [LIMIT] or [OFFSET] that is negative or does
    not fit a 64-bit integer (in PostgreSQL, "bigint out of range"); the
    ORM raises its refusal as an error. *)
Definition window_refused (limit offset : Z) : bool :=
  (limit <? 0) || (offset <? 0) || (max_bigint <? limit) || (max_bigint <? offset).

(** [error.message] of a query the database refused.  The wording is the
    database's own; this text stands for it. *)
Definition query_error_message : string := "LIMIT or OFFSET out of range".

(** [ShippingAddress.findAndCountAll({ where, limit, offset, order,
    include: [{ model: User, required: true }], distinct: true })]:
    the number of matching rows and the requested page of them.  The
    count and the page are two queries sent together; the call fails
    ([None]) when the page query is refused, whatever the count. *)
Definition findAndCountAll_join (w : Where) (limit offset : Z) (db : DB)
    : option (Z * list (Z * AddressRow)) :=
  if window_refused limit offset then None
  else let m := select_join w db in
       Some (Z.of_nat (size m), page_of limit offset m).

(** [ShippingAddress.findAndCountAll({ where, limit, offset, order })]
    with no [include]. *)
Definition findAndCountAll (w : Where) (limit offset : Z) (db : DB)
    : option (Z * list (Z * AddressRow)) :=
  if window_refused limit offset then None
  else let m := select w db in
       Some (Z.of_nat (size m), page_of limit offset m).

(** [ShippingAddress.findAll({ where, limit, offset, order,
    include: [{ model: User, required: true }] })] *)
Definition findAll_join (w : Where) (limit offset : Z) (db : DB)
    : option (list (Z * AddressRow)) :=
  if window_refused limit offset then None
  else Some (page_of limit offset (select_join w db)).

(** [ShippingAddress.create(row)]: the row is stored under the next
    auto-increment key. *)
Definition create (row : AddressRow) (db : DB) : Z * DB :=
  let id := next_address_id db in
  (id, {| users := users db;
          addresses := <[id := row]> (addresses db);
          next_address_id := id + 1 |}).

(** [ShippingAddress.findByPk(id)] *)
Definition findByPk (id : Z) (db : DB) : option AddressRow := addresses db !! id.

(** [ShippingAddress.findByPk(id, { include: [{ model: User, required:
    true }] })], an inner join. *)
Definition findByPk_join (id : Z) (db : DB) : option (AddressRow * UserRow) :=
  match addresses db !! id with
  | Some a =>
      match users db !! usuario_id a with
      | Some u => Some (a, u)
      | None => None
      end
  | None => None
  end.

(** [ShippingAddress.update({ is_default: b }, { where: { usuario_id } })] *)
Definition update_is_default_where_usuario_id (b : bool) (u : Z) (db : DB) : DB :=
  set_addresses
    ((fun a => if decide (usuario_id a = u) then set_is_default b a else a)
       <$> addresses db) db.

(** [ShippingAddress.update({ is_default: b }, { where: { id } })] *)
Definition update_is_default_where_id (b : bool) (id : Z) (db : DB) : DB :=
  set_addresses (alter (set_is_default b) id (addresses db)) db.

(** [address.destroy()] *)
Definition destroy (id : Z) (db : DB) : DB :=
  set_addresses (delete id (addresses db)) db.

(** [ShippingAddress.destroy({ where: { id: ids, usuario_id } })]:
    [id IN (ids) AND usuario_id = u]. *)
Definition destroy_where_id_in_usuario_id (ids : list Z) (u : Z) (db : DB) : DB :=
  set_addresses
    (filter (fun kv => ~ (kv.1 ∈ ids /\ usuario_id kv.2 = u)) (addresses db)) db.

(** The serialised instance with every attribute. *)
Definition to_json (id : Z) (a : AddressRow) : list (string * json) :=
  [("id", JNum id); ("usuario_id", JNum (usuario_id a));
   ("direccion", JStr (direccion a)); ("ciudad", JStr (ciudad a));
   ("estado_provincia", JStr (estado_provincia a));
   ("codigo_postal", JStr (codigo_postal a)); ("pais", JStr (pais a));
   ("is_default", JBool (is_default a));
   ("created_at", JNum (created_at a)); ("updated_at", JNum (updated_at a))].

(** The attribute list of the per-user listing. *)
Definition listing_json (id : Z) (a : AddressRow) : list (string * json) :=
  [("id", JNum id);
   ("direccion", JStr (direccion a)); ("ciudad", JStr (ciudad a));
   ("estado_provincia", JStr (estado_provincia a));
   ("codigo_postal", JStr (codigo_postal a)); ("pais", JStr (pais a));
   ("created_at", JNum (created_at a)); ("updated_at", JNum (updated_at a))].

(** The attribute list of the global listing, which adds [usuario_id]. *)
Definition listing_all_json (id : Z) (a : AddressRow) : list (string * json) :=
  [("id", JNum id);
   ("direccion", JStr (direccion a)); ("ciudad", JStr (ciudad a));
   ("estado_provincia", JStr (estado_provincia a));
   ("codigo_postal", JStr (codigo_postal a)); ("pais", JStr (pais a));
   ("usuario_id", JNum (usuario_id a));
   ("created_at", JNum (created_at a)); ("updated_at", JNum (updated_at a))].

(** The joined user of a row, under the key [User]. *)
Definition with_user (proj : Z -> UserRow -> json) (db : DB)
    (fields : list (string * json)) (a : AddressRow) : json :=
  JObj (fields ++ [("User", match users db !! usuario_id a with
                            | Some u => proj (usuario_id a) u
                            | None => JNull
                            end)]).

(** [ShippingAddress.findByPk(id, { include: [{ model: User }] })], a
    left join: the address is found whether or not its user row exists. *)
Definition findByPk_include (id : Z) (db : DB) : option (AddressRow * option UserRow) :=
  match addresses db !! id with
  | Some a => Some (a, users db !! usuario_id a)
  | None => None
  end.

End ShippingAddress.

(** ** The shipping-address controller *)

(** The value of a field once its truthiness has been checked. *)
Definition str (o : option string) : string := default EmptyString o.

Definition error_body (msg : string) : json := JObj [("error", JStr msg)].

(** [updates] of [updateShippingAddress]: the timestamp is always there,
    every other property only when it was assigned. *)
Record Updates : Type := mkUpdates {
  upd_updated_at : Z;
  upd_direccion : option string;
  upd_ciudad : option string;
  upd_estado_provincia : option string;
  upd_codigo_postal : option string;
  upd_pais : option string
}.

(** [if (field) updates.field = field.trim();] *)
Definition trimmed_if_truthy (field : option string) : option string :=
  if JS.truthy field then Some (JS.trim (str field)) else None.

(** [address.update(updates)] on the instance: the assigned properties
    overwrite the row, the others stay. *)
Definition apply_updates (u : Updates) (a : AddressRow) : AddressRow :=
  {| usuario_id := usuario_id a;
     direccion := default (direccion a) (upd_direccion u);
     ciudad := default (ciudad a) (upd_ciudad u);
     estado_provincia := default (estado_provincia a) (upd_estado_provincia u);
     codigo_postal := default (codigo_postal a) (upd_codigo_postal u);
     pais := default (pais a) (upd_pais u);
     is_default := is_default a;
     created_at := created_at a;
     updated_at := upd_updated_at u |}.

(** The echo of the optional filters; an absent one is left out. *)
Definition filters_json (q : ListQuery) : json :=
  JObj (omap (fun kv => match kv.2 with Some v => Some (kv.1, JStr v) | None => None end)
             [("ciudad", query_ciudad q);
              ("estado_provincia", query_estado_provincia q);
              ("pais", query_pais q)]).

Definition pagination_json (page totalPages totalItems limit : Z) : json :=
  JObj [("currentPage", JNum page); ("totalPages", JNum totalPages);
        ("totalItems", JNum totalItems); ("itemsPerPage", JNum limit)].

(** The answer of the [catch] of both list handlers, in either
    controller, to a query that the database refused. *)
Definition query_failed : Response :=
  respond 500
    (JObj [("error", JStr "Error retrieving shipping addresses");
           ("details", JStr ShippingAddress.query_error_message)]).

(** The controller with validation, ownership checks and transactions.
    A route parameter is [None] when absent; when present it is a
    non-empty string, truthy whatever number it spells, and stands here as
    that number. *)
Module Full.

(** [Math.max(1, parseInt(req.query.page) || 1)] *)
Definition page_of_query (q : ListQuery) : Z :=
  Z.max 1 (JS.or_default (JS.parseInt (query_page q)) 1).

(** [Math.min(50, Math.max(1, parseInt(req.query.limit) || 10))] *)
Definition limit_of_query (q : ListQuery) : Z :=
  Z.min 50 (Z.max 1 (JS.or_default (JS.parseInt (query_limit q)) 10)).

(** [is_default_init] is the value the model gives [is_default] when the
    handler leaves it out; [now] is [new Date()]. *)
Definition createShippingAddress (is_default_init : bool) (now : Z)
    (body : AddressBody) (db : DB) : Response * DB :=
  let usuarioId := body_usuario_id body in
  let direccion := body_direccion body in
  let ciudad := body_ciudad body in
  let estadoProvincia := body_estado_provincia body in
  let codigoPostal := body_codigo_postal body in
  let pais := body_pais body in
  if negb (JS.truthy_num usuarioId) || negb (JS.truthy direccion)
     || negb (JS.truthy ciudad) || negb (JS.truthy estadoProvincia)
     || negb (JS.truthy codigoPostal) || negb (JS.truthy pais)
  then
    (respond 400
       (JObj [("error", JStr "All fields are required");
              ("required", JArr [JStr "usuario_id"; JStr "direccion"; JStr "ciudad";
                                 JStr "estado_provincia"; JStr "codigo_postal";
                                 JStr "pais"])]), db)
  else
    let uid := default 0 usuarioId in
    match User.findByPk uid db with
    | None => (respond 404 (error_body "User not found"), db)
    | Some _ =>
        let userAddressCount :=
          ShippingAddress.count (ShippingAddress.where_owner uid) db in
        if 5 <=? userAddressCount then
          (respond 400
             (JObj [("error", JStr "Maximum number of addresses reached (5)");
                    ("currentCount", JNum userAddressCount)]), db)
        else if negb (postalCodeRegex_test (JS.trim (str codigoPostal))) then
          (respond 400 (error_body "Invalid postal code format"), db)
        else
          let '(id, db') :=
            ShippingAddress.create
              {| usuario_id := uid;
                 direccion := JS.trim (str direccion);
                 ciudad := JS.trim (str ciudad);
                 estado_provincia := JS.trim (str estadoProvincia);
                 codigo_postal := JS.trim (str codigoPostal);
                 pais := JS.trim (str pais);
                 is_default := is_default_init;
                 created_at := now;
                 updated_at := now |} db in
          let addressWithUser :=
            match ShippingAddress.findByPk id db' with
            | Some a =>
                ShippingAddress.with_user User.minimal_json db'
                  (ShippingAddress.to_json id a) a
            | None => JNull
            end in
          (respond 201
             (JObj [("message", JStr "Shipping address created successfully");
                    ("data", addressWithUser)]), db')
    end.

Definition getShippingAddressesByUserId (usuarioId : option Z) (q : ListQuery)
    (db : DB) : Response * DB :=
  match usuarioId with
  | None => (respond 400 (error_body "User ID is required"), db)
  | Some uid =>
      match User.findByPk uid db with
      | None =>
          (respond 404 (JObj [("error", JStr "User not found"); ("userId", JNum uid)]), db)
      | Some user =>
          let page := page_of_query q in
          let limit := limit_of_query q in
          let offset := JS.times (JS.minus page 1) limit in
          match ShippingAddress.findAndCountAll_join
                  (ShippingAddress.where_owner uid) limit offset db with
          | None => (query_failed, db)
          | Some shippingAddresses =>
              if shippingAddresses.1 =? 0 then
                (respond 404
                   (JObj [("message", JStr "No shipping addresses found for this user");
                          ("userId", JNum uid);
                          ("userName", JStr (firstName user))]), db)
              else
                let totalPages := JS.ceil_div shippingAddresses.1 limit in
                ({| headers := [("Cache-Control", "private, max-age=300")];
                    status := 200;
                    body :=
                      JObj [("message", JStr "Shipping addresses retrieved successfully");
                            ("data",
                             JObj [("user",
                                    JObj [("id", JNum uid);
                                          ("name", JStr (firstName user ++ " "
                                                         ++ lastName_father user))]);
                                   ("addresses",
                                    JArr (map (fun kv =>
                                                 ShippingAddress.with_user
                                                   User.minimal_json db
                                                   (ShippingAddress.listing_json kv.1 kv.2)
                                                   kv.2)
                                              shippingAddresses.2));
                                   ("pagination",
                                    pagination_json page totalPages
                                      shippingAddresses.1 limit)])]
                 |}, db)
          end
      end
  end.

Definition getAllShippingAddresses (q : ListQuery) (db : DB) : Response * DB :=
  let page := page_of_query q in
  let limit := limit_of_query q in
  let offset := JS.times (JS.minus page 1) limit in
  let whereClause :=
    {| ShippingAddress.where_usuario_id := None;
       ShippingAddress.where_ciudad := trimmed_if_truthy (query_ciudad q);
       ShippingAddress.where_estado_provincia :=
         trimmed_if_truthy (query_estado_provincia q);
       ShippingAddress.where_pais := trimmed_if_truthy (query_pais q) |} in
  let totalCount := ShippingAddress.count whereClause db in
  if totalCount =? 0 then
    (respond 404
       (JObj [("message", JStr "No shipping addresses found");
              ("filters", filters_json q)]), db)
  else
    match ShippingAddress.findAll_join whereClause limit offset db with
    | None => (query_failed, db)
    | Some shippingAddresses =>
        let totalPages := JS.ceil_div totalCount limit in
        ({| headers := [("Cache-Control", "private, max-age=300")];
            status := 200;
            body :=
              JObj [("message", JStr "Shipping addresses retrieved successfully");
                    ("data",
                     JObj [("addresses",
                            JArr (map (fun kv =>
                                         ShippingAddress.with_user User.full_json db
                                           (ShippingAddress.listing_all_json kv.1 kv.2)
                                           kv.2)
                                      shippingAddresses));
                           ("pagination",
                            pagination_json page totalPages totalCount limit);
                           ("filters", filters_json q)])]
         |}, db)
    end.

Definition deleteShippingAddress (id_ShippingAddress : option Z) (req : Caller)
    (db : DB) : Response * DB :=
  match id_ShippingAddress with
  | None => (respond 400 (error_body "Shipping address ID is required"), db)
  | Some id =>
      match ShippingAddress.findByPk_join id db with
      | None =>
          (respond 404
             (JObj [("error", JStr "Shipping address not found");
                    ("addressId", JNum id)]), db)
      | Some (address, _) =>
          if negb (usuario_id address =? userId req) && negb (isAdmin req) then
            (respond 403 (error_body "Not authorized to delete this address"), db)
          else
            let db' := ShippingAddress.destroy id db in
            (respond 200
               (JObj [("message", JStr "Shipping address deleted successfully");
                      ("data",
                       JObj [("id", JNum id);
                             ("userId", JNum (usuario_id address));
                             ("deletedBy",
                              JObj [("userId", JNum (userId req));
                                    ("isAdmin", JBool (isAdmin req))])])]), db')
      end
  end.

Definition updateShippingAddress (now : Z) (id_ShippingAddress : option Z)
    (req : Caller) (body : AddressBody) (db : DB) : Response * DB :=
  let direccion := body_direccion body in
  let ciudad := body_ciudad body in
  let estadoProvincia := body_estado_provincia body in
  let codigoPostal := body_codigo_postal body in
  let pais := body_pais body in
  match id_ShippingAddress with
  | None => (respond 400 (error_body "Shipping address ID is required"), db)
  | Some id =>
      match ShippingAddress.findByPk_join id db with
      | None =>
          (respond 404
             (JObj [("error", JStr "Shipping address not found");
                    ("addressId", JNum id)]), db)
      | Some (address, _) =>
          if negb (usuario_id address =? userId req) && negb (isAdmin req) then
            (respond 403 (error_body "Not authorized to update this address"), db)
          else if JS.truthy codigoPostal
                  && negb (postalCodeRegex_test (JS.trim (str codigoPostal))) then
            (respond 400 (error_body "Invalid postal code format"), db)
          else
            let updates :=
              {| upd_updated_at := now;
                 upd_direccion := trimmed_if_truthy direccion;
                 upd_ciudad := trimmed_if_truthy ciudad;
                 upd_estado_provincia := trimmed_if_truthy estadoProvincia;
                 upd_codigo_postal := trimmed_if_truthy codigoPostal;
                 upd_pais := trimmed_if_truthy pais |} in
            let updatedAddress := apply_updates updates address in
            let db' := set_addresses (<[id := updatedAddress]> (addresses db)) db in
            (respond 200
               (JObj [("message", JStr "Shipping address updated successfully");
                      ("data",
                       ShippingAddress.with_user User.minimal_json db'
                         (ShippingAddress.to_json id updatedAddress) updatedAddress)]),
             db')
      end
  end.

(** The two statements of the transaction, in order, for a request whose
    body names the user. *)
Definition setDefaultAddress (id_ShippingAddress : Z) (usuario_id : Z)
    (db : DB) : Response * DB :=
  let db1 := ShippingAddress.update_is_default_where_usuario_id false usuario_id db in
  let db2 := ShippingAddress.update_is_default_where_id true id_ShippingAddress db1 in
  (respond 200 (JObj [("message", JStr "Default address updated successfully")]), db2).

(** [error.message] of the ORM for a [where] whose value is [undefined]
    (its quotation marks left out). *)
Definition where_undefined_message : string :=
  "WHERE parameter usuario_id has invalid undefined value".

(** The handler on the body as it arrives: [usuario_id] may be missing,
    and then the first statement of the transaction is refused by the
    ORM, nothing is written and the [catch] answers. *)
Definition setDefaultAddress_of_body (id_ShippingAddress : Z)
    (usuario_id : option Z) (db : DB) : Response * DB :=
  match usuario_id with
  | Some u => setDefaultAddress id_ShippingAddress u db
  | None =>
      (respond 500
         (JObj [("error", JStr "Error setting default address");
                ("details", JStr where_undefined_message)]), db)
  end.

Definition bulkDeleteAddresses (addressIds : list Z) (req : Caller)
    (db : DB) : Response * DB :=
  let db' :=
    ShippingAddress.destroy_where_id_in_usuario_id addressIds (userId req) db in
  (respond 200
     (JObj [("message", JStr "Addresses deleted successfully");
            ("data", JObj [("deletedCount", JNum (Z.of_nat (length addressIds)))])]),
   db').

(** No check of the parameter here: [findByPk] answers [null] for an
    absent key. *)
Definition getShippingAddressById (id_ShippingAddress : option Z) (db : DB)
    : Response * DB :=
  let address :=
    match id_ShippingAddress with
    | Some id => ShippingAddress.findByPk_include id db
    | None => None
    end in
  match id_ShippingAddress, address with
  | Some id, Some (address, _) =>
      (respond 200
         (JObj [("message", JStr "Shipping address retrieved successfully");
                ("data",
                 ShippingAddress.with_user User.minimal_json db
                   (ShippingAddress.to_json id address) address)]), db)
  | _, _ => (respond 404 (error_body "Shipping address not found"), db)
  end.

End Full.

(** The second, minimal shipping-address controller of the repository: no
    user lookup, no postal-code check, no clamping of the page window. *)
Module Minimal.

(** The handler passes no timestamps; the model fills both with the
    current time, as the models of this repository declare
    ([defaultValue: DataTypes.NOW]). *)
Definition createShippingAddress (is_default_init : bool) (now : Z)
    (body : AddressBody) (db : DB) : Response * DB :=
  let usuarioId := body_usuario_id body in
  let direccion := body_direccion body in
  let ciudad := body_ciudad body in
  let estadoProvincia := body_estado_provincia body in
  let codigoPostal := body_codigo_postal body in
  let pais := body_pais body in
  if negb (JS.truthy_num usuarioId) || negb (JS.truthy direccion)
     || negb (JS.truthy ciudad) || negb (JS.truthy estadoProvincia)
     || negb (JS.truthy codigoPostal) || negb (JS.truthy pais)
  then
    (respond 400
       (JObj [("error", JStr "All fields are required");
              ("required", JArr [JStr "usuario_id"; JStr "direccion"; JStr "ciudad";
                                 JStr "estado_provincia"; JStr "codigo_postal";
                                 JStr "pais"])]), db)
  else
    let uid := default 0 usuarioId in
    let userAddressCount :=
      ShippingAddress.count (ShippingAddress.where_owner uid) db in
    if 5 <=? userAddressCount then
      (respond 400 (error_body "Maximum number of addresses reached (5)"), db)
    else
      let shippingAddress :=
        {| usuario_id := uid;
           direccion := JS.trim (str direccion);
           ciudad := JS.trim (str ciudad);
           estado_provincia := JS.trim (str estadoProvincia);
           codigo_postal := JS.trim (str codigoPostal);
           pais := JS.trim (str pais);
           is_default := is_default_init;
           created_at := now;
           updated_at := now |} in
      let '(id, db') := ShippingAddress.create shippingAddress db in
      (respond 201
         (JObj [("message", JStr "Shipping address created successfully");
                ("data", JObj (ShippingAddress.to_json id shippingAddress))]), db').

Definition getShippingAddressesByUserId (usuarioId : option Z) (q : ListQuery)
    (db : DB) : Response * DB :=
  match usuarioId with
  | None => (respond 400 (error_body "User ID is required"), db)
  | Some uid =>
      let addressCount :=
        ShippingAddress.count (ShippingAddress.where_owner uid) db in
      if addressCount =? 0 then
        (respond 404
           (JObj [("message", JStr "No shipping addresses found for this user")]), db)
      else
        let page := JS.or_default (JS.parseInt (query_page q)) 1 in
        let limit := JS.or_default (JS.parseInt (query_limit q)) 10 in
        let offset := JS.times (JS.minus page 1) limit in
        match ShippingAddress.findAndCountAll
                (ShippingAddress.where_owner uid) limit offset db with
        | None => (query_failed, db)
        | Some shippingAddresses =>
            let totalPages := JS.ceil_div shippingAddresses.1 limit in
            (respond 200
               (JObj [("message", JStr "Shipping addresses retrieved successfully");
                      ("data",
                       JObj [("addresses",
                              JArr (map (fun kv =>
                                           JObj (ShippingAddress.listing_json kv.1 kv.2))
                                        shippingAddresses.2));
                             ("pagination",
                              pagination_json page totalPages shippingAddresses.1 limit)])]),
             db)
        end
  end.

End Minimal.

(** ** The user controller *)

Module UserController.

Section Bcrypt.

(** [bcrypt.hash(password, salt)], a collaborator of the handler. *)
Variable bcrypt_hash : string -> string -> string.

(** [salt] is the result of [bcrypt.genSalt(10)]. *)
Definition updateUserProfile (salt : string) (id : Z) (body : ProfileBody)
    (db : DB) : Response * DB :=
  let password := body_password body in
  match User.findByPk id db with
  | None => (respond 404 (error_body "User not found"), db)
  | Some row =>
      let user := User.build row in
      let user1 :=
        if JS.truthy (body_nombre body) then set_nombre (str (body_nombre body)) user
        else user in
      let user2 :=
        if JS.truthy (body_email body)
        then set_column (set_email (str (body_email body))) user1
        else user1 in
      let user3 :=
        if JS.truthy password then
          set_column (set_hashed_password (bcrypt_hash (str password) salt)) user2
        else user2 in
      (respond 200 (User.to_json id (dataValues user3)), User.save id user3 db)
  end.

End Bcrypt.

Definition getUserProfile (id : Z) (db : DB) : Response * DB :=
  match User.findByPk id db with
  | None => (respond 404 (error_body "User not found"), db)
  | Some user => (respond 200 (User.to_json id user), db)
  end.

(** Truthiness of an array: every object is truthy, the empty array too. *)
Definition truthy_array {A} (l : list A) : bool := true.

Definition getAllUsers (db : DB) : Response * DB :=
  let user := User.findAll db in
  if negb (truthy_array user) then
    (respond 404 (error_body "User not found"), db)
  else
    (respond 200 (JArr (map (fun kv => User.to_json kv.1 kv.2) user)), db).

End UserController.

(** ** Vocabulary of the statements *)

(** The property [k] of a JSON object. *)
Fixpoint assoc (k : string) (l : list (string * json)) : option json :=
  match l with
  | [] => None
  | (k', v) :: l' => if String.eqb k k' then Some v else assoc k l'
  end.

Definition json_get (k : string) (j : json) : option json :=
  match j with
  | JObj l => assoc k l
  | _ => None
  end.

(** [body.data.pagination] and [body.data.addresses] of a list response. *)
Definition pagination_of (r : Response) : option json :=
  json_get "data" (body r) ≫= json_get "pagination".

Definition addresses_of (r : Response) : option json :=
  json_get "data" (body r) ≫= json_get "addresses".

(** [(page - 1) * limit], the offset of the page window as the list
    handlers compute it. *)
Definition window_offset (page limit : Z) : Z := JS.times (JS.minus page 1) limit.

(** The addresses of user [u] that are flagged as default. *)
Definition default_addresses (u : Z) (db : DB) : gmap Z AddressRow :=
  filter (fun kv => usuario_id kv.2 = u /\ is_default kv.2 = true) (addresses db).

(** A create request whose six fields are all present and non-empty and
    whose postal code is well-formed. *)
Definition valid_create (uid : Z) (body : AddressBody) : Prop :=
  body_usuario_id body = Some uid /\ uid <> 0
  /\ JS.truthy (body_direccion body) = true
  /\ JS.truthy (body_ciudad body) = true
  /\ JS.truthy (body_estado_provincia body) = true
  /\ JS.truthy (body_codigo_postal body) = true
  /\ JS.truthy (body_pais body) = true
  /\ postalCodeRegex_test (JS.trim (str (body_codigo_postal body))) = true.

(** The row a successful create stores. *)
Definition created_row (is_default_init : bool) (now uid : Z) (body : AddressBody)
    : AddressRow :=
  {| usuario_id := uid;
     direccion := JS.trim (str (body_direccion body));
     ciudad := JS.trim (str (body_ciudad body));
     estado_provincia := JS.trim (str (body_estado_provincia body));
     codigo_postal := JS.trim (str (body_codigo_postal body));
     pais := JS.trim (str (body_pais body));
     is_default := is_default_init;
     created_at := now;
     updated_at := now |}.

(** The five text fields of an address, each as the request carries it
    and as the row stores it. *)
Definition text_fields : list ((AddressBody -> option string) * (AddressRow -> string)) :=
  [(body_direccion, direccion); (body_ciudad, ciudad);
   (body_estado_provincia, estado_provincia);
   (body_codigo_postal, codigo_postal); (body_pais, pais)].

(** The caller may touch the address: owner or administrator. *)
Definition authorized (req : Caller) (a : AddressRow) : Prop :=
  usuario_id a = userId req \/ isAdmin req = true.

(** Sample data for the concrete runs. *)
Definition ana : UserRow := mkUser "Ana" "Lopez" "Diaz" "ana@example.com" "$2a$10$h1".
Definition luis : UserRow := mkUser "Luis" "Rojas" "Vega" "luis@example.com" "$2a$10$h2".

Definition home (owner : Z) (dflt : bool) (t : Z) : AddressRow :=
  mkAddress owner "Av. Arequipa 100" "Lima" "Lima" "15046" "Peru" dflt t t.

(** Two users; addresses 1 and 3 belong to user 1, address 2 to user 2. *)
Definition sample_db : DB :=
  {| users := <[1 := ana]> (<[2 := luis]> ∅);
     addresses := <[1 := home 1 true 10]> (<[2 := home 2 false 20]>
                    (<[3 := home 1 false 30]> ∅));
     next_address_id := 4 |}.

(** Every stored credential is the salted hash of some password. *)
Definition credentials_hashed (bcrypt_hash : string -> string -> string) (db : DB)
    : Prop :=
  forall id u, users db !! id = Some u ->
    exists password salt, hashed_password u = bcrypt_hash password salt.

Definition sample_body (uid : Z) : AddressBody :=
  mkAddressBody (Some uid) (Some "  Jr. Cusco 5 ") (Some "Lima") (Some "Lima")
                (Some " 15001-0001 ") (Some "Peru").

(** Create requests handled one after the other, each with the time it
    is handled at; the status codes in order and the final database. *)
Fixpoint create_all (is_default_init : bool) (reqs : list (Z * AddressBody))
    (db : DB) : list Z * DB :=
  match reqs with
  | [] => ([], db)
  | (now, reqBody) :: reqs' =>
      let r := Full.createShippingAddress is_default_init now reqBody db in
      let rest := create_all is_default_init reqs' r.2 in
      (status r.1 :: rest.1, rest.2)
  end.

(** A stand-in for bcrypt with its output format: prefix, salt, digest. *)
Definition toy_hash (password salt : string) : string :=
  "$2a$10$" +:+ salt +:+ password.

(** ** Requests to the full controller, one after the other *)

Inductive AddressRequest : Type :=
| CreateShippingAddress (now : Z) (reqBody : AddressBody)
| GetShippingAddressesByUserId (usuarioId : option Z) (q : ListQuery)
| GetAllShippingAddresses (q : ListQuery)
| GetShippingAddressById (id_ShippingAddress : option Z)
| UpdateShippingAddress (now : Z) (id_ShippingAddress : option Z) (req : Caller)
    (reqBody : AddressBody)
| DeleteShippingAddress (id_ShippingAddress : option Z) (req : Caller)
| SetDefaultAddress (id_ShippingAddress : Z) (usuario_id : Z)
| BulkDeleteAddresses (addressIds : list Z) (req : Caller).

(** The handler each request is routed to. *)
Definition handle (is_default_init : bool) (request : AddressRequest) (db : DB)
    : Response * DB :=
  match request with
  | CreateShippingAddress now reqBody =>
      Full.createShippingAddress is_default_init now reqBody db
  | GetShippingAddressesByUserId usuarioId q =>
      Full.getShippingAddressesByUserId usuarioId q db
  | GetAllShippingAddresses q => Full.getAllShippingAddresses q db
  | GetShippingAddressById id => Full.getShippingAddressById id db
  | UpdateShippingAddress now id req reqBody =>
      Full.updateShippingAddress now id req reqBody db
  | DeleteShippingAddress id req => Full.deleteShippingAddress id req db
  | SetDefaultAddress id uid => Full.setDefaultAddress id uid db
  | BulkDeleteAddresses addressIds req => Full.bulkDeleteAddresses addressIds req db
  end.

(** The database after a sequence of requests. *)
Fixpoint run (is_default_init : bool) (requests : list AddressRequest) (db : DB) : DB :=
  match requests with
  | [] => db
  | request :: requests' =>
      run is_default_init requests' (handle is_default_init request db).2
  end.

(** No user owns more than five addresses. *)
Definition limit_ok (db : DB) : Prop :=
  forall u, ShippingAddress.count (ShippingAddress.where_owner u) db <= 5.

(** A row as the full controller writes it: text fields without
    surrounding whitespace, postal code of the pattern. *)
Definition row_format (a : AddressRow) : Prop :=
  Forall (fun f : (AddressBody -> option string) * (AddressRow -> string) =>
            JS.trim (f.2 a) = f.2 a) text_fields
  /\ postalCodeRegex_test (codigo_postal a) = true.

Definition stored_format (db : DB) : Prop :=
  forall id a, addresses db !! id = Some a -> row_format a.

(** No user has two addresses flagged as default. *)
Definition at_most_one_default (db : DB) : Prop :=
  forall id1 id2 a1 a2,
    addresses db !! id1 = Some a1 -> addresses db !! id2 = Some a2 ->
    usuario_id a1 = usuario_id a2 ->
    is_default a1 = true -> is_default a2 = true -> id1 = id2.

(** A string that is empty or starts with a character that is not
    whitespace. *)
Definition no_leading_whitespace (s : string) : Prop :=
  match s with
  | EmptyString => True
  | String c _ => JS.is_whitespace c = false
  end.

(** The flag of a stored address after [setDefaultAddress id u]. *)
Definition flag_after (id u k : Z) (a : AddressRow) : bool :=
  if decide (k = id) then true
  else if decide (usuario_id a = u) then false else is_default a.

(** [db'] has no row that [db] lacks, and the rows it has kept their owner
    and their creation time; users and counter are those of [db]. *)
Definition shrinks (db db' : DB) : Prop :=
  users db' = users db /\ next_address_id db' = next_address_id db
  /\ forall k a', addresses db' !! k = Some a' ->
       exists a, addresses db !! k = Some a
                 /\ usuario_id a' = usuario_id a /\ created_at a' = created_at a.

(** * Properties *)

(** ** Facts about the JavaScript primitives *)

Lemma ceil_div_spec (a b : Z) :
  0 < b -> (JS.ceil_div a b - 1) * b < a <= JS.ceil_div a b * b.
Proof.
  intros Hb. unfold JS.ceil_div.
  pose proof (Z.div_mod (a + b - 1) b ltac:(lia)) as Hdm.
  pose proof (Z.mod_pos_bound (a + b - 1) b Hb) as Hmod.
  nia.
Qed.

Module RegexFacts.
Import Regex.

Lemma nullable_lang r : nullable r = true <-> lang r EmptyString.
Proof.
  induction r as [| |p|r1 IH1 r2 IH2|r1 IH1 r2 IH2]; simpl.
  - split; [discriminate | intros H; inversion H].
  - split; [constructor | reflexivity].
  - split; [discriminate | intros H; inversion H].
  - rewrite andb_true_iff, IH1, IH2. split.
    + intros [H1 H2]. change EmptyString with (EmptyString ++ EmptyString)%string.
      constructor; assumption.
    + intros H. inversion H as [| |? ? s1 s2 L1 L2 E| |]; subst.
      destruct s1; [|discriminate]. destruct s2; [|discriminate]. split; assumption.
  - rewrite orb_true_iff, IH1, IH2. split.
    + intros [H|H]; [apply lang_alt_l | apply lang_alt_r]; assumption.
    + intros H. inversion H; subst; [left | right]; assumption.
Qed.

Lemma deriv_lang c r s : lang (deriv c r) s <-> lang r (String c s).
Proof.
  revert s. induction r as [| |p|r1 IH1 r2 IH2|r1 IH1 r2 IH2]; intros s; simpl.
  - split; intros H; inversion H.
  - split; intros H; inversion H.
  - destruct (p c) eqn:Hp; split; intros H; inversion H; subst.
    + constructor. assumption.
    + constructor.
    + congruence.
  - assert (Hcat : lang (Cat (deriv c r1) r2) s <->
              exists s1 s2, s = (s1 ++ s2)%string /\ lang r1 (String c s1) /\ lang r2 s2).
    { split.
      - intros H. inversion H; subst. eexists _, _. split; [reflexivity|].
        split; [apply IH1|]; assumption.
      - intros (s1 & s2 & -> & H1 & H2). constructor; [apply IH1|]; assumption. }
    assert (Hsplit : lang (Cat r1 r2) (String c s) <->
              (exists s1 s2, s = (s1 ++ s2)%string /\ lang r1 (String c s1) /\ lang r2 s2)
              \/ (lang r1 EmptyString /\ lang r2 (String c s))).
    { split.
      - intros H. inversion H as [| |? ? s1 s2 L1 L2| |]; subst.
        match goal with E : (_ ++ _)%string = _ |- _ => rename E into E' end.
        destruct s1 as [|c1 s1]; simpl in E'.
        + right. subst. split; assumption.
        + injection E' as Ec Es. subst. left. eauto.
      - intros [(s1 & s2 & -> & H1 & H2) | [H1 H2]].
        + change (String c (s1 ++ s2)%string) with (String c s1 ++ s2)%string.
          constructor; assumption.
        + change (String c s) with (EmptyString ++ String c s)%string.
          constructor; assumption. }
    rewrite Hsplit. destruct (nullable r1) eqn:Hn.
    + split.
      * intros H. inversion H; subst.
        -- left. apply Hcat. assumption.
        -- right. split; [apply nullable_lang; assumption | apply IH2; assumption].
      * intros [H | [H1 H2]].
        -- apply lang_alt_l, Hcat, H.
        -- apply lang_alt_r, IH2, H2.
    + rewrite Hcat. split; [auto|]. intros [H | [H1 H2]]; [assumption|].
      apply nullable_lang in H1. congruence.
  - split; intros H; inversion H; subst;
      solve [apply lang_alt_l, IH1; assumption | apply lang_alt_r, IH2; assumption].
Qed.

(** The derivative matcher decides the language of the pattern. *)
Lemma matches_lang r s : matches r s = true <-> lang r s.
Proof.
  revert r. induction s as [|c s IH]; intros r; simpl.
  - apply nullable_lang.
  - rewrite IH. apply deriv_lang.
Qed.

End RegexFacts.

(** The constants of the number range, written out for [lia]. *)
Ltac ranges :=
  unfold ShippingAddress.max_bigint in *;
  change (2 ^ 63) with 9223372036854775808 in *;
  change (2 ^ 53) with 9007199254740992 in *.

(** Integers up to 2^53 in size are doubles. *)
Lemma to_double_exact (n : Z) : Z.abs n <= 2 ^ 53 -> JS.to_double n = n.
Proof.
  intros H. unfold JS.to_double. apply Z.leb_le in H. rewrite H. reflexivity.
Qed.

(** Rounding does not take a number below an integer that is a double
    and that it was not below. *)
Lemma to_double_ge (n x : Z) : Z.abs n <= 2 ^ 53 -> n <= x -> n <= JS.to_double x.
Proof.
  intros Hn Hx. unfold JS.to_double.
  destruct (Z.leb_spec (Z.abs x) (2 ^ 53)) as [|Hbig]; [assumption|].
  assert (E52 : 2 ^ 52 = 4503599627370496) by reflexivity.
  ranges.
  assert (Hpos : 9007199254740992 < x) by lia.
  rewrite Z.abs_eq, Z.sgn_pos by lia.
  set (e := Z.log2 x - 52).
  assert (He : 1 <= e).
  { assert (53 <= Z.log2 x) by (apply Z.log2_le_pow2; lia). lia. }
  assert (Hpow : 2 ^ e * 2 ^ 52 <= x).
  { rewrite <- Z.pow_add_r by lia. replace (e + 52) with (Z.log2 x) by lia.
    apply Z.log2_spec. lia. }
  assert (H2e : 2 <= 2 ^ e).
  { change 2 with (2 ^ 1) at 1. apply Z.pow_le_mono_r; lia. }
  assert (Hq : 2 ^ 52 <= x / 2 ^ e) by (apply Z.div_le_lower_bound; lia).
  rewrite E52 in Hq.
  destruct (x mod 2 ^ e <? 2 ^ (e - 1)); [nia|].
  destruct (2 ^ (e - 1) <? x mod 2 ^ e); [nia|].
  destruct (Z.even (x / 2 ^ e)); nia.
Qed.

Lemma window_offset_nonneg (page limit : Z) :
  1 <= page -> 0 <= limit -> 0 <= window_offset page limit.
Proof.
  intros Hp Hl. unfold window_offset, JS.times, JS.minus.
  assert (H0 : Z.abs 0 <= 2 ^ 53) by (ranges; lia).
  apply to_double_ge; [exact H0|].
  apply Z.mul_nonneg_nonneg; [|exact Hl]. apply to_double_ge; [exact H0 | lia].
Qed.

(** Where the exact offset is a double the handlers compute it exactly. *)
Lemma window_offset_exact (page limit : Z) :
  1 <= page -> 1 <= limit -> (page - 1) * limit <= 2 ^ 53 ->
  window_offset page limit = (page - 1) * limit.
Proof.
  intros Hp Hl Hb. unfold window_offset, JS.times, JS.minus.
  rewrite (to_double_exact (page - 1)) by (ranges; nia).
  apply to_double_exact. ranges. nia.
Qed.

(** A page past the last one starts at or after the last row. *)
Lemma window_offset_past_end (n page limit : Z) :
  0 <= n <= 2 ^ 53 -> 1 <= limit -> JS.ceil_div n limit < page ->
  n <= window_offset page limit.
Proof.
  intros Hn Hl Hpast. unfold window_offset, JS.times, JS.minus.
  pose proof (ceil_div_spec n limit ltac:(lia)) as Hc.
  assert (Ht : 0 <= JS.ceil_div n limit <= n) by nia.
  assert (Hs : JS.ceil_div n limit <= JS.to_double (page - 1))
    by (apply to_double_ge; ranges; lia).
  apply to_double_ge; [ranges; lia | nia].
Qed.

(** ** Facts about the ORM layer *)

(** A window with a page of at least 1 and a limit within 1..50 can only
    be refused for an offset beyond the range of the database. *)
Lemma window_refused_within (page limit : Z) :
  1 <= page -> 1 <= limit <= 50 ->
  ShippingAddress.window_refused limit (window_offset page limit)
  = (ShippingAddress.max_bigint <? window_offset page limit).
Proof.
  intros Hp Hl. unfold ShippingAddress.window_refused.
  pose proof (window_offset_nonneg page limit Hp ltac:(lia)) as Ho.
  destruct (Z.ltb_spec limit 0); [lia|].
  destruct (Z.ltb_spec (window_offset page limit) 0); [lia|].
  destruct (Z.ltb_spec ShippingAddress.max_bigint limit); [ranges; lia|].
  reflexivity.
Qed.

(** The full controller always asks for such a window. *)
Lemma Full_window_refused (q : ListQuery) :
  ShippingAddress.window_refused (Full.limit_of_query q)
    (window_offset (Full.page_of_query q) (Full.limit_of_query q))
  = (ShippingAddress.max_bigint
     <? window_offset (Full.page_of_query q) (Full.limit_of_query q)).
Proof.
  apply window_refused_within.
  - unfold Full.page_of_query. lia.
  - unfold Full.limit_of_query. lia.
Qed.

Lemma satisfies_where_owner (u : Z) (a : AddressRow) :
  ShippingAddress.satisfies (ShippingAddress.where_owner u) a = true <-> usuario_id a = u.
Proof.
  unfold ShippingAddress.satisfies, ShippingAddress.where_owner,
    ShippingAddress.eq_filter; simpl.
  rewrite !andb_true_r. apply bool_decide_eq_true.
Qed.

Lemma select_owner_lookup (u id : Z) (a : AddressRow) (db : DB) :
  ShippingAddress.select (ShippingAddress.where_owner u) db !! id = Some a
  <-> addresses db !! id = Some a /\ usuario_id a = u.
Proof.
  unfold ShippingAddress.select. rewrite map_lookup_filter_Some. simpl.
  rewrite satisfies_where_owner. reflexivity.
Qed.

(** Once the user is known to exist, the inner join with the users table
    drops no row of that user. *)
Lemma select_join_owner (u : Z) (db : DB) :
  is_Some (users db !! u) ->
  ShippingAddress.select_join (ShippingAddress.where_owner u) db
  = ShippingAddress.select (ShippingAddress.where_owner u) db.
Proof.
  intros Hu. unfold ShippingAddress.select_join, ShippingAddress.select.
  apply map_filter_ext. intros id a _. simpl.
  rewrite satisfies_where_owner. split; [tauto|].
  intros Ha. split; [assumption|]. rewrite Ha. assumption.
Qed.

Lemma count_nonneg (w : ShippingAddress.Where) (db : DB) :
  0 <= ShippingAddress.count w db.
Proof. unfold ShippingAddress.count. lia. Qed.

Lemma count_owner_zero (u : Z) (db : DB) :
  ShippingAddress.count (ShippingAddress.where_owner u) db = 0
  <-> forall id a, addresses db !! id = Some a -> usuario_id a <> u.
Proof.
  unfold ShippingAddress.count.
  rewrite <- Nat2Z.inj_0, Nat2Z.inj_iff, map_size_empty_iff, map_empty. split.
  - intros H id a Ha Hu.
    specialize (H id).
    assert (Hs : ShippingAddress.select (ShippingAddress.where_owner u) db !! id = Some a)
      by (apply select_owner_lookup; auto).
    congruence.
  - intros H id. apply eq_None_not_Some. intros [a Ha].
    apply select_owner_lookup in Ha as [Ha Hu]. exact (H id a Ha Hu).
Qed.

(** Storing a row of user [u] under a fresh key raises the count of [u]
    by one. *)
Lemma count_owner_create (row : AddressRow) (db : DB) :
  db_wf db ->
  ShippingAddress.count (ShippingAddress.where_owner (usuario_id row))
    (ShippingAddress.create row db).2
  = ShippingAddress.count (ShippingAddress.where_owner (usuario_id row)) db + 1.
Proof.
  intros Hwf. unfold ShippingAddress.count, ShippingAddress.select,
    ShippingAddress.create; simpl.
  assert (Hfresh : addresses db !! next_address_id db = None).
  { apply eq_None_not_Some. intros Hs. apply Hwf in Hs. lia. }
  rewrite map_filter_insert_True by (simpl; apply satisfies_where_owner; reflexivity).
  rewrite map_size_insert_None; [lia|].
  apply map_lookup_filter_None. left. assumption.
Qed.

Lemma create_wf (row : AddressRow) (db : DB) :
  db_wf db -> db_wf (ShippingAddress.create row db).2.
Proof.
  intros Hwf id. unfold ShippingAddress.create; simpl.
  destruct (decide (next_address_id db = id)) as [<-|Hne].
  - lia.
  - rewrite lookup_insert_ne by assumption. intros Hs. apply Hwf in Hs. lia.
Qed.

Lemma page_of_length (limit offset : Z) (m : gmap Z AddressRow) :
  length (ShippingAddress.page_of limit offset m)
  = Nat.min (Z.to_nat limit) (size m - Z.to_nat offset).
Proof.
  unfold ShippingAddress.page_of.
  rewrite length_take, length_drop, (merge_sort_Permutation _ (map_to_list m)),
    length_map_to_list.
  reflexivity.
Qed.

(** A window that starts at or after the last row is empty. *)
Lemma page_of_past_end (limit offset : Z) (m : gmap Z AddressRow) :
  Z.of_nat (size m) <= offset -> ShippingAddress.page_of limit offset m = [].
Proof.
  intros H. apply length_zero_iff_nil. rewrite page_of_length. lia.
Qed.

Lemma findByPk_join_Some (id : Z) (a : AddressRow) (db : DB) :
  addresses db !! id = Some a -> is_Some (users db !! usuario_id a) ->
  exists u, ShippingAddress.findByPk_join id db = Some (a, u).
Proof.
  intros Ha [u Hu]. exists u. unfold ShippingAddress.findByPk_join.
  rewrite Ha, Hu. reflexivity.
Qed.

Lemma not_owner_not_admin (req : Caller) (a : AddressRow) :
  usuario_id a <> userId req -> isAdmin req = false ->
  negb (usuario_id a =? userId req) && negb (isAdmin req) = true.
Proof.
  intros Hne Hadm. rewrite Hadm. apply Z.eqb_neq in Hne. rewrite Hne. reflexivity.
Qed.

Lemma authorized_passes (req : Caller) (a : AddressRow) :
  authorized req a ->
  negb (usuario_id a =? userId req) && negb (isAdmin req) = false.
Proof.
  intros [Ho | Hadm].
  - apply Z.eqb_eq in Ho. rewrite Ho. reflexivity.
  - rewrite Hadm. apply andb_false_r.
Qed.

(** ** SetDefault *)

(** C1, as amended: for every user and every existing address [id] that
    this user owns, after [setDefaultAddress id u] the addresses of [u]
    flagged as default are exactly one, the address [id] (its other fields
    untouched). *)
Theorem setDefaultAddress_unique_default (id u : Z) (a : AddressRow) (db : DB) :
  addresses db !! id = Some a ->
  usuario_id a = u ->
  default_addresses u (Full.setDefaultAddress id u db).2
  = {[ id := set_is_default true a ]}.
Proof.
  intros Ha Hu. apply map_eq. intros k. apply option_eq. intros x.
  unfold default_addresses. rewrite map_lookup_filter_Some, lookup_singleton_Some.
  cbn [Full.setDefaultAddress snd ShippingAddress.update_is_default_where_id
       ShippingAddress.update_is_default_where_usuario_id set_addresses addresses fst].
  rewrite lookup_alter, lookup_fmap.
  destruct (decide (id = k)) as [<-|Hne].
  - rewrite Ha. cbn. rewrite decide_True by assumption. split.
    + intros [Hx _]. split; [reflexivity|]. injection Hx as <-. reflexivity.
    + intros [_ <-]. cbn. auto.
  - split; [|intros [? _]; contradiction].
    intros [Hx [Hxu Hxd]]. exfalso. rewrite lookup_fmap in Hx.
    destruct (addresses db !! k) as [b|]; cbn in Hx; [|discriminate].
    injection Hx as <-. destruct (decide (usuario_id b = u)) as [Hb|Hb].
    + cbn in Hxd. discriminate.
    + contradiction.
Qed.

Lemma setDefaultAddress_unique_default_witness :
  default_addresses 1 (Full.setDefaultAddress 3 1 sample_db).2
  = {[ 3 := set_is_default true (home 1 false 30) ]}.
Proof.
  apply (setDefaultAddress_unique_default 3 1 (home 1 false 30) sample_db);
    reflexivity.
Defined.

(** C1, as stated, fails when the address belongs to another user: user 1
    asks for address 2 of user 2 and is left with no default address. *)
Lemma setDefaultAddress_foreign_address :
  size (default_addresses 1 (Full.setDefaultAddress 2 1 sample_db).2) = 0%nat
  /\ ~ (exists a, default_addresses 1 (Full.setDefaultAddress 2 1 sample_db).2
                  = {[ 2 := a ]}).
Proof.
  split; [vm_compute; reflexivity|].
  intros [a H].
  assert (Hl : default_addresses 1 (Full.setDefaultAddress 2 1 sample_db).2 !! 2
               = Some a) by (rewrite H; apply lookup_singleton_eq).
  vm_compute in Hl. discriminate.
Qed.

(** ** BulkDelete *)

(** C4: [bulkDeleteAddresses] removes exactly the rows whose key is in the
    requested list and whose owner is the caller, leaves every other row
    and the users alone, and reports as [deletedCount] the length of the
    requested list. *)
Theorem bulkDeleteAddresses_spec (addressIds : list Z) (req : Caller) (db : DB) :
  let r := Full.bulkDeleteAddresses addressIds req db in
  (forall id,
      addresses r.2 !! id
      = match addresses db !! id with
        | Some a =>
            if decide (id ∈ addressIds /\ usuario_id a = userId req)
            then None else Some a
        | None => None
        end)
  /\ users r.2 = users db
  /\ status r.1 = 200
  /\ json_get "data" (body r.1)
     = Some (JObj [("deletedCount", JNum (Z.of_nat (length addressIds)))]).
Proof.
  cbn. repeat split. intros id.
  rewrite map_lookup_filter. destruct (addresses db !! id) as [a|]; [|reflexivity].
  cbn. destruct (decide (id ∈ addressIds /\ usuario_id a = userId req)) as [H|H].
  - rewrite option_guard_False by tauto. reflexivity.
  - rewrite option_guard_True by assumption. reflexivity.
Qed.

(** [deletedCount] is not the number of deleted rows: two ids requested,
    one of them owned by the caller, one row deleted. *)
Example bulkDeleteAddresses_count_of_request :
  let r := Full.bulkDeleteAddresses [1; 2] (mkCaller 1 false) sample_db in
  json_get "data" (body r.1) = Some (JObj [("deletedCount", JNum 2)])
  /\ size (addresses sample_db) = 3%nat
  /\ size (addresses r.2) = 2%nat
  /\ addresses r.2 !! 2 = Some (home 2 false 20).
Proof. vm_compute. repeat split; reflexivity. Qed.

(** ** Authorization *)

(** C5: for an existing address (whose owner is a registered user) and a
    caller who is neither its owner nor an administrator, both
    [updateShippingAddress] and [deleteShippingAddress] answer 403 and
    hand back the database they received. *)
Theorem non_owner_forbidden (now id : Z) (req : Caller) (body : AddressBody)
    (a : AddressRow) (db : DB) :
  addresses db !! id = Some a ->
  is_Some (users db !! usuario_id a) ->
  usuario_id a <> userId req ->
  isAdmin req = false ->
  Full.updateShippingAddress now (Some id) req body db
  = (respond 403 (error_body "Not authorized to update this address"), db)
  /\ Full.deleteShippingAddress (Some id) req db
     = (respond 403 (error_body "Not authorized to delete this address"), db).
Proof.
  intros Ha Hu Hne Hadm.
  destruct (findByPk_join_Some id a db Ha Hu) as [u Hj].
  unfold Full.updateShippingAddress, Full.deleteShippingAddress.
  rewrite Hj, (not_owner_not_admin req a Hne Hadm). split; reflexivity.
Qed.

Lemma non_owner_forbidden_witness :
  Full.updateShippingAddress 99 (Some 1) (mkCaller 2 false)
    (mkAddressBody None (Some "Jr. Cusco 5") None None None None) sample_db
  = (respond 403 (error_body "Not authorized to update this address"), sample_db)
  /\ Full.deleteShippingAddress (Some 1) (mkCaller 2 false) sample_db
     = (respond 403 (error_body "Not authorized to delete this address"), sample_db).
Proof.
  apply (non_owner_forbidden 99 1 (mkCaller 2 false) _ (home 1 true 10) sample_db).
  - reflexivity.
  - exists ana. reflexivity.
  - simpl. lia.
  - reflexivity.
Defined.

(** ** Create *)

(** The checks of the full handler, once the six fields are present and
    the user exists: the limit first, then the postal code. *)
Lemma Full_create_checked (is_default_init : bool) (now uid : Z)
    (body : AddressBody) (db : DB) :
  body_usuario_id body = Some uid -> uid <> 0 ->
  JS.truthy (body_direccion body) = true ->
  JS.truthy (body_ciudad body) = true ->
  JS.truthy (body_estado_provincia body) = true ->
  JS.truthy (body_codigo_postal body) = true ->
  JS.truthy (body_pais body) = true ->
  is_Some (users db !! uid) ->
  Full.createShippingAddress is_default_init now body db
  = let n := ShippingAddress.count (ShippingAddress.where_owner uid) db in
    if 5 <=? n then
      (respond 400
         (JObj [("error", JStr "Maximum number of addresses reached (5)");
                ("currentCount", JNum n)]), db)
    else if negb (postalCodeRegex_test (JS.trim (str (body_codigo_postal body)))) then
      (respond 400 (error_body "Invalid postal code format"), db)
    else
      let row := created_row is_default_init now uid body in
      let db' := (ShippingAddress.create row db).2 in
      (respond 201
         (JObj [("message", JStr "Shipping address created successfully");
                ("data",
                 ShippingAddress.with_user User.minimal_json db'
                   (ShippingAddress.to_json (next_address_id db) row) row)]), db').
Proof.
  intros Hid Hnz Hd Hc He Hp Hpa [u Hu].
  unfold Full.createShippingAddress.
  rewrite Hid, Hd, Hc, He, Hp, Hpa. cbn [JS.truthy_num default].
  apply Z.eqb_neq in Hnz. rewrite Hnz. cbn [negb orb].
  unfold User.findByPk, id. rewrite Hu. cbv zeta.
  destruct (5 <=? _); [reflexivity|].
  destruct (negb _); [reflexivity|].
  unfold ShippingAddress.create, ShippingAddress.findByPk, created_row. cbn.
  rewrite lookup_insert_eq. reflexivity.
Qed.

Lemma Minimal_create_checked (is_default_init : bool) (now uid : Z)
    (body : AddressBody) (db : DB) :
  body_usuario_id body = Some uid -> uid <> 0 ->
  JS.truthy (body_direccion body) = true ->
  JS.truthy (body_ciudad body) = true ->
  JS.truthy (body_estado_provincia body) = true ->
  JS.truthy (body_codigo_postal body) = true ->
  JS.truthy (body_pais body) = true ->
  Minimal.createShippingAddress is_default_init now body db
  = let n := ShippingAddress.count (ShippingAddress.where_owner uid) db in
    if 5 <=? n then
      (respond 400 (error_body "Maximum number of addresses reached (5)"), db)
    else
      let row := created_row is_default_init now uid body in
      (respond 201
         (JObj [("message", JStr "Shipping address created successfully");
                ("data", JObj (ShippingAddress.to_json (next_address_id db) row))]),
       (ShippingAddress.create row db).2).
Proof.
  intros Hid Hnz Hd Hc He Hp Hpa.
  unfold Minimal.createShippingAddress.
  rewrite Hid, Hd, Hc, He, Hp, Hpa. cbn [JS.truthy_num default].
  apply Z.eqb_neq in Hnz. rewrite Hnz. cbn [negb orb]. unfold id. cbv zeta.
  destruct (5 <=? _); reflexivity.
Qed.

(** C2: for an existing user and a valid create request, both create
    handlers answer 201 and store the new row under a fresh key, raising
    the owner's count by one, when the owner has at most four addresses;
    with five or more they answer 400 with the limit error and return the
    database unchanged.  So the request made with four addresses stored
    (the fifth) succeeds and the one made with five stored (the sixth) is
    rejected. *)
Theorem create_limit (is_default_init : bool) (now uid : Z)
    (body : AddressBody) (db : DB) :
  valid_create uid body ->
  is_Some (users db !! uid) ->
  db_wf db ->
  let n := ShippingAddress.count (ShippingAddress.where_owner uid) db in
  let full := Full.createShippingAddress is_default_init now body db in
  let minimal := Minimal.createShippingAddress is_default_init now body db in
  let row := created_row is_default_init now uid body in
  (n <= 4 ->
     status full.1 = 201 /\ status minimal.1 = 201
     /\ addresses db !! next_address_id db = None
     /\ addresses full.2 = <[next_address_id db := row]> (addresses db)
     /\ minimal.2 = full.2
     /\ ShippingAddress.count (ShippingAddress.where_owner uid) full.2 = n + 1)
  /\ (5 <= n ->
        full = (respond 400
                  (JObj [("error", JStr "Maximum number of addresses reached (5)");
                         ("currentCount", JNum n)]), db)
        /\ minimal = (respond 400 (error_body "Maximum number of addresses reached (5)"),
                      db)).
Proof.
  intros (Hid & Hnz & Hd & Hc & He & Hp & Hpa & Hre) Hu Hwf n full minimal row.
  subst full minimal.
  rewrite (Full_create_checked _ _ uid) by assumption.
  rewrite (Minimal_create_checked _ _ uid) by assumption.
  cbv zeta. fold n. rewrite Hre. cbn [negb]. split; intros Hn.
  - assert (H5 : (5 <=? n) = false) by (apply Z.leb_gt; lia). rewrite H5.
    cbn [fst snd status respond]. repeat split.
    + apply eq_None_not_Some. intros Hs. apply Hwf in Hs. lia.
    + apply (count_owner_create (created_row is_default_init now uid body) db Hwf).
  - assert (H5 : (5 <=? n) = true) by (apply Z.leb_le; lia). rewrite H5.
    split; reflexivity.
Qed.

Lemma sample_db_lookup (id : Z) (a : AddressRow) :
  addresses sample_db !! id = Some a ->
  (id = 1 /\ a = home 1 true 10) \/ (id = 2 /\ a = home 2 false 20)
  \/ (id = 3 /\ a = home 1 false 30).
Proof.
  cbn. intros H.
  apply lookup_insert_Some in H as [[<- <-]|[_ H]]; [auto|].
  apply lookup_insert_Some in H as [[<- <-]|[_ H]]; [auto|].
  apply lookup_insert_Some in H as [[<- <-]|[_ H]]; [auto|].
  rewrite lookup_empty in H. discriminate H.
Defined.

Lemma sample_db_wf : db_wf sample_db.
Proof.
  intros id [a Ha]. cbn in *.
  destruct (decide (id = 1)) as [->|H1]; [lia|].
  destruct (decide (id = 2)) as [->|H2]; [lia|].
  destruct (decide (id = 3)) as [->|H3]; [lia|].
  rewrite !lookup_insert_ne, lookup_empty in Ha by congruence. discriminate.
Defined.

Lemma sample_body_valid (uid : Z) : uid <> 0 -> valid_create uid (sample_body uid).
Proof. intros H. repeat split; assumption || reflexivity. Defined.

Lemma create_limit_witness :
  let n := ShippingAddress.count (ShippingAddress.where_owner 2) sample_db in
  let full := Full.createShippingAddress false 40 (sample_body 2) sample_db in
  let minimal := Minimal.createShippingAddress false 40 (sample_body 2) sample_db in
  let row := created_row false 40 2 (sample_body 2) in
  (n <= 4 ->
     status full.1 = 201 /\ status minimal.1 = 201
     /\ addresses sample_db !! next_address_id sample_db = None
     /\ addresses full.2 = <[next_address_id sample_db := row]> (addresses sample_db)
     /\ minimal.2 = full.2
     /\ ShippingAddress.count (ShippingAddress.where_owner 2) full.2 = n + 1)
  /\ (5 <= n ->
        full = (respond 400
                  (JObj [("error", JStr "Maximum number of addresses reached (5)");
                         ("currentCount", JNum n)]), sample_db)
        /\ minimal = (respond 400 (error_body "Maximum number of addresses reached (5)"),
                      sample_db)).
Proof.
  apply (create_limit false 40 2 (sample_body 2) sample_db).
  - apply sample_body_valid. lia.
  - exists luis. reflexivity.
  - exact sample_db_wf.
Defined.

(** One create request after another for the same user: as long as the
    user has fewer than five addresses the request is stored, from then
    on every request is refused. *)
Lemma create_all_statuses (is_default_init : bool) (uid : Z)
    (reqs : list (Z * AddressBody)) (db : DB) :
  Forall (fun req => valid_create uid req.2) reqs ->
  is_Some (users db !! uid) ->
  db_wf db ->
  let free := Z.to_nat (5 - ShippingAddress.count (ShippingAddress.where_owner uid) db) in
  (create_all is_default_init reqs db).1
  = (replicate (Nat.min (length reqs) free) 201
     ++ replicate (length reqs - free) 400)%list.
Proof.
  intros Hvalid. revert db.
  induction Hvalid as [|[now reqBody] reqs Hv _ IH]; intros db Hu Hwf free.
  - reflexivity.
  - destruct Hv as (Hid & Hnz & Hd & Hc & He & Hp & Hpa & Hre). cbn [snd] in *.
    cbn [create_all fst snd length].
    rewrite (Full_create_checked _ _ uid) by assumption. cbv zeta.
    rewrite Hre. cbn [negb].
    pose proof (count_nonneg (ShippingAddress.where_owner uid) db) as Hn0.
    destruct (Z.leb_spec 5 (ShippingAddress.count (ShippingAddress.where_owner uid) db))
      as [Hfull|Hroom]; cbn [fst snd status respond].
    + rewrite (IH db Hu Hwf). subst free.
      replace (Z.to_nat (5 - ShippingAddress.count
                                (ShippingAddress.where_owner uid) db))
        with 0%nat by lia.
      rewrite !Nat.min_0_r, !Nat.sub_0_r. reflexivity.
    + set (row := created_row is_default_init now uid reqBody).
      pose proof (count_owner_create row db Hwf) as Hcount.
      change (usuario_id row) with uid in Hcount.
      rewrite (IH (ShippingAddress.create row db).2 Hu (create_wf row db Hwf)).
      rewrite Hcount.
      destruct free as [|free'] eqn:Hfree; [subst free; lia|].
      replace (Z.to_nat (5 - (ShippingAddress.count
                                 (ShippingAddress.where_owner uid) db + 1)))
        with free' by lia.
      reflexivity.
Qed.

(** In particular, of six valid requests for a user without addresses the
    first five are stored and the sixth is refused. *)
Corollary sixth_create_refused (is_default_init : bool) (uid : Z)
    (reqs : list (Z * AddressBody)) (db : DB) :
  Forall (fun req => valid_create uid req.2) reqs ->
  length reqs = 6%nat ->
  is_Some (users db !! uid) ->
  db_wf db ->
  ShippingAddress.count (ShippingAddress.where_owner uid) db = 0 ->
  (create_all is_default_init reqs db).1 = [201; 201; 201; 201; 201; 400].
Proof.
  intros Hvalid Hlen Hu Hwf Hzero.
  rewrite (create_all_statuses is_default_init uid reqs db Hvalid Hu Hwf).
  rewrite Hlen, Hzero. reflexivity.
Qed.

Example six_creates_from_empty :
  let r := create_all false (map (fun t => (t, sample_body 1)) [50; 51; 52; 53; 54; 55])
             (set_addresses ∅ sample_db) in
  r.1 = [201; 201; 201; 201; 201; 400] /\ size (addresses r.2) = 5%nat.
Proof. vm_compute. split; reflexivity. Qed.

(** ** ListByUser with no address *)

(** The answers of the full per-user listing for a user that exists:
    the [catch] when the window is refused, else the test of the count. *)
Lemma Full_list_answers (uid : Z) (user : UserRow) (q : ListQuery) (db : DB) :
  users db !! uid = Some user ->
  let n := ShippingAddress.count (ShippingAddress.where_owner uid) db in
  let page := Full.page_of_query q in
  let limit := Full.limit_of_query q in
  let offset := window_offset page limit in
  Full.getShippingAddressesByUserId (Some uid) q db
  = if ShippingAddress.max_bigint <? offset then (query_failed, db)
    else if n =? 0 then
      (respond 404
         (JObj [("message", JStr "No shipping addresses found for this user");
                ("userId", JNum uid);
                ("userName", JStr (firstName user))]), db)
    else
      ({| headers := [("Cache-Control", "private, max-age=300")];
          status := 200;
          body :=
            JObj [("message", JStr "Shipping addresses retrieved successfully");
                  ("data",
                   JObj [("user",
                          JObj [("id", JNum uid);
                                ("name", JStr (firstName user ++ " "
                                               ++ lastName_father user))]);
                         ("addresses",
                          JArr (map (fun kv =>
                                       ShippingAddress.with_user User.minimal_json db
                                         (ShippingAddress.listing_json kv.1 kv.2) kv.2)
                                    (ShippingAddress.page_of limit offset
                                       (ShippingAddress.select
                                          (ShippingAddress.where_owner uid) db))));
                         ("pagination",
                          pagination_json page (JS.ceil_div n limit) n limit)])]
       |}, db).
Proof.
  intros Hu n page limit offset.
  unfold Full.getShippingAddressesByUserId, User.findByPk. rewrite Hu. cbv zeta.
  fold (window_offset (Full.page_of_query q) (Full.limit_of_query q)).
  fold page limit. fold offset.
  unfold ShippingAddress.findAndCountAll_join.
  subst offset page limit. rewrite Full_window_refused.
  destruct (ShippingAddress.max_bigint <? _); [reflexivity|].
  cbn [fst snd]. rewrite select_join_owner by (rewrite Hu; eauto).
  reflexivity.
Qed.

Lemma Full_list_refused (uid : Z) (user : UserRow) (q : ListQuery) (db : DB) :
  users db !! uid = Some user ->
  ShippingAddress.max_bigint
  < window_offset (Full.page_of_query q) (Full.limit_of_query q) ->
  Full.getShippingAddressesByUserId (Some uid) q db = (query_failed, db).
Proof.
  intros Hu Hw. rewrite (Full_list_answers uid user q db Hu). cbv zeta.
  apply Z.ltb_lt in Hw. rewrite Hw. reflexivity.
Qed.

Lemma Full_list_empty (uid : Z) (user : UserRow) (q : ListQuery) (db : DB) :
  users db !! uid = Some user ->
  window_offset (Full.page_of_query q) (Full.limit_of_query q)
  <= ShippingAddress.max_bigint ->
  ShippingAddress.count (ShippingAddress.where_owner uid) db = 0 ->
  Full.getShippingAddressesByUserId (Some uid) q db
  = (respond 404
       (JObj [("message", JStr "No shipping addresses found for this user");
              ("userId", JNum uid);
              ("userName", JStr (firstName user))]), db).
Proof.
  intros Hu Hw Hz. rewrite (Full_list_answers uid user q db Hu). cbv zeta.
  apply Z.ltb_ge in Hw. rewrite Hw, Hz. reflexivity.
Qed.




(** ** Update *)

(** What [updateShippingAddress] does once the address is found and the
    caller is authorized: the postal-code check, then the update. *)
Lemma Full_update_authorized (now id : Z) (req : Caller) (body : AddressBody)
    (a : AddressRow) (db : DB) :
  addresses db !! id = Some a ->
  is_Some (users db !! usuario_id a) ->
  authorized req a ->
  Full.updateShippingAddress now (Some id) req body db
  = if JS.truthy (body_codigo_postal body)
       && negb (postalCodeRegex_test (JS.trim (str (body_codigo_postal body))))
    then (respond 400 (error_body "Invalid postal code format"), db)
    else
      let a' :=
        apply_updates
          {| upd_updated_at := now;
             upd_direccion := trimmed_if_truthy (body_direccion body);
             upd_ciudad := trimmed_if_truthy (body_ciudad body);
             upd_estado_provincia := trimmed_if_truthy (body_estado_provincia body);
             upd_codigo_postal := trimmed_if_truthy (body_codigo_postal body);
             upd_pais := trimmed_if_truthy (body_pais body) |} a in
      let db' := set_addresses (<[id := a']> (addresses db)) db in
      (respond 200
         (JObj [("message", JStr "Shipping address updated successfully");
                ("data",
                 ShippingAddress.with_user User.minimal_json db'
                   (ShippingAddress.to_json id a') a')]), db').
Proof.
  intros Ha Hu Hauth.
  destruct (findByPk_join_Some id a db Ha Hu) as [u Hj].
  unfold Full.updateShippingAddress.
  rewrite Hj, (authorized_passes req a Hauth). reflexivity.
Qed.

(** The value a text field has after an update that assigns
    [trimmed_if_truthy supplied]. *)
Lemma updated_field (supplied : option string) (old : string) :
  default old (trimmed_if_truthy supplied)
  = match supplied with
    | Some s => if decide (s = "") then old else JS.trim s
    | None => old
    end.
Proof.
  unfold trimmed_if_truthy. destruct supplied as [[|c s]|]; reflexivity.
Qed.

(** C6: an authorized update of an existing address whose postal code,
    when supplied, is well-formed answers 200 and replaces the row by one
    in which every text field that the request carries as a non-empty
    string holds that string trimmed, every other text field (absent, or
    empty and thus not supplied) keeps its value, owner, default flag and
    creation time are unchanged, and [updated_at] is the time of the
    call. *)
Theorem update_changes_only_supplied_fields (now id : Z) (req : Caller)
    (reqBody : AddressBody) (a : AddressRow) (db : DB) :
  addresses db !! id = Some a ->
  is_Some (users db !! usuario_id a) ->
  authorized req a ->
  (JS.truthy (body_codigo_postal reqBody) = true ->
   postalCodeRegex_test (JS.trim (str (body_codigo_postal reqBody))) = true) ->
  let r := Full.updateShippingAddress now (Some id) req reqBody db in
  exists a',
    status r.1 = 200
    /\ addresses r.2 = <[id := a']> (addresses db)
    /\ users r.2 = users db
    /\ json_get "data" (body r.1)
       = Some (ShippingAddress.with_user User.minimal_json r.2
                 (ShippingAddress.to_json id a') a')
    /\ Forall (fun f : (AddressBody -> option string) * (AddressRow -> string) =>
                 f.2 a' = match f.1 reqBody with
                          | Some s => if decide (s = "") then f.2 a else JS.trim s
                          | None => f.2 a
                          end) text_fields
    /\ usuario_id a' = usuario_id a
    /\ is_default a' = is_default a
    /\ created_at a' = created_at a
    /\ updated_at a' = now.
Proof.
  intros Ha Hu Hauth Hpostal r. subst r.
  rewrite (Full_update_authorized now id req reqBody a db Ha Hu Hauth).
  destruct (JS.truthy (body_codigo_postal reqBody)) eqn:Ht.
  - rewrite (Hpostal eq_refl). cbn [negb andb]. cbv zeta.
    eexists. cbn [fst snd status respond body json_get assoc String.eqb].
    repeat split.
    unfold text_fields, apply_updates. cbn [direccion ciudad estado_provincia
      codigo_postal pais upd_direccion upd_ciudad upd_estado_provincia
      upd_codigo_postal upd_pais].
    repeat constructor; cbn [fst snd]; apply updated_field.
  - cbn [andb]. cbv zeta.
    eexists. cbn [fst snd status respond body json_get assoc String.eqb].
    repeat split.
    unfold text_fields, apply_updates. cbn [direccion ciudad estado_provincia
      codigo_postal pais upd_direccion upd_ciudad upd_estado_provincia
      upd_codigo_postal upd_pais].
    repeat constructor; cbn [fst snd]; apply updated_field.
Qed.

Lemma update_changes_only_supplied_fields_witness :
  let reqBody := mkAddressBody None (Some "  Jr. Cusco 5 ") None (Some "") None None in
  let r := Full.updateShippingAddress 99 (Some 3) (mkCaller 1 false) reqBody sample_db in
  exists a',
    status r.1 = 200
    /\ addresses r.2 = <[3 := a']> (addresses sample_db)
    /\ users r.2 = users sample_db
    /\ json_get "data" (body r.1)
       = Some (ShippingAddress.with_user User.minimal_json r.2
                 (ShippingAddress.to_json 3 a') a')
    /\ Forall (fun f : (AddressBody -> option string) * (AddressRow -> string) =>
                 f.2 a' = match f.1 reqBody with
                          | Some s => if decide (s = "") then f.2 (home 1 false 30)
                                      else JS.trim s
                          | None => f.2 (home 1 false 30)
                          end) text_fields
    /\ usuario_id a' = usuario_id (home 1 false 30)
    /\ is_default a' = is_default (home 1 false 30)
    /\ created_at a' = created_at (home 1 false 30)
    /\ updated_at a' = 99.
Proof.
  intros reqBody.
  apply (update_changes_only_supplied_fields 99 3 (mkCaller 1 false) reqBody
           (home 1 false 30) sample_db).
  - reflexivity.
  - exists ana. reflexivity.
  - left. reflexivity.
  - intros H. discriminate H.
Defined.

(** The stored row of that run: street trimmed, the rest as before. *)
Example update_run :
  addresses (Full.updateShippingAddress 99 (Some 3) (mkCaller 1 false)
               (mkAddressBody None (Some "  Jr. Cusco 5 ") None (Some "") None None)
               sample_db).2 !! 3
  = Some (mkAddress 1 "Jr. Cusco 5" "Lima" "Lima" "15046" "Peru" false 30 99).
Proof. vm_compute. reflexivity. Qed.

(** ** Postal codes *)

Module PostalFacts.
Import Regex.

Lemma dead_not_nullable r : dead r = true -> nullable r = false.
Proof.
  induction r as [| |p|r1 IH1 r2 IH2|r1 IH1 r2 IH2]; simpl; intros H;
    try discriminate; try reflexivity.
  - apply orb_true_iff in H as [H|H]; [rewrite (IH1 H) | rewrite (IH2 H)];
      [reflexivity | apply andb_false_r].
  - apply andb_true_iff in H as [H1 H2]. rewrite (IH1 H1), (IH2 H2). reflexivity.
Qed.

Lemma dead_deriv c r : dead r = true -> dead (deriv c r) = true.
Proof.
  induction r as [| |p|r1 IH1 r2 IH2|r1 IH1 r2 IH2]; simpl; intros H;
    try discriminate; try reflexivity.
  - apply orb_true_iff in H as [H|H].
    + rewrite (dead_not_nullable r1 H). simpl. rewrite (IH1 H). reflexivity.
    + destruct (nullable r1); simpl; rewrite ?(IH2 H), H; rewrite ?orb_true_r; reflexivity.
  - apply andb_true_iff in H as [H1 H2]. rewrite (IH1 H1), (IH2 H2). reflexivity.
Qed.

Lemma matches_dead r s : dead r = true -> matches r s = false.
Proof.
  revert r. induction s as [|c s IH]; intros r H; simpl.
  - apply dead_not_nullable, H.
  - apply IH, dead_deriv, H.
Qed.

Ltac classes H :=
  cbn -[digit lit] in H;
  repeat match type of H with
    | context [digit ?c] => destruct (digit c) eqn:?; cbn -[digit lit] in H
    | context [lit ?a ?c] => destruct (lit a c) eqn:?; cbn -[digit lit] in H
    end;
  try discriminate H.

Ltac digits_ok := repeat constructor; assumption.

(** X1: the strings that the postal-code pattern accepts are exactly
    these: five digits, or five digits, a hyphen and four digits. *)
Lemma postalCodeRegex_shape (s : string) :
  postalCodeRegex_test s = true
  <-> exists d1 d2 d3 d4 d5 rest,
        s = String d1 (String d2 (String d3 (String d4 (String d5 rest))))
        /\ Forall (fun c => digit c = true) [d1; d2; d3; d4; d5]
        /\ (rest = ""
            \/ exists e1 e2 e3 e4,
                 rest = String "-" (String e1 (String e2 (String e3 (String e4 ""))))
                 /\ Forall (fun c => digit c = true) [e1; e2; e3; e4]).
Proof.
  unfold postalCodeRegex_test, postalCodeRegex. split.
  - intros H.
    destruct s as [|d1 [|d2 [|d3 [|d4 [|d5 rest]]]]]; classes H;
      try (rewrite matches_dead in H by reflexivity; discriminate H).
    exists d1, d2, d3, d4, d5, rest. split; [reflexivity|]. split; [digits_ok|].
    destruct rest as [|m [|e1 [|e2 [|e3 [|e4 [|x rest]]]]]]; classes H;
      try (rewrite matches_dead in H by reflexivity; discriminate H).
    + left. reflexivity.
    + right. exists e1, e2, e3, e4.
      match goal with E : lit _ m = true |- _ =>
        apply Ascii.eqb_eq in E; subst m end.
      split; [reflexivity | digits_ok].
  - intros (d1 & d2 & d3 & d4 & d5 & rest & -> & Hd & Hrest).
    inversion Hd as [|? ? D1 Hd1]; subst. inversion Hd1 as [|? ? D2 Hd2]; subst.
    inversion Hd2 as [|? ? D3 Hd3]; subst. inversion Hd3 as [|? ? D4 Hd4]; subst.
    inversion Hd4 as [|? ? D5 _]; subst.
    repeat (cbn -[digit lit];
            match goal with
            | E : digit ?c = true |- context [digit ?c] => rewrite E
            end).
    destruct Hrest as [-> | (e1 & e2 & e3 & e4 & -> & He)]; [reflexivity|].
    inversion He as [|? ? E1 He1]; subst. inversion He1 as [|? ? E2 He2]; subst.
    inversion He2 as [|? ? E3 He3]; subst. inversion He3 as [|? ? E4 _]; subst.
    repeat (cbn -[digit];
            match goal with
            | E : digit ?c = true |- context [digit ?c] => rewrite E
            end).
    reflexivity.
Qed.

End PostalFacts.

(** C7, as stated, fails for the update: an empty postal code does not
    match the pattern, yet the authorized update that carries it is
    answered 200 (the field counts as not supplied and the stored postal
    code stays). *)
Lemma update_accepts_empty_postal_code :
  let r := Full.updateShippingAddress 99 (Some 1) (mkCaller 1 false)
             (mkAddressBody None None None None (Some "") None) sample_db in
  status r.1 = 200
  /\ postalCodeRegex_test (JS.trim "") = false
  /\ ~ (status r.1 = 200 <-> postalCodeRegex_test (JS.trim "") = true).
Proof.
  vm_compute. split; [reflexivity|]. split; [reflexivity|].
  intros [H _]. specialize (H eq_refl). discriminate H.
Qed.

(** C7, as amended: with the other conditions of a create met (fields
    present, user known, fewer than five addresses), the create handler
    answers 201 exactly when the trimmed postal code matches the pattern
    and otherwise answers 400 and stores nothing; an authorized update of
    an existing address answers 200 exactly when the postal code it
    carries is empty (then treated as not supplied, the stored code
    stays) or matches the pattern after trimming, and otherwise answers
    400 "Invalid postal code format" and changes nothing.  "12345" and
    "12345-6789" match; "1234", "abcde" and "12345-67" do not. *)
Theorem postal_code_validation (s : string) (is_default_init : bool)
    (now uid id : Z) (req : Caller) (createBody updateBody : AddressBody)
    (a : AddressRow) (db : DB) :
  body_usuario_id createBody = Some uid -> uid <> 0 ->
  JS.truthy (body_direccion createBody) = true ->
  JS.truthy (body_ciudad createBody) = true ->
  JS.truthy (body_estado_provincia createBody) = true ->
  JS.truthy (body_pais createBody) = true ->
  body_codigo_postal createBody = Some s ->
  is_Some (users db !! uid) ->
  ShippingAddress.count (ShippingAddress.where_owner uid) db <= 4 ->
  body_codigo_postal updateBody = Some s ->
  addresses db !! id = Some a ->
  is_Some (users db !! usuario_id a) ->
  authorized req a ->
  let c := Full.createShippingAddress is_default_init now createBody db in
  let u := Full.updateShippingAddress now (Some id) req updateBody db in
  (status c.1 = 201 <-> postalCodeRegex_test (JS.trim s) = true)
  /\ (postalCodeRegex_test (JS.trim s) = false -> status c.1 = 400 /\ c.2 = db)
  /\ (status u.1 = 200 <-> s = "" \/ postalCodeRegex_test (JS.trim s) = true)
  /\ (s <> "" -> postalCodeRegex_test (JS.trim s) = false ->
      u = (respond 400 (error_body "Invalid postal code format"), db))
  /\ (s = "" -> exists a', addresses u.2 !! id = Some a'
                           /\ codigo_postal a' = codigo_postal a)
  /\ postalCodeRegex_test "12345" = true
  /\ postalCodeRegex_test "12345-6789" = true
  /\ postalCodeRegex_test "1234" = false
  /\ postalCodeRegex_test "abcde" = false
  /\ postalCodeRegex_test "12345-67" = false.
Proof.
  intros Hid Hnz Hd Hc He Hpa Hcs Hu Hn Hus Ha Hau Hauth c u.
  assert (Hcreate :
    (status c.1 = 201 <-> postalCodeRegex_test (JS.trim s) = true)
    /\ (postalCodeRegex_test (JS.trim s) = false -> status c.1 = 400 /\ c.2 = db)).
  { subst c. destruct s as [|ch s'].
    - unfold Full.createShippingAddress. rewrite Hcs. cbn [JS.truthy negb].
      rewrite !orb_true_r. cbn. split; [split; discriminate | auto].
    - rewrite (Full_create_checked _ _ uid) by (rewrite ?Hcs; assumption || reflexivity).
      cbv zeta. rewrite Hcs. cbn [str default Datatypes.id].
      assert (H5 : (5 <=? ShippingAddress.count (ShippingAddress.where_owner uid) db)
                   = false) by (apply Z.leb_gt; lia).
      rewrite H5.
      destruct (postalCodeRegex_test (JS.trim (String ch s'))); cbn;
        split; try split; try discriminate; auto. }
  assert (Hupdate :
    (status u.1 = 200 <-> s = "" \/ postalCodeRegex_test (JS.trim s) = true)
    /\ (s <> "" -> postalCodeRegex_test (JS.trim s) = false ->
        u = (respond 400 (error_body "Invalid postal code format"), db))
    /\ (s = "" -> exists a', addresses u.2 !! id = Some a'
                             /\ codigo_postal a' = codigo_postal a)).
  { subst u. rewrite (Full_update_authorized now id req updateBody a db Ha Hau Hauth).
    rewrite Hus. destruct s as [|ch s'].
    - cbn. rewrite lookup_insert_eq. repeat split; eauto.
      intros Hne. exfalso. apply Hne. reflexivity.
    - cbn [JS.truthy andb str default Datatypes.id].
      destruct (postalCodeRegex_test (JS.trim (String ch s'))); cbn.
      + repeat split; auto; discriminate.
      + repeat split; try discriminate.
        intros [H|H]; discriminate H. }
  destruct Hcreate as (? & ?). destruct Hupdate as (? & ? & ?).
  repeat (split; [assumption|]). repeat (split; [reflexivity|]). reflexivity.
Qed.

Lemma postal_code_validation_witness :
  let s := " 15001-0001 " in
  let c := Full.createShippingAddress false 40 (sample_body 2) sample_db in
  let u := Full.updateShippingAddress 40 (Some 1) (mkCaller 1 false)
             (mkAddressBody None None None None (Some s) None) sample_db in
  (status c.1 = 201 <-> postalCodeRegex_test (JS.trim s) = true)
  /\ (postalCodeRegex_test (JS.trim s) = false -> status c.1 = 400 /\ c.2 = sample_db)
  /\ (status u.1 = 200 <-> s = "" \/ postalCodeRegex_test (JS.trim s) = true)
  /\ (s <> "" -> postalCodeRegex_test (JS.trim s) = false ->
      u = (respond 400 (error_body "Invalid postal code format"), sample_db))
  /\ (s = "" -> exists a', addresses u.2 !! 1 = Some a'
                           /\ codigo_postal a' = codigo_postal (home 1 true 10))
  /\ postalCodeRegex_test "12345" = true
  /\ postalCodeRegex_test "12345-6789" = true
  /\ postalCodeRegex_test "1234" = false
  /\ postalCodeRegex_test "abcde" = false
  /\ postalCodeRegex_test "12345-67" = false.
Proof.
  intros s.
  apply (postal_code_validation s false 40 2 1 (mkCaller 1 false) (sample_body 2)
           (mkAddressBody None None None None (Some s) None)
           (home 1 true 10) sample_db).
  - reflexivity.
  - lia.
  - reflexivity.
  - reflexivity.
  - reflexivity.
  - reflexivity.
  - reflexivity.
  - exists luis. reflexivity.
  - vm_compute. discriminate.
  - reflexivity.
  - reflexivity.
  - exists ana. reflexivity.
  - left. reflexivity.
Defined.

(** The rejected examples, through the handlers. *)
Example rejected_postal_codes :
  Forall (fun s =>
            (Full.createShippingAddress false 40
               (mkAddressBody (Some 2) (Some "Jr. Cusco 5") (Some "Lima") (Some "Lima")
                              (Some s) (Some "Peru")) sample_db)
            = (respond 400 (error_body "Invalid postal code format"), sample_db)
            /\ (Full.updateShippingAddress 40 (Some 1) (mkCaller 1 false)
                  (mkAddressBody None None None None (Some s) None) sample_db)
               = (respond 400 (error_body "Invalid postal code format"), sample_db))
         ["1234"; "abcde"; "12345-67"].
Proof. repeat constructor; vm_compute; reflexivity. Qed.

(** ** Pagination *)

Lemma page_of_query_bounds (q : ListQuery) : 1 <= Full.page_of_query q.
Proof. unfold Full.page_of_query. lia. Qed.

Lemma limit_of_query_bounds (q : ListQuery) : 1 <= Full.limit_of_query q <= 50.
Proof. unfold Full.limit_of_query. lia. Qed.

(** The 200 answer of the per-user listing, when the user exists and owns
    [n > 0] addresses and the database accepts the window. *)
Lemma Full_list_found (uid : Z) (user : UserRow) (q : ListQuery) (db : DB) :
  users db !! uid = Some user ->
  window_offset (Full.page_of_query q) (Full.limit_of_query q)
  <= ShippingAddress.max_bigint ->
  ShippingAddress.count (ShippingAddress.where_owner uid) db <> 0 ->
  let n := ShippingAddress.count (ShippingAddress.where_owner uid) db in
  let page := Full.page_of_query q in
  let limit := Full.limit_of_query q in
  let r := (Full.getShippingAddressesByUserId (Some uid) q db).1 in
  status r = 200
  /\ pagination_of r = Some (pagination_json page (JS.ceil_div n limit) n limit)
  /\ addresses_of r
     = Some (JArr (map (fun kv =>
                          ShippingAddress.with_user User.minimal_json db
                            (ShippingAddress.listing_json kv.1 kv.2) kv.2)
                       (ShippingAddress.page_of limit (window_offset page limit)
                          (ShippingAddress.select (ShippingAddress.where_owner uid) db)))).
Proof.
  intros Hu Hw Hn n page limit r. subst r.
  rewrite (Full_list_answers uid user q db Hu). cbv zeta.
  apply Z.ltb_ge in Hw. rewrite Hw.
  apply Z.eqb_neq in Hn. rewrite Hn.
  repeat split.
Qed.

(** A 200 of the per-user listing tells that the user exists and owns
    addresses and that the database accepted the window. *)
Lemma Full_list_200 (usuarioId : option Z) (q : ListQuery) (db : DB) :
  status (Full.getShippingAddressesByUserId usuarioId q db).1 = 200 ->
  exists uid user,
    usuarioId = Some uid /\ users db !! uid = Some user
    /\ window_offset (Full.page_of_query q) (Full.limit_of_query q)
       <= ShippingAddress.max_bigint
    /\ ShippingAddress.count (ShippingAddress.where_owner uid) db <> 0.
Proof.
  intros Hs. destruct usuarioId as [uid|]; [|discriminate Hs].
  destruct (users db !! uid) as [user|] eqn:Hu.
  2:{ unfold Full.getShippingAddressesByUserId, User.findByPk in Hs.
      rewrite Hu in Hs. discriminate Hs. }
  exists uid, user. split; [reflexivity|]. split; [exact Hu|].
  rewrite (Full_list_answers uid user q db Hu) in Hs. cbv zeta in Hs.
  destruct (Z.ltb_spec ShippingAddress.max_bigint
              (window_offset (Full.page_of_query q) (Full.limit_of_query q)));
    [discriminate Hs|].
  destruct (Z.eqb_spec (ShippingAddress.count (ShippingAddress.where_owner uid) db) 0);
    [discriminate Hs|].
  split; assumption.
Qed.

(** X2: the pagination contract in the full controller: in both of its
    list handlers the page is
    [max 1 p] for a requested page [p] and 1 when none is given (or it
    does not parse); the limit lies in 1..50, is 10 when none is given (a
    requested 0 counts as none), 50 for any request above 50 and
    [min 50 (max 1 l)] for any other requested [l]; and a 200 answer
    carries these two values as [currentPage] and [itemsPerPage] next to
    [totalItems] and a [totalPages] that is the ceiling of
    [totalItems / itemsPerPage]. *)
Theorem pagination_window (usuarioId : option Z) (q : ListQuery) (db : DB)
    (r : Response) :
  r = (Full.getShippingAddressesByUserId usuarioId q db).1
  \/ r = (Full.getAllShippingAddresses q db).1 ->
  status r = 200 ->
  let page := Full.page_of_query q in
  let limit := Full.limit_of_query q in
  1 <= page /\ 1 <= limit <= 50
  /\ (JS.parseInt (query_page q) = None -> page = 1)
  /\ (forall p, JS.parseInt (query_page q) = Some p ->
        page = Z.max 1 p /\ (p < 1 -> page = 1))
  /\ (JS.parseInt (query_limit q) = None -> limit = 10)
  /\ (forall l, JS.parseInt (query_limit q) = Some l ->
        (l = 0 -> limit = 10) /\ (l <> 0 -> limit = Z.min 50 (Z.max 1 l))
        /\ (50 < l -> limit = 50))
  /\ exists totalItems totalPages,
       pagination_of r = Some (pagination_json page totalPages totalItems limit)
       /\ 0 < totalItems
       /\ totalPages = JS.ceil_div totalItems limit
       /\ (totalPages - 1) * limit < totalItems <= totalPages * limit.
Proof.
  intros Hr Hs page limit.
  pose proof (page_of_query_bounds q) as Hp.
  pose proof (limit_of_query_bounds q) as Hl.
  fold page in Hp. fold limit in Hl.
  split; [assumption|]. split; [assumption|].
  split. { intros H. subst page. unfold Full.page_of_query. rewrite H. reflexivity. }
  split. { intros p H. subst page. unfold Full.page_of_query. rewrite H.
           unfold JS.or_default. destruct (Z.eqb_spec p 0); lia. }
  split. { intros H. subst limit. unfold Full.limit_of_query. rewrite H. reflexivity. }
  split. { intros l H. subst limit. unfold Full.limit_of_query. rewrite H.
           unfold JS.or_default. destruct (Z.eqb_spec l 0); lia. }
  destruct Hr as [-> | ->].
  - destruct (Full_list_200 usuarioId q db Hs) as (uid & user & -> & Hu & Hw & Hnz).
    destruct (Full_list_found uid user q db Hu Hw Hnz) as (_ & Hpag & _).
    eexists _, _. split; [exact Hpag|].
    pose proof (count_nonneg (ShippingAddress.where_owner uid) db).
    split; [lia|]. split; [reflexivity|]. apply ceil_div_spec. lia.
  - unfold Full.getAllShippingAddresses in *. fold page limit in Hs |- *.
    cbv zeta in *.
    match goal with
    | |- context [ShippingAddress.count ?w db] => set (n := ShippingAddress.count w db) in *
    end.
    destruct (Z.eqb_spec n 0) as [Hz|Hnz]; [discriminate Hs|].
    destruct (ShippingAddress.findAll_join _ _ _ db) as [rows|]; [|discriminate Hs].
    exists n, (JS.ceil_div n limit). split; [reflexivity|].
    assert (0 <= n) by apply count_nonneg.
    split; [lia|]. split; [reflexivity|]. apply ceil_div_spec. lia.
Qed.

Lemma pagination_window_witness :
  let q := mkListQuery (Some "-3") (Some "100") None None None in
  let r := (Full.getShippingAddressesByUserId (Some 1) q sample_db).1 in
  Full.page_of_query q = 1
  /\ Full.limit_of_query q = 50
  /\ pagination_of r = Some (pagination_json 1 1 2 50).
Proof.
  intros q r.
  destruct (pagination_window (Some 1) q sample_db r (or_introl eq_refl) eq_refl)
    as (_ & _ & _ & Hp & _ & Hl & (n & t & Hpag & _ & _ & _)).
  destruct (Hp (-3) eq_refl) as [_ Hp1]. destruct (Hl 100 eq_refl) as (_ & _ & Hl50).
  split; [apply Hp1; lia|]. split; [apply Hl50; lia|].
  vm_compute. reflexivity.
Defined.

(** C8 fails in the minimal controller, whose per-user listing applies
    the defaults but neither bound: for a user with two addresses a
    requested limit of 100 is used as it is ([itemsPerPage] is 100 where
    the contract has 50), and a requested page of -1 is used as it is, so
    that the offset is -20, which the database refuses (500 where the
    contract has page 1). *)
Theorem minimal_list_is_not_clamped :
  pagination_of (Minimal.getShippingAddressesByUserId (Some 1)
                   (mkListQuery (Some "1") (Some "100") None None None) sample_db).1
  = Some (pagination_json 1 1 2 100)
  /\ Full.limit_of_query (mkListQuery (Some "1") (Some "100") None None None) = 50
  /\ status (Minimal.getShippingAddressesByUserId (Some 1)
               (mkListQuery (Some "-1") None None None None) sample_db).1 = 500
  /\ Full.page_of_query (mkListQuery (Some "-1") None None None None) = 1.
Proof. vm_compute. repeat split; reflexivity. Qed.

(** ** ListByUser with addresses *)

(** C10 fails as it stands: user 1 owns two addresses, and for a
    requested page of 99999999999999999999999 the answer is 500, not 200:
    the offset of that page is beyond the range of the database, which
    refuses the query. *)
Lemma list_with_addresses_refused :
  let q := mkListQuery (Some "99999999999999999999999") (Some "2") None None None in
  users sample_db !! 1 = Some ana
  /\ ShippingAddress.count (ShippingAddress.where_owner 1) sample_db = 2
  /\ status (Full.getShippingAddressesByUserId (Some 1) q sample_db).1 = 500
  /\ status (Full.getShippingAddressesByUserId (Some 1) q sample_db).1 <> 200.
Proof. vm_compute. repeat split; discriminate. Qed.

(** C10, as amended: for an existing user and every requested page whose
    offset [(page - 1) * limit] the database accepts (at most 2^63 - 1),
    the per-user listing of the full controller answers 404 exactly when
    the user owns no address; when the user owns [n > 0] addresses it
    answers 200, with [totalItems = n] and [totalPages = ceil (n / limit)]
    in the pagination, and (for [n] up to 2^53, where JavaScript counts
    exactly) with an empty [addresses] array when the requested page lies
    past the last one.  For a page whose offset is beyond that range the
    answer is 500. *)
Theorem list_with_addresses_is_200 (uid : Z) (user : UserRow) (q : ListQuery)
    (db : DB) :
  users db !! uid = Some user ->
  let n := ShippingAddress.count (ShippingAddress.where_owner uid) db in
  let page := Full.page_of_query q in
  let limit := Full.limit_of_query q in
  let offset := window_offset page limit in
  let r := (Full.getShippingAddressesByUserId (Some uid) q db).1 in
  (ShippingAddress.max_bigint < offset -> status r = 500)
  /\ (offset <= ShippingAddress.max_bigint ->
      (status r = 404 <-> n = 0)
      /\ (n = 0 <-> forall id a, addresses db !! id = Some a -> usuario_id a <> uid)
      /\ ((exists id a, addresses db !! id = Some a /\ usuario_id a = uid) ->
          status r = 200
          /\ pagination_of r = Some (pagination_json page (JS.ceil_div n limit) n limit)
          /\ (n <= 2 ^ 53 -> JS.ceil_div n limit < page ->
              addresses_of r = Some (JArr [])))).
Proof.
  intros Hu n page limit offset r.
  split.
  { intros Hw. subst r. rewrite (Full_list_refused uid user q db Hu Hw). reflexivity. }
  intros Hw.
  assert (Hpos : n <> 0 ->
     status r = 200
     /\ pagination_of r = Some (pagination_json page (JS.ceil_div n limit) n limit)
     /\ (n <= 2 ^ 53 -> JS.ceil_div n limit < page -> addresses_of r = Some (JArr []))).
  { intros Hn. destruct (Full_list_found uid user q db Hu Hw Hn) as (Hs & Hpag & Haddr).
    split; [exact Hs|]. split; [exact Hpag|]. intros Hsafe Hpast.
    fold r page limit in Haddr. rewrite Haddr.
    rewrite page_of_past_end; [reflexivity|].
    fold (ShippingAddress.count (ShippingAddress.where_owner uid) db). fold n.
    pose proof (limit_of_query_bounds q) as Hl. fold limit in Hl.
    pose proof (count_nonneg (ShippingAddress.where_owner uid) db) as H0. fold n in H0.
    apply window_offset_past_end; [split; assumption | lia | exact Hpast]. }
  split; [|split].
  - split.
    + intros Hs. destruct (Z.eq_dec n 0) as [|Hn]; [assumption|].
      destruct (Hpos Hn) as (Hs' & _). rewrite Hs' in Hs. discriminate Hs.
    + intros Hz. subst r. rewrite (Full_list_empty uid user q db Hu Hw Hz). reflexivity.
  - apply count_owner_zero.
  - intros (id & a & Ha & Hown). apply Hpos. intros Hz.
    apply (proj1 (count_owner_zero uid db) Hz id a Ha Hown).
Qed.

Lemma list_with_addresses_is_200_witness :
  let q := mkListQuery (Some "7") (Some "2") None None None in
  let r := (Full.getShippingAddressesByUserId (Some 1) q sample_db).1 in
  status r = 200
  /\ pagination_of r = Some (pagination_json 7 1 2 2)
  /\ addresses_of r = Some (JArr []).
Proof.
  intros q r.
  destruct (list_with_addresses_is_200 1 ana q sample_db eq_refl) as (_ & H).
  destruct H as (_ & _ & H); [vm_compute; discriminate|].
  destruct H as (Hs & Hpag & Hempty).
  - exists 1, (home 1 true 10). split; reflexivity.
  - split; [exact Hs|]. split; [exact Hpag|].
    apply Hempty; [vm_compute; discriminate | vm_compute; reflexivity].
Defined.

(** ** Credentials *)

Lemma length_append (s1 s2 : string) :
  String.length (s1 +:+ s2) = (String.length s1 + String.length s2)%nat.
Proof. induction s1 as [|c s1 IH]; simpl; [reflexivity | rewrite IH; reflexivity]. Qed.

Section Credentials.

Variable bcrypt_hash : string -> string -> string.

(** The hash of a password is never the password itself. *)
Hypothesis hash_is_not_identity : forall password salt, bcrypt_hash password salt <> password.

(** C9: a profile update keeps every stored credential a salted hash; and
    when the request carries a (non-empty) password for an existing user,
    the handler answers 200 and the credential stored for that user is
    [bcrypt_hash password salt], which is not the password. *)
Theorem updateUserProfile_stores_hash (salt : string) (id : Z)
    (reqBody : ProfileBody) (db : DB) :
  let r := UserController.updateUserProfile bcrypt_hash salt id reqBody db in
  (credentials_hashed bcrypt_hash db -> credentials_hashed bcrypt_hash r.2)
  /\ (forall user password,
        users db !! id = Some user ->
        body_password reqBody = Some password -> password <> "" ->
        status r.1 = 200
        /\ exists user',
             users r.2 !! id = Some user'
             /\ hashed_password user' = bcrypt_hash password salt
             /\ hashed_password user' <> password)
  /\ (forall user,
        users db !! id = Some user ->
        JS.truthy (body_password reqBody) = false ->
        exists user',
          users r.2 !! id = Some user'
          /\ hashed_password user' = hashed_password user).
Proof.
  intros r. subst r. unfold UserController.updateUserProfile, User.findByPk.
  split; [|split].
  - intros Hinv. destruct (users db !! id) as [user|] eqn:Hu; [|exact Hinv].
    cbn [snd]. intros k u. unfold User.save, set_users. cbn [users].
    destruct (decide (id = k)) as [<-|Hne].
    + rewrite lookup_insert_eq. intros [= <-].
      destruct (JS.truthy (body_password reqBody)).
      * eexists _, _. reflexivity.
      * destruct (Hinv id user Hu) as (p & s & Hp). exists p, s.
        destruct (JS.truthy (body_nombre reqBody)), (JS.truthy (body_email reqBody));
          exact Hp.
    + rewrite lookup_insert_ne by assumption. apply Hinv.
  - intros user password Hu Hp Hne. rewrite Hu, Hp.
    assert (Ht : JS.truthy (Some password) = true)
      by (destruct password; [contradiction | reflexivity]).
    rewrite Ht. cbn [fst snd status respond]. split; [reflexivity|].
    eexists. unfold User.save, set_users. cbn [users].
    rewrite lookup_insert_eq. split; [reflexivity|].
    cbn [hashed_password set_hashed_password str default Datatypes.id].
    split; [reflexivity | apply hash_is_not_identity].
  - intros user Hu Ht. rewrite Hu, Ht. cbn [snd].
    eexists. unfold User.save, set_users. cbn [users].
    rewrite lookup_insert_eq. split; [reflexivity|].
    destruct (JS.truthy (body_nombre reqBody)), (JS.truthy (body_email reqBody));
      reflexivity.
Qed.

End Credentials.

Lemma toy_hash_is_not_identity (password salt : string) :
  toy_hash password salt <> password.
Proof.
  intros H. apply (f_equal String.length) in H. unfold toy_hash in H.
  rewrite !length_append in H. simpl in H. lia.
Defined.

Lemma updateUserProfile_stores_hash_witness :
  let r := UserController.updateUserProfile toy_hash "salt" 1
             (mkProfileBody None None (Some "secret")) sample_db in
  status r.1 = 200
  /\ exists user',
       users r.2 !! 1 = Some user'
       /\ hashed_password user' = toy_hash "secret" "salt"
       /\ hashed_password user' <> "secret".
Proof.
  intros r.
  destruct (updateUserProfile_stores_hash toy_hash toy_hash_is_not_identity "salt" 1
              (mkProfileBody None None (Some "secret")) sample_db) as (_ & H & _).
  apply (H ana "secret").
  - reflexivity.
  - reflexivity.
  - discriminate.
Defined.

(** ** Runs of the primitives *)

Example trim_ex : JS.trim "  12345 " = "12345".
Proof. reflexivity. Qed.
Example parseInt_ex1 : JS.parseInt (Some " -12abc") = Some (-12).
Proof. reflexivity. Qed.
Example parseInt_ex2 : JS.parseInt (Some "0x1f") = Some 31.
Proof. reflexivity. Qed.
Example parseInt_ex3 : JS.parseInt (Some "abc") = None.
Proof. reflexivity. Qed.
Example parseInt_ex4 : JS.parseInt (Some "9007199254740993") = Some 9007199254740992.
Proof. vm_compute. reflexivity. Qed.
Example parseInt_ex5 :
  JS.parseInt (Some "99999999999999999999999") = Some 99999999999999991611392.
Proof. vm_compute. reflexivity. Qed.
Example window_offset_ex :
  window_offset 9223372036854775300 1 = 9223372036854775808
  /\ ShippingAddress.window_refused 1 (window_offset 9223372036854775300 1) = true.
Proof. vm_compute. split; reflexivity. Qed.
Example postal_ex1 : postalCodeRegex_test "12345-6789" = true.
Proof. reflexivity. Qed.
Example postal_ex2 : postalCodeRegex_test "12345-67" = false.
Proof. reflexivity. Qed.

(** * Further properties of the controllers *)

(** ** Trimming *)

Lemma trimEnd_idempotent (s : string) : JS.trimEnd (JS.trimEnd s) = JS.trimEnd s.
Proof.
  induction s as [|c s IH]; [reflexivity|]. simpl.
  destruct (JS.trimEnd s) as [|d t] eqn:Ht.
  - destruct (JS.is_whitespace c) eqn:Hc; [reflexivity|]. simpl. rewrite Hc. reflexivity.
  - change (JS.trimEnd (String c (String d t))) with
      (match JS.trimEnd (String d t) with
       | EmptyString => if JS.is_whitespace c then EmptyString else String c EmptyString
       | t' => String c t'
       end).
    rewrite IH. reflexivity.
Qed.

Lemma trimStart_no_leading (s : string) : no_leading_whitespace (JS.trimStart s).
Proof.
  induction s as [|c s IH]; simpl; [exact I|].
  destruct (JS.is_whitespace c) eqn:Hc; [exact IH | exact Hc].
Qed.

Lemma trimStart_fixed (s : string) : no_leading_whitespace s -> JS.trimStart s = s.
Proof. destruct s as [|c s]; simpl; [reflexivity|]. intros ->. reflexivity. Qed.

Lemma trimEnd_no_leading (s : string) :
  no_leading_whitespace s -> no_leading_whitespace (JS.trimEnd s).
Proof.
  destruct s as [|c s]; simpl; [exact id|]. intros Hc.
  destruct (JS.trimEnd s); [rewrite Hc|]; exact Hc.
Qed.

(** Trimming twice is trimming once. *)
Lemma trim_idempotent (s : string) : JS.trim (JS.trim s) = JS.trim s.
Proof.
  unfold JS.trim.
  rewrite (trimStart_fixed (JS.trimEnd (JS.trimStart s)))
    by apply trimEnd_no_leading, trimStart_no_leading.
  apply trimEnd_idempotent.
Qed.

(** ** Outcomes of a create request *)

Lemma truthy_num_Some (o : option Z) :
  JS.truthy_num o = true <-> exists n, o = Some n /\ n <> 0.
Proof.
  destruct o as [n|]; simpl.
  - rewrite negb_true_iff, Z.eqb_neq. split.
    + intros H. exists n. auto.
    + intros (m & [= <-] & H). exact H.
  - split; [discriminate | intros (m & [=] & _)].
Qed.

(** The guard on the six fields of a create request. *)
Lemma fields_guard (reqBody : AddressBody) :
  negb (JS.truthy_num (body_usuario_id reqBody)) || negb (JS.truthy (body_direccion reqBody))
  || negb (JS.truthy (body_ciudad reqBody)) || negb (JS.truthy (body_estado_provincia reqBody))
  || negb (JS.truthy (body_codigo_postal reqBody)) || negb (JS.truthy (body_pais reqBody))
  = false
  <-> exists uid, body_usuario_id reqBody = Some uid /\ uid <> 0
        /\ JS.truthy (body_direccion reqBody) = true
        /\ JS.truthy (body_ciudad reqBody) = true
        /\ JS.truthy (body_estado_provincia reqBody) = true
        /\ JS.truthy (body_codigo_postal reqBody) = true
        /\ JS.truthy (body_pais reqBody) = true.
Proof.
  rewrite !orb_false_iff, !negb_false_iff, truthy_num_Some. split.
  - intros (((((( uid & Hid & Hnz) & Hd) & Hc) & He) & Hp) & Hpa). exists uid. tauto.
  - intros (uid & Hid & Hnz & Hd & Hc & He & Hp & Hpa). repeat split; eauto.
Qed.

(** The two ways a create request ends. *)
Lemma Full_create_cases (is_default_init : bool) (now : Z)
    (reqBody : AddressBody) (db : DB) :
  let r := Full.createShippingAddress is_default_init now reqBody db in
  let uid := default 0 (body_usuario_id reqBody) in
  let creatable :=
    valid_create uid reqBody /\ is_Some (users db !! uid)
    /\ ShippingAddress.count (ShippingAddress.where_owner uid) db <= 4 in
  creatable /\ status r.1 = 201
  /\ r.2 = (ShippingAddress.create (created_row is_default_init now uid reqBody) db).2
  \/ ~ creatable /\ (status r.1 = 400 \/ status r.1 = 404) /\ r.2 = db.
Proof.
  intros r uid creatable.
  destruct (negb (JS.truthy_num (body_usuario_id reqBody))
            || negb (JS.truthy (body_direccion reqBody))
            || negb (JS.truthy (body_ciudad reqBody))
            || negb (JS.truthy (body_estado_provincia reqBody))
            || negb (JS.truthy (body_codigo_postal reqBody))
            || negb (JS.truthy (body_pais reqBody))) eqn:HG.
  - assert (Hr : r = (respond 400
       (JObj [("error", JStr "All fields are required");
              ("required", JArr [JStr "usuario_id"; JStr "direccion"; JStr "ciudad";
                                 JStr "estado_provincia"; JStr "codigo_postal";
                                 JStr "pais"])]), db)).
    { subst r. unfold Full.createShippingAddress. rewrite HG. reflexivity. }
    rewrite Hr. cbn [fst snd status respond]. right. split; [|auto].
    intros ((Hid & Hnz & Hd & Hc & He & Hp & Hpa & _) & _).
    assert (HG' : negb (JS.truthy_num (body_usuario_id reqBody))
            || negb (JS.truthy (body_direccion reqBody))
            || negb (JS.truthy (body_ciudad reqBody))
            || negb (JS.truthy (body_estado_provincia reqBody))
            || negb (JS.truthy (body_codigo_postal reqBody))
            || negb (JS.truthy (body_pais reqBody)) = false)
      by (apply fields_guard; eauto 10).
    congruence.
  - destruct (proj1 (fields_guard reqBody) HG)
      as (uid' & Hid & Hnz & Hd & Hc & He & Hp & Hpa).
    assert (Huid : uid = uid') by (subst uid; rewrite Hid; reflexivity).
    clearbody uid. subst uid'.
    destruct (users db !! uid) as [user|] eqn:Hu.
    + assert (Hs : is_Some (users db !! uid)) by (rewrite Hu; eauto).
      subst r. rewrite (Full_create_checked _ _ uid) by assumption. cbv zeta.
      destruct (Z.leb_spec 5 (ShippingAddress.count (ShippingAddress.where_owner uid) db))
        as [Hfull|Hroom].
      * cbn [fst snd status respond]. right. split; [|auto].
        intros (_ & _ & Hle). lia.
      * destruct (postalCodeRegex_test (JS.trim (str (body_codigo_postal reqBody))))
          eqn:Hre; cbn [negb fst snd status respond].
        -- left. split; [|auto].
           subst creatable. unfold valid_create. repeat split; eauto. lia.
        -- right. split; [|auto].
           intros ((_ & _ & _ & _ & _ & _ & _ & Hre') & _). congruence.
    + assert (Hr : r = (respond 404 (error_body "User not found"), db)).
      { subst r. unfold Full.createShippingAddress. rewrite HG, Hid.
        cbn [default Datatypes.id]. unfold User.findByPk, id. rewrite Hu. reflexivity. }
      rewrite Hr. cbn [fst snd status respond]. right. split; [|auto].
      intros (_ & [u Hsome] & _). congruence.
Qed.

(** X3: the full create handler stores a row exactly when the request is
    valid (six fields present and non-empty, postal code of the pattern),
    its user exists and owns at most four addresses; it then stores the
    trimmed row under the next key and moves the counter on.  In every
    other case it answers 400 or 404 and returns the database it
    received; the users table is never written. *)
Theorem createShippingAddress_outcomes (is_default_init : bool) (now : Z)
    (reqBody : AddressBody) (db : DB) :
  let r := Full.createShippingAddress is_default_init now reqBody db in
  let uid := default 0 (body_usuario_id reqBody) in
  let creatable :=
    valid_create uid reqBody /\ is_Some (users db !! uid)
    /\ ShippingAddress.count (ShippingAddress.where_owner uid) db <= 4 in
  (status r.1 = 201 <-> creatable)
  /\ (status r.1 = 201
      /\ addresses r.2
         = <[next_address_id db := created_row is_default_init now uid reqBody]>
             (addresses db)
      /\ next_address_id r.2 = next_address_id db + 1
      \/ (status r.1 = 400 \/ status r.1 = 404) /\ r.2 = db)
  /\ users r.2 = users db.
Proof.
  intros r uid creatable.
  destruct (Full_create_cases is_default_init now reqBody db)
    as [(Hc & Hs & Hdb) | (Hc & Hs & Hdb)]; fold r uid in Hs, Hdb; fold uid creatable in Hc.
  - rewrite Hdb. split; [tauto|]. split; [left; auto | reflexivity].
  - rewrite Hdb. split; [|split; [right; auto | reflexivity]].
    split; [|tauto]. intros H. destruct Hs as [Hs|Hs]; rewrite Hs in H; discriminate H.
Qed.

(** ** The pages of a listing *)

#[local] Existing Instance ShippingAddress.newer_first_dec.

#[local] Instance newer_first_total : Total ShippingAddress.newer_first.
Proof. intros x y. unfold ShippingAddress.newer_first. lia. Qed.

#[local] Instance newer_first_transitive : Transitive ShippingAddress.newer_first.
Proof. intros x y z. unfold ShippingAddress.newer_first. lia. Qed.

Lemma page_of_elem (limit offset : Z) (m : gmap Z AddressRow) (kv : Z * AddressRow) :
  kv ∈ ShippingAddress.page_of limit offset m -> m !! kv.1 = Some kv.2.
Proof.
  unfold ShippingAddress.page_of. intros H.
  apply subseteq_take, subseteq_drop in H.
  rewrite (merge_sort_Permutation _ (map_to_list m)) in H.
  destruct kv. apply elem_of_map_to_list in H. assumption.
Qed.

Lemma page_of_sorted (limit offset : Z) (m : gmap Z AddressRow) :
  StronglySorted ShippingAddress.newer_first (ShippingAddress.page_of limit offset m).
Proof.
  unfold ShippingAddress.page_of.
  pose proof (StronglySorted_merge_sort ShippingAddress.newer_first (map_to_list m)) as Hs.
  rewrite <- (take_drop (Z.to_nat offset)) in Hs.
  apply StronglySorted_app_1_r in Hs.
  rewrite <- (take_drop (Z.to_nat limit)) in Hs.
  apply StronglySorted_app_1_l in Hs. exact Hs.
Qed.

Lemma page_of_NoDup (limit offset : Z) (m : gmap Z AddressRow) :
  NoDup (ShippingAddress.page_of limit offset m).*1.
Proof.
  unfold ShippingAddress.page_of.
  apply (sublist_NoDup _ (merge_sort ShippingAddress.newer_first (map_to_list m)).*1).
  - rewrite (merge_sort_Permutation _ (map_to_list m)). apply NoDup_fst_map_to_list.
  - apply fmap_sublist. etransitivity; [apply sublist_take | apply sublist_drop].
Qed.

(** Rows created at different instants have one order from newest to
    oldest: whatever the database does with ties, it returns this list. *)
Lemma newest_first_unique (m : gmap Z AddressRow) (sorted : list (Z * AddressRow)) :
  (forall k1 k2 a1 a2, m !! k1 = Some a1 -> m !! k2 = Some a2 ->
     created_at a1 = created_at a2 -> k1 = k2) ->
  sorted ≡ₚ map_to_list m ->
  StronglySorted (fun x y => created_at y.2 <= created_at x.2) sorted ->
  merge_sort ShippingAddress.newer_first (map_to_list m) = sorted.
Proof.
  intros Hdist Hperm Hsorted.
  apply (StronglySorted_unique_strong ShippingAddress.newer_first).
  - intros [k1 a1] [k2 a2] H1 H2 H12 H21.
    rewrite (merge_sort_Permutation _ (map_to_list m)) in H1.
    rewrite Hperm in H2.
    apply elem_of_map_to_list in H1, H2.
    unfold ShippingAddress.newer_first in H12, H21. cbn in H12, H21.
    assert (Hk : k1 = k2) by (apply (Hdist k1 k2 a1 a2 H1 H2); lia).
    subst k2. congruence.
  - apply (StronglySorted_merge_sort ShippingAddress.newer_first).
  - exact Hsorted.
  - rewrite Hperm. apply merge_sort_Permutation.
Qed.

(** X4: when the per-user listing answers 200, the [addresses] array is
    built from a page of rows that has at most [itemsPerPage] (at most
    50) entries, holds only stored addresses of that user, holds none
    twice, and runs from the newest to the oldest. *)
Theorem list_page_rows (uid : Z) (q : ListQuery) (db : DB) :
  let r := (Full.getShippingAddressesByUserId (Some uid) q db).1 in
  let limit := Full.limit_of_query q in
  status r = 200 ->
  exists rows,
    addresses_of r
    = Some (JArr (map (fun kv =>
                         ShippingAddress.with_user User.minimal_json db
                           (ShippingAddress.listing_json kv.1 kv.2) kv.2) rows))
    /\ Z.of_nat (length rows) <= limit <= 50
    /\ Forall (fun kv => addresses db !! kv.1 = Some kv.2 /\ usuario_id kv.2 = uid) rows
    /\ NoDup rows.*1
    /\ StronglySorted (fun x y => created_at y.2 <= created_at x.2) rows.
Proof.
  intros r limit Hs.
  destruct (Full_list_200 (Some uid) q db Hs) as (uid' & user & [= <-] & Hu & Hw & Hn).
  destruct (Full_list_found uid user q db Hu Hw Hn) as (_ & _ & Haddr).
  eexists. split; [exact Haddr|].
  pose proof (limit_of_query_bounds q) as Hl. fold limit in Hl.
  split; [|split; [|split]].
  - rewrite page_of_length. lia.
  - apply Forall_forall. intros kv Hkv. apply page_of_elem in Hkv.
    destruct kv as [k a]. apply select_owner_lookup in Hkv. exact Hkv.
  - apply page_of_NoDup.
  - apply page_of_sorted.
Qed.

Lemma list_page_rows_witness :
  let q := mkListQuery (Some "1") (Some "1") None None None in
  let r := (Full.getShippingAddressesByUserId (Some 1) q sample_db).1 in
  exists rows,
    addresses_of r
    = Some (JArr (map (fun kv =>
                         ShippingAddress.with_user User.minimal_json sample_db
                           (ShippingAddress.listing_json kv.1 kv.2) kv.2) rows))
    /\ Z.of_nat (length rows) <= Full.limit_of_query q <= 50
    /\ Forall (fun kv => addresses sample_db !! kv.1 = Some kv.2 /\ usuario_id kv.2 = 1) rows
    /\ NoDup rows.*1
    /\ StronglySorted (fun x y => created_at y.2 <= created_at x.2) rows.
Proof.
  intros q r. apply (list_page_rows 1 q sample_db). vm_compute. reflexivity.
Defined.

(** Cutting a list into consecutive windows of [k] and gluing them back. *)
Lemma concat_windows {A} (k T : nat) (l : list A) :
  (length l <= T * k)%nat ->
  concat (map (fun p => take k (drop (p * k) l)) (seq 0 T)) = l.
Proof.
  revert l. induction T as [|T IH]; intros l Hlen.
  - destruct l; [reflexivity | simpl in Hlen; lia].
  - cbn [seq map concat]. rewrite <- seq_shift, map_map.
    rewrite (map_ext _ (fun p => take k (drop (p * k) (drop k l)))).
    + rewrite IH by (rewrite length_drop; lia). apply take_drop.
    + intros p. rewrite drop_drop. f_equal.
Qed.

(** X5: for a user whose addresses (at most 2^53 of them) were created at
    pairwise different instants, let [sorted] be these addresses from
    newest to oldest.  Queries that share the limit of a query [q0] and
    ask for the pages 1, 2, ... up to [totalPages] are all answered 200,
    each with its window of [sorted] as [addresses] array, and these
    windows, one after the other, are [sorted]: every address of the
    user, each exactly once. *)
Theorem list_pages_cover (uid : Z) (user : UserRow) (q0 : ListQuery)
    (qs : list ListQuery) (sorted : list (Z * AddressRow)) (db : DB) :
  users db !! uid = Some user ->
  let n := ShippingAddress.count (ShippingAddress.where_owner uid) db in
  let mine := ShippingAddress.select (ShippingAddress.where_owner uid) db in
  let limit := Full.limit_of_query q0 in
  n <> 0 ->
  n <= 2 ^ 53 ->
  (forall k1 k2 a1 a2, mine !! k1 = Some a1 -> mine !! k2 = Some a2 ->
     created_at a1 = created_at a2 -> k1 = k2) ->
  sorted ≡ₚ map_to_list mine ->
  StronglySorted (fun x y => created_at y.2 <= created_at x.2) sorted ->
  Forall (fun q => Full.limit_of_query q = limit) qs ->
  map Full.page_of_query qs
  = map (fun p => Z.of_nat p) (seq 1 (Z.to_nat (JS.ceil_div n limit))) ->
  let rows q :=
    take (Z.to_nat limit)
         (drop (Z.to_nat ((Full.page_of_query q - 1) * limit)) sorted) in
  Forall (fun q =>
            let r := (Full.getShippingAddressesByUserId (Some uid) q db).1 in
            status r = 200
            /\ addresses_of r
               = Some (JArr (map (fun kv =>
                                    ShippingAddress.with_user User.minimal_json db
                                      (ShippingAddress.listing_json kv.1 kv.2) kv.2)
                                 (rows q)))) qs
  /\ concat (map rows qs) = sorted.
Proof.
  intros Hu n mine limit Hn Hsafe Hdist Hperm Hsorted Hlim Hpages rows.
  pose proof (limit_of_query_bounds q0) as Hpos. fold limit in Hpos.
  pose proof (ceil_div_spec n limit ltac:(lia)) as Hc.
  pose proof (newest_first_unique mine sorted Hdist Hperm Hsorted) as Huniq.
  split.
  - apply Forall_forall. intros q Hq. cbv zeta.
    pose proof (proj1 (Forall_forall _ _) Hlim q Hq) as Hlq. cbv beta in Hlq.
    assert (Hpage : 1 <= Full.page_of_query q <= JS.ceil_div n limit).
    { assert (Hin : In (Full.page_of_query q) (map Full.page_of_query qs))
        by (apply in_map, list_elem_of_In, Hq).
      rewrite Hpages in Hin. apply in_map_iff in Hin as (p & <- & Hp).
      apply in_seq in Hp. lia. }
    assert (Hoff : window_offset (Full.page_of_query q) (Full.limit_of_query q)
                   = (Full.page_of_query q - 1) * limit).
    { rewrite Hlq. apply window_offset_exact; [lia | lia | nia]. }
    assert (Hw : window_offset (Full.page_of_query q) (Full.limit_of_query q)
                 <= ShippingAddress.max_bigint).
    { rewrite Hoff. ranges. nia. }
    destruct (Full_list_found uid user q db Hu Hw Hn) as (Hs & _ & Haddr).
    split; [exact Hs|]. rewrite Haddr, Hoff, Hlq. subst rows. cbv beta.
    unfold ShippingAddress.page_of. fold mine. rewrite Huniq. reflexivity.
  - etransitivity;
      [|apply (concat_windows (Z.to_nat limit) (Z.to_nat (JS.ceil_div n limit)) sorted)].
    + f_equal.
      transitivity (map (fun p => take (Z.to_nat limit)
                                    (drop (Z.to_nat ((p - 1) * limit)) sorted))
                        (map Full.page_of_query qs)).
      { rewrite map_map. reflexivity. }
      rewrite Hpages, <- seq_shift, !map_map.
      apply map_ext. intros p. f_equal. f_equal. nia.
    + rewrite Hperm, length_map_to_list.
      assert (Hsz : Z.of_nat (size mine) = n) by reflexivity.
      nia.
Qed.

Lemma list_pages_cover_witness :
  let q1 := mkListQuery (Some "1") (Some "1") None None None in
  let q2 := mkListQuery (Some "2") (Some "1") None None None in
  let sorted := [(3, home 1 false 30); (1, home 1 true 10)] in
  let rows q :=
    take (Z.to_nat (Full.limit_of_query q1))
         (drop (Z.to_nat ((Full.page_of_query q - 1) * Full.limit_of_query q1)) sorted) in
  Forall (fun q =>
            let r := (Full.getShippingAddressesByUserId (Some 1) q sample_db).1 in
            status r = 200
            /\ addresses_of r
               = Some (JArr (map (fun kv =>
                                    ShippingAddress.with_user User.minimal_json sample_db
                                      (ShippingAddress.listing_json kv.1 kv.2) kv.2)
                                 (rows q)))) [q1; q2]
  /\ concat (map rows [q1; q2]) = sorted.
Proof.
  intros q1 q2 sorted.
  apply (list_pages_cover 1 ana q1 [q1; q2] sorted sample_db).
  - reflexivity.
  - vm_compute. discriminate.
  - vm_compute. discriminate.
  - intros k1 k2 a1 a2 H1 H2 Ht.
    apply select_owner_lookup in H1 as [H1 _], H2 as [H2 _].
    apply sample_db_lookup in H1 as [[-> ->]|[[-> ->]|[-> ->]]];
      apply sample_db_lookup in H2 as [[-> ->]|[[-> ->]|[-> ->]]];
      cbn in Ht; congruence.
  - vm_compute. reflexivity.
  - subst sorted. repeat constructor; cbn; lia.
  - repeat constructor.
  - vm_compute. reflexivity.
Defined.

(** ** The global listing *)

Lemma count_zero (w : ShippingAddress.Where) (db : DB) :
  ShippingAddress.count w db = 0
  <-> forall id a, addresses db !! id = Some a -> ShippingAddress.satisfies w a = false.
Proof.
  unfold ShippingAddress.count, ShippingAddress.select.
  rewrite <- Nat2Z.inj_0, Nat2Z.inj_iff, map_size_empty_iff, map_empty. split.
  - intros H id a Ha. specialize (H id). rewrite map_lookup_filter_None in H.
    destruct H as [H|H]; [congruence|]. specialize (H a Ha). simpl in H.
    destruct (ShippingAddress.satisfies w a); [contradiction H; reflexivity | reflexivity].
  - intros H id. apply map_lookup_filter_None. right. intros a Ha. simpl.
    rewrite (H id a Ha). discriminate.
Qed.

(** What an optional filter of the query asks of a field. *)
Lemma filter_meaning (supplied : option string) (field : string) :
  ShippingAddress.eq_filter (trimmed_if_truthy supplied) field = true
  <-> forall v, supplied = Some v -> v <> "" -> field = JS.trim v.
Proof.
  unfold trimmed_if_truthy, ShippingAddress.eq_filter.
  destruct supplied as [[|c v]|]; simpl.
  - split; [intros _ v [= <-] H; contradiction | reflexivity].
  - rewrite bool_decide_eq_true. split.
    + intros H v' [= <-] _. exact H.
    + intros H. apply H; [reflexivity | discriminate].
  - split; [intros _ v [=] | reflexivity].
Qed.

(** X6: the global listing never writes.  A filter that is absent or
    empty asks nothing, one that is given asks that the field equal its
    trimmed value.  When no stored address passes the filters the answer
    is 404, whatever page is asked for.  Otherwise it is 200 when the
    database accepts the offset [(page - 1) * limit] (at most 2^63 - 1)
    and 500 when it refuses it.  The listed rows are stored addresses
    that pass the filters and whose user exists, at most [itemsPerPage]
    (at most 50) of them, none twice. *)
Theorem getAllShippingAddresses_filters (q : ListQuery) (db : DB) :
  let r := Full.getAllShippingAddresses q db in
  let offset := window_offset (Full.page_of_query q) (Full.limit_of_query q) in
  let passes (a : AddressRow) :=
    (forall v, query_ciudad q = Some v -> v <> "" -> ciudad a = JS.trim v)
    /\ (forall v, query_estado_provincia q = Some v -> v <> "" ->
          estado_provincia a = JS.trim v)
    /\ (forall v, query_pais q = Some v -> v <> "" -> pais a = JS.trim v) in
  r.2 = db
  /\ (status r.1 = 404 /\ (forall id a, addresses db !! id = Some a -> ~ passes a)
      \/ status r.1 = 500
         /\ (exists id a, addresses db !! id = Some a /\ passes a)
         /\ ShippingAddress.max_bigint < offset
      \/ status r.1 = 200
         /\ (exists id a, addresses db !! id = Some a /\ passes a)
         /\ offset <= ShippingAddress.max_bigint
         /\ exists rows,
              addresses_of r.1
              = Some (JArr (map (fun kv =>
                                   ShippingAddress.with_user User.full_json db
                                     (ShippingAddress.listing_all_json kv.1 kv.2) kv.2)
                                rows))
              /\ Z.of_nat (length rows) <= Full.limit_of_query q <= 50
              /\ NoDup rows.*1
              /\ Forall (fun kv => addresses db !! kv.1 = Some kv.2 /\ passes kv.2
                                   /\ is_Some (users db !! usuario_id kv.2)) rows).
Proof.
  intros r offset passes.
  set (w := {| ShippingAddress.where_usuario_id := None;
               ShippingAddress.where_ciudad := trimmed_if_truthy (query_ciudad q);
               ShippingAddress.where_estado_provincia :=
                 trimmed_if_truthy (query_estado_provincia q);
               ShippingAddress.where_pais := trimmed_if_truthy (query_pais q) |}).
  assert (Hpass : forall a, ShippingAddress.satisfies w a = true <-> passes a).
  { intros a. unfold ShippingAddress.satisfies, passes. subst w. cbn.
    rewrite !andb_true_iff, !filter_meaning. tauto. }
  subst r. unfold Full.getAllShippingAddresses. cbv zeta. fold w.
  fold (window_offset (Full.page_of_query q) (Full.limit_of_query q)). fold offset.
  destruct (Z.eqb_spec (ShippingAddress.count w db) 0) as [Hz|Hnz].
  - split; [reflexivity|]. left. split; [reflexivity|].
    intros id a Ha Hp. apply Hpass in Hp.
    rewrite (proj1 (count_zero w db) Hz id a Ha) in Hp. discriminate.
  - assert (Hsome : exists id a, addresses db !! id = Some a /\ passes a).
    { assert (Hsz : size (ShippingAddress.select w db) <> 0%nat)
        by (unfold ShippingAddress.count in Hnz; lia).
      apply map_size_ne_0_lookup in Hsz as [id [a Ha]].
      apply map_lookup_filter_Some in Ha as [Ha Hs]. exists id, a.
      split; [exact Ha | apply Hpass, Hs]. }
    unfold ShippingAddress.findAll_join. subst offset. rewrite Full_window_refused.
    destruct (Z.ltb_spec ShippingAddress.max_bigint
                (window_offset (Full.page_of_query q) (Full.limit_of_query q)))
      as [Hw|Hw].
    + split; [reflexivity|]. right. left. split; [reflexivity|].
      split; [exact Hsome | exact Hw].
    + split; [reflexivity|]. right. right. split; [reflexivity|].
      split; [exact Hsome|]. split; [exact Hw|].
      eexists. split; [reflexivity|].
      pose proof (limit_of_query_bounds q) as Hl.
      split; [rewrite page_of_length; lia|]. split; [apply page_of_NoDup|].
      apply Forall_forall. intros [k a] Hkv. apply page_of_elem in Hkv.
      unfold ShippingAddress.select_join in Hkv.
      apply map_lookup_filter_Some in Hkv as [Ha [Hs Hu]]. cbn in *.
      split; [exact Ha|]. split; [apply Hpass, Hs | exact Hu].
Qed.

(** The global listing at a page past the range of the database, for a
    table that is not empty. *)
Example getAllShippingAddresses_refused :
  status (Full.getAllShippingAddresses
            (mkListQuery (Some "99999999999999999999999") None None None None)
            sample_db).1 = 500.
Proof. vm_compute. reflexivity. Qed.

(** ** Reading, updating and deleting one address *)

(** X7: for a key that is not stored, reading, updating and deleting all
    answer 404, whoever asks, and return the database they received. *)
Theorem missing_address_is_404 (now id : Z) (req : Caller) (reqBody : AddressBody)
    (db : DB) :
  addresses db !! id = None ->
  Full.getShippingAddressById (Some id) db
  = (respond 404 (error_body "Shipping address not found"), db)
  /\ Full.updateShippingAddress now (Some id) req reqBody db
     = (respond 404 (JObj [("error", JStr "Shipping address not found");
                           ("addressId", JNum id)]), db)
  /\ Full.deleteShippingAddress (Some id) req db
     = (respond 404 (JObj [("error", JStr "Shipping address not found");
                           ("addressId", JNum id)]), db).
Proof.
  intros Ha.
  unfold Full.getShippingAddressById, Full.updateShippingAddress,
    Full.deleteShippingAddress, ShippingAddress.findByPk_include,
    ShippingAddress.findByPk_join.
  rewrite Ha. repeat split.
Qed.

Lemma missing_address_is_404_witness :
  Full.getShippingAddressById (Some 9) sample_db
  = (respond 404 (error_body "Shipping address not found"), sample_db)
  /\ Full.updateShippingAddress 40 (Some 9) (mkCaller 1 true) (sample_body 1) sample_db
     = (respond 404 (JObj [("error", JStr "Shipping address not found");
                           ("addressId", JNum 9)]), sample_db)
  /\ Full.deleteShippingAddress (Some 9) (mkCaller 1 true) sample_db
     = (respond 404 (JObj [("error", JStr "Shipping address not found");
                           ("addressId", JNum 9)]), sample_db).
Proof.
  apply (missing_address_is_404 40 9 (mkCaller 1 true) (sample_body 1) sample_db).
  reflexivity.
Defined.

(** X8: an address whose user row is missing can still be read (200, with
    [User] null), because the read joins the user loosely; updating and
    deleting join it strictly and answer 404 for it, also to an
    administrator, leaving the database as it was. *)
Theorem orphan_address (now id : Z) (req : Caller) (reqBody : AddressBody)
    (a : AddressRow) (db : DB) :
  addresses db !! id = Some a ->
  users db !! usuario_id a = None ->
  Full.getShippingAddressById (Some id) db
  = (respond 200
       (JObj [("message", JStr "Shipping address retrieved successfully");
              ("data", JObj (ShippingAddress.to_json id a ++ [("User", JNull)]))]), db)
  /\ Full.updateShippingAddress now (Some id) req reqBody db
     = (respond 404 (JObj [("error", JStr "Shipping address not found");
                           ("addressId", JNum id)]), db)
  /\ Full.deleteShippingAddress (Some id) req db
     = (respond 404 (JObj [("error", JStr "Shipping address not found");
                           ("addressId", JNum id)]), db).
Proof.
  intros Ha Hu.
  unfold Full.getShippingAddressById, Full.updateShippingAddress,
    Full.deleteShippingAddress, ShippingAddress.findByPk_include,
    ShippingAddress.findByPk_join, ShippingAddress.with_user.
  rewrite Ha, Hu. repeat split.
Qed.

Lemma orphan_address_witness :
  let db := set_users (delete 2 (users sample_db)) sample_db in
  Full.getShippingAddressById (Some 2) db
  = (respond 200
       (JObj [("message", JStr "Shipping address retrieved successfully");
              ("data", JObj (ShippingAddress.to_json 2 (home 2 false 20)
                               ++ [("User", JNull)]))]), db)
  /\ Full.updateShippingAddress 40 (Some 2) (mkCaller 1 true) (sample_body 2) db
     = (respond 404 (JObj [("error", JStr "Shipping address not found");
                           ("addressId", JNum 2)]), db)
  /\ Full.deleteShippingAddress (Some 2) (mkCaller 1 true) db
     = (respond 404 (JObj [("error", JStr "Shipping address not found");
                           ("addressId", JNum 2)]), db).
Proof.
  intros db.
  apply (orphan_address 40 2 (mkCaller 1 true) (sample_body 2) (home 2 false 20) db);
    reflexivity.
Defined.

(** X9: the owner of an existing address, or an administrator, deletes
    it: the answer is 200, exactly that row is gone and nothing else
    changed; reading it afterwards and deleting it again both answer
    404. *)
Theorem delete_then_gone (id : Z) (req : Caller) (a : AddressRow) (db : DB) :
  addresses db !! id = Some a ->
  is_Some (users db !! usuario_id a) ->
  authorized req a ->
  let r := Full.deleteShippingAddress (Some id) req db in
  status r.1 = 200
  /\ addresses r.2 = delete id (addresses db)
  /\ users r.2 = users db
  /\ next_address_id r.2 = next_address_id db
  /\ status (Full.getShippingAddressById (Some id) r.2).1 = 404
  /\ Full.deleteShippingAddress (Some id) req r.2
     = (respond 404 (JObj [("error", JStr "Shipping address not found");
                           ("addressId", JNum id)]), r.2).
Proof.
  intros Ha Hu Hauth r.
  destruct (findByPk_join_Some id a db Ha Hu) as [u Hj].
  assert (Hr : r.2 = ShippingAddress.destroy id db /\ status r.1 = 200).
  { subst r. unfold Full.deleteShippingAddress.
    rewrite Hj, (authorized_passes req a Hauth). split; reflexivity. }
  destruct Hr as [Hr2 Hr1]. rewrite Hr2.
  split; [exact Hr1|]. repeat split.
  - unfold Full.getShippingAddressById, ShippingAddress.findByPk_include,
      ShippingAddress.destroy. cbn [addresses set_addresses].
    rewrite lookup_delete_eq. reflexivity.
  - unfold Full.deleteShippingAddress, ShippingAddress.findByPk_join,
      ShippingAddress.destroy. cbn [addresses set_addresses].
    rewrite lookup_delete_eq. reflexivity.
Qed.

Lemma delete_then_gone_witness :
  let r := Full.deleteShippingAddress (Some 2) (mkCaller 1 true) sample_db in
  status r.1 = 200
  /\ addresses r.2 = delete 2 (addresses sample_db)
  /\ users r.2 = users sample_db
  /\ next_address_id r.2 = next_address_id sample_db
  /\ status (Full.getShippingAddressById (Some 2) r.2).1 = 404
  /\ Full.deleteShippingAddress (Some 2) (mkCaller 1 true) r.2
     = (respond 404 (JObj [("error", JStr "Shipping address not found");
                           ("addressId", JNum 2)]), r.2).
Proof.
  apply (delete_then_gone 2 (mkCaller 1 true) (home 2 false 20) sample_db).
  - reflexivity.
  - exists luis. reflexivity.
  - right. reflexivity.
Defined.

(** X10: what a successful update answers is what a read of the same
    address answers right after it: both are 200 and carry the same
    [data]. *)
Theorem update_then_read (now id : Z) (req : Caller) (reqBody : AddressBody)
    (a : AddressRow) (db : DB) :
  addresses db !! id = Some a ->
  is_Some (users db !! usuario_id a) ->
  authorized req a ->
  (JS.truthy (body_codigo_postal reqBody) = true ->
   postalCodeRegex_test (JS.trim (str (body_codigo_postal reqBody))) = true) ->
  let u := Full.updateShippingAddress now (Some id) req reqBody db in
  let g := Full.getShippingAddressById (Some id) u.2 in
  status u.1 = 200 /\ status g.1 = 200
  /\ is_Some (json_get "data" (body u.1))
  /\ json_get "data" (body g.1) = json_get "data" (body u.1)
  /\ g.2 = u.2.
Proof.
  intros Ha Hu Hauth Hpostal u g. subst g u.
  rewrite (Full_update_authorized now id req reqBody a db Ha Hu Hauth).
  assert (Hguard : JS.truthy (body_codigo_postal reqBody)
                   && negb (postalCodeRegex_test
                              (JS.trim (str (body_codigo_postal reqBody)))) = false).
  { destruct (JS.truthy (body_codigo_postal reqBody)); [|reflexivity].
    rewrite (Hpostal eq_refl). reflexivity. }
  rewrite Hguard. cbv zeta. cbn [fst snd].
  unfold Full.getShippingAddressById, ShippingAddress.findByPk_include.
  cbn [addresses set_addresses]. rewrite lookup_insert_eq. cbn. eauto.
Qed.

Lemma update_then_read_witness :
  let reqBody := mkAddressBody None (Some " Jr. Cusco 5 ") None None (Some "15001") None in
  let u := Full.updateShippingAddress 99 (Some 3) (mkCaller 1 false) reqBody sample_db in
  let g := Full.getShippingAddressById (Some 3) u.2 in
  status u.1 = 200 /\ status g.1 = 200
  /\ is_Some (json_get "data" (body u.1))
  /\ json_get "data" (body g.1) = json_get "data" (body u.1)
  /\ g.2 = u.2.
Proof.
  intros reqBody.
  apply (update_then_read 99 3 (mkCaller 1 false) reqBody (home 1 false 30) sample_db).
  - reflexivity.
  - exists ana. reflexivity.
  - left. reflexivity.
  - intros _. reflexivity.
Defined.

(** ** The default flag *)

Lemma setDefaultAddress_lookup (id u k : Z) (db : DB) :
  addresses (Full.setDefaultAddress id u db).2 !! k
  = (fun a => set_is_default (flag_after id u k a) a) <$> addresses db !! k.
Proof.
  cbn [Full.setDefaultAddress snd ShippingAddress.update_is_default_where_id
       ShippingAddress.update_is_default_where_usuario_id set_addresses addresses].
  rewrite lookup_alter, !lookup_fmap. unfold flag_after.
  destruct (decide (id = k)) as [<-|Hne].
  - destruct (addresses db !! id) as [a|]; [|reflexivity]. cbn [fmap option_fmap option_map].
    destruct (decide (id = id)) as [_|Hn]; [|contradiction Hn; reflexivity].
    destruct (decide (usuario_id a = u)); reflexivity.
  - destruct (addresses db !! k) as [a|]; [|reflexivity]. cbn [fmap option_fmap option_map].
    destruct (decide (k = id)) as [Hk|_]; [congruence|].
    destruct (decide (usuario_id a = u)); [reflexivity|]. destruct a; reflexivity.
Qed.

(** X11: given an address id and a user id, [setDefaultAddress] answers
    200, also when no address is stored under that id; it keeps the
    users, the counter and the set of stored keys and writes nothing but
    the flag: the target gets it, the other addresses of the named user
    lose it, every other address keeps its own; doing it twice is doing
    it once.  When the body carries no user id the handler answers 500
    and writes nothing. *)
Theorem setDefaultAddress_effect (id : Z) (usuarioId : option Z) (db : DB) :
  let r := Full.setDefaultAddress_of_body id usuarioId db in
  match usuarioId with
  | None => status r.1 = 500 /\ r.2 = db
  | Some u =>
      status r.1 = 200
      /\ users r.2 = users db
      /\ next_address_id r.2 = next_address_id db
      /\ (forall k,
            addresses r.2 !! k
            = (fun a => set_is_default
                          (if decide (k = id) then true
                           else if decide (usuario_id a = u) then false
                                else is_default a) a) <$> addresses db !! k)
      /\ (Full.setDefaultAddress_of_body id (Some u) r.2).2 = r.2
  end.
Proof.
  intros r. destruct usuarioId as [u|]; [|split; reflexivity].
  subst r. cbn [Full.setDefaultAddress_of_body].
  split; [reflexivity|]. split; [reflexivity|]. split; [reflexivity|].
  split; [intros k; apply setDefaultAddress_lookup|].
  assert (Hmap : addresses (Full.setDefaultAddress id u
                              (Full.setDefaultAddress id u db).2).2
                 = addresses (Full.setDefaultAddress id u db).2).
  { apply map_eq. intros k. rewrite !setDefaultAddress_lookup.
    destruct (addresses db !! k) as [a|]; [|reflexivity]. cbn. f_equal.
    unfold flag_after. cbn [usuario_id set_is_default is_default].
    destruct (decide (k = id)); [reflexivity|].
    destruct (decide (usuario_id a = u)); reflexivity. }
  cbn [Full.setDefaultAddress snd] in *.
  unfold ShippingAddress.update_is_default_where_id,
    ShippingAddress.update_is_default_where_usuario_id, set_addresses in *.
  cbn [users addresses next_address_id] in *. f_equal. exact Hmap.
Qed.

(** X12: when the target is an address of the named user, or is not
    stored at all, [setDefaultAddress] keeps the rule that no user has
    two default addresses. *)
Theorem setDefaultAddress_keeps_single_default (id u : Z) (db : DB) :
  at_most_one_default db ->
  (forall a, addresses db !! id = Some a -> usuario_id a = u) ->
  at_most_one_default (Full.setDefaultAddress id u db).2.
Proof.
  intros Hinv Hown k1 k2 b1 b2 H1 H2 Howner Hd1 Hd2.
  rewrite setDefaultAddress_lookup in H1, H2.
  destruct (addresses db !! k1) as [a1|] eqn:Ha1; [|discriminate H1].
  destruct (addresses db !! k2) as [a2|] eqn:Ha2; [|discriminate H2].
  cbn in H1, H2. injection H1 as <-. injection H2 as <-.
  cbn [usuario_id set_is_default is_default] in Howner, Hd1, Hd2.
  unfold flag_after in Hd1, Hd2.
  destruct (decide (k1 = id)) as [->|Hk1], (decide (k2 = id)) as [->|Hk2].
  - reflexivity.
  - exfalso. destruct (decide (usuario_id a2 = u)) as [|Hn]; [discriminate Hd2|].
    apply Hn. rewrite <- Howner. apply Hown, Ha1.
  - exfalso. destruct (decide (usuario_id a1 = u)) as [|Hn]; [discriminate Hd1|].
    apply Hn. rewrite Howner. apply Hown, Ha2.
  - destruct (decide (usuario_id a1 = u)); [discriminate Hd1|].
    destruct (decide (usuario_id a2 = u)); [discriminate Hd2|].
    exact (Hinv k1 k2 a1 a2 Ha1 Ha2 Howner Hd1 Hd2).
Qed.

Lemma sample_db_single_default : at_most_one_default sample_db.
Proof.
  intros k1 k2 a1 a2 H1 H2 _ Hd1 Hd2.
  apply sample_db_lookup in H1 as [[-> ->]|[[-> ->]|[-> ->]]];
    apply sample_db_lookup in H2 as [[-> ->]|[[-> ->]|[-> ->]]];
    cbn in Hd1, Hd2; congruence.
Defined.

Lemma setDefaultAddress_keeps_single_default_witness :
  at_most_one_default (Full.setDefaultAddress 3 1 sample_db).2.
Proof.
  apply (setDefaultAddress_keeps_single_default 3 1 sample_db).
  - exact sample_db_single_default.
  - intros a Ha. apply sample_db_lookup in Ha as [[? ->]|[[? ->]|[? ->]]];
      try reflexivity; discriminate.
Defined.

(** ** Bulk deletion *)

Lemma bulkDelete_lookup (addressIds : list Z) (req : Caller) (db : DB) (k : Z)
    (a : AddressRow) :
  addresses (Full.bulkDeleteAddresses addressIds req db).2 !! k = Some a
  <-> addresses db !! k = Some a /\ ~ (k ∈ addressIds /\ usuario_id a = userId req).
Proof.
  cbn [Full.bulkDeleteAddresses snd ShippingAddress.destroy_where_id_in_usuario_id
       set_addresses addresses].
  apply map_lookup_filter_Some.
Qed.

Lemma DB_eq (db1 db2 : DB) :
  users db1 = users db2 -> addresses db1 = addresses db2 ->
  next_address_id db1 = next_address_id db2 -> db1 = db2.
Proof. destruct db1, db2. cbn. intros -> -> ->. reflexivity. Qed.

Lemma bulkDelete_single_size (id : Z) (req : Caller) (db : DB) :
  (size (addresses db)
   <= size (addresses (Full.bulkDeleteAddresses [id] req db).2) + 1)%nat.
Proof.
  assert (Hsub : delete id (addresses db)
                 ⊆ addresses (Full.bulkDeleteAddresses [id] req db).2).
  { apply map_subseteq_spec. intros k a Hk.
    apply lookup_delete_Some in Hk as [Hne Hk].
    apply bulkDelete_lookup. split; [exact Hk|].
    intros [Hin _]. apply list_elem_of_singleton in Hin. congruence. }
  apply map_subseteq_size in Hsub. rewrite map_size_delete in Hsub.
  destruct (addresses db !! id); unfold Datatypes.id in Hsub; cbn in Hsub |- *; lia.
Qed.

(** X13: deleting in bulk twice in a row is deleting the two lists at
    once, so the empty list deletes nothing and repeating a request
    deletes nothing more; and the number of rows that really go is never
    above the reported [deletedCount], the length of the list. *)
Theorem bulkDeleteAddresses_compose (ids1 ids2 : list Z) (req : Caller) (db : DB) :
  let bulk ids d := (Full.bulkDeleteAddresses ids req d).2 in
  bulk ids2 (bulk ids1 db) = bulk (ids1 ++ ids2)%list db
  /\ bulk [] db = db
  /\ bulk ids1 (bulk ids1 db) = bulk ids1 db
  /\ (size (addresses db) <= size (addresses (bulk ids1 db)) + length ids1)%nat.
Proof.
  intros bulk.
  assert (Hcompose : forall l1 l2 d, bulk l2 (bulk l1 d) = bulk (l1 ++ l2)%list d).
  { intros l1 l2 d. apply DB_eq; try reflexivity.
    apply map_eq. intros k. apply option_eq. intros a. subst bulk. cbv beta.
    rewrite !bulkDelete_lookup, elem_of_app. tauto. }
  assert (Hnil : forall d, bulk [] d = d).
  { intros d. apply DB_eq; try reflexivity.
    apply map_eq. intros k. apply option_eq. intros a. subst bulk. cbv beta.
    rewrite bulkDelete_lookup. split; [tauto|]. intros H. split; [exact H|].
    intros [Hin _]. inversion Hin. }
  split; [apply Hcompose|]. split; [apply Hnil|]. split.
  - apply DB_eq; try reflexivity.
    apply map_eq. intros k. apply option_eq. intros a. subst bulk. cbv beta.
    rewrite !bulkDelete_lookup. tauto.
  - clear ids2. revert db. induction ids1 as [|id ids IH]; intros db.
    + rewrite Hnil. cbn. lia.
    + change (id :: ids) with ([id] ++ ids)%list at 1. rewrite <- Hcompose.
      specialize (IH (bulk [id] db)).
      pose proof (bulkDelete_single_size id req db) as H1. fold (bulk [id] db) in H1.
      cbn [length]. lia.
Qed.

(** ** What every sequence of requests keeps *)

Lemma shrinks_refl (db : DB) : shrinks db db.
Proof. split; [reflexivity|]. split; [reflexivity|]. eauto. Qed.

Lemma Full_update_cases (now : Z) (id_ShippingAddress : option Z) (req : Caller)
    (reqBody : AddressBody) (db : DB) :
  let r := Full.updateShippingAddress now id_ShippingAddress req reqBody db in
  r.2 = db
  \/ exists id a,
       addresses db !! id = Some a
       /\ (JS.truthy (body_codigo_postal reqBody) = true ->
           postalCodeRegex_test (JS.trim (str (body_codigo_postal reqBody))) = true)
       /\ r.2 = set_addresses
                  (<[id := apply_updates
                             {| upd_updated_at := now;
                                upd_direccion := trimmed_if_truthy (body_direccion reqBody);
                                upd_ciudad := trimmed_if_truthy (body_ciudad reqBody);
                                upd_estado_provincia :=
                                  trimmed_if_truthy (body_estado_provincia reqBody);
                                upd_codigo_postal :=
                                  trimmed_if_truthy (body_codigo_postal reqBody);
                                upd_pais := trimmed_if_truthy (body_pais reqBody) |} a]>
                     (addresses db)) db.
Proof.
  intros r. subst r. unfold Full.updateShippingAddress, ShippingAddress.findByPk_join.
  destruct id_ShippingAddress as [id|]; [|left; reflexivity].
  destruct (addresses db !! id) as [a|] eqn:Ha; [|left; reflexivity].
  destruct (users db !! usuario_id a); [|left; reflexivity].
  destruct (negb (usuario_id a =? userId req) && negb (isAdmin req)); [left; reflexivity|].
  destruct (JS.truthy (body_codigo_postal reqBody)) eqn:Ht; cbn [andb].
  - destruct (postalCodeRegex_test (JS.trim (str (body_codigo_postal reqBody)))) eqn:Hre;
      cbn [negb]; [|left; reflexivity].
    right. exists id, a. auto.
  - right. exists id, a. split; [exact Ha|]. split; [discriminate | reflexivity].
Qed.

Lemma Full_delete_cases (id_ShippingAddress : option Z) (req : Caller) (db : DB) :
  let r := Full.deleteShippingAddress id_ShippingAddress req db in
  r.2 = db \/ exists id, r.2 = ShippingAddress.destroy id db.
Proof.
  intros r. subst r. unfold Full.deleteShippingAddress.
  destruct id_ShippingAddress as [id|]; [|left; reflexivity].
  destruct (ShippingAddress.findByPk_join id db) as [[a u]|]; [|left; reflexivity].
  destruct (negb (usuario_id a =? userId req) && negb (isAdmin req));
    [left; reflexivity | right; eauto].
Qed.

Lemma Full_reads_keep (usuarioId id : option Z) (q : ListQuery) (db : DB) :
  (Full.getShippingAddressesByUserId usuarioId q db).2 = db
  /\ (Full.getAllShippingAddresses q db).2 = db
  /\ (Full.getShippingAddressById id db).2 = db.
Proof.
  unfold Full.getShippingAddressesByUserId, Full.getAllShippingAddresses,
    Full.getShippingAddressById.
  repeat split.
  - destruct usuarioId; [|reflexivity]. destruct (User.findByPk _ _); [|reflexivity].
    cbv zeta.
    destruct (ShippingAddress.findAndCountAll_join _ _ _ db) as [found|]; [|reflexivity].
    destruct (found.1 =? 0); reflexivity.
  - cbv zeta. destruct (_ =? 0); [reflexivity|].
    destruct (ShippingAddress.findAll_join _ _ _ db); reflexivity.
  - destruct id as [k|]; [|reflexivity].
    destruct (ShippingAddress.findByPk_include k db) as [[a u]|]; reflexivity.
Qed.

(** Every request either leaves a database that [shrinks], or is a create
    that stored its row. *)
Lemma handle_cases (is_default_init : bool) (request : AddressRequest) (db : DB) :
  let db' := (handle is_default_init request db).2 in
  shrinks db db'
  \/ exists now reqBody uid,
       valid_create uid reqBody
       /\ ShippingAddress.count (ShippingAddress.where_owner uid) db <= 4
       /\ db' = (ShippingAddress.create
                   (created_row is_default_init now uid reqBody) db).2.
Proof.
  intros db'. subst db'.
  destruct request as [now reqBody|usuarioId q|q|id|now id req reqBody|id req|id uid|ids req];
    cbn [handle].
  - destruct (Full_create_cases is_default_init now reqBody db)
      as [((Hv & _ & Hn) & _ & Hdb) | (_ & _ & Hdb)]; rewrite Hdb.
    + right. eauto 10.
    + left. apply shrinks_refl.
  - left. rewrite (proj1 (Full_reads_keep usuarioId None q db)). apply shrinks_refl.
  - left. rewrite (proj1 (proj2 (Full_reads_keep None None q db))). apply shrinks_refl.
  - left. rewrite (proj2 (proj2 (Full_reads_keep None id
               (mkListQuery None None None None None) db))). apply shrinks_refl.
  - left. destruct (Full_update_cases now id req reqBody db)
      as [Hdb | (k & a & Ha & _ & Hdb)]; rewrite Hdb; [apply shrinks_refl|].
    split; [reflexivity|]. split; [reflexivity|]. intros k' a'. cbn [addresses set_addresses].
    intros H. apply lookup_insert_Some in H as [[<- <-]|[_ H]]; eauto.
  - left. destruct (Full_delete_cases id req db) as [Hdb | (k & Hdb)]; rewrite Hdb;
      [apply shrinks_refl|].
    split; [reflexivity|]. split; [reflexivity|]. intros k' a'.
    unfold ShippingAddress.destroy. cbn [addresses set_addresses].
    intros H. apply lookup_delete_Some in H as [_ H]. eauto.
  - left. split; [reflexivity|]. split; [reflexivity|]. intros k a'.
    rewrite setDefaultAddress_lookup.
    destruct (addresses db !! k) as [a|]; [|discriminate]. cbn. intros [= <-]. eauto.
  - left. split; [reflexivity|]. split; [reflexivity|]. intros k a' H.
    apply bulkDelete_lookup in H as [H _]. eauto.
Qed.

Lemma shrinks_wf (db db' : DB) : shrinks db db' -> db_wf db -> db_wf db'.
Proof.
  intros (_ & Hnext & Hrows) Hwf k [a' Ha']. rewrite Hnext.
  destruct (Hrows k a' Ha') as (a & Ha & _). apply Hwf. eauto.
Qed.

Lemma shrinks_count (u : Z) (db db' : DB) :
  shrinks db db' ->
  ShippingAddress.count (ShippingAddress.where_owner u) db'
  <= ShippingAddress.count (ShippingAddress.where_owner u) db.
Proof.
  intros (_ & _ & Hrows). unfold ShippingAddress.count.
  apply inj_le. rewrite <- !(size_dom (D := gset Z)). apply subseteq_size.
  intros k. rewrite !elem_of_dom. intros [a' Ha'].
  apply select_owner_lookup in Ha' as [Ha' Hu].
  destruct (Hrows k a' Ha') as (a & Ha & Ho & _).
  exists a. apply select_owner_lookup. split; [exact Ha | congruence].
Qed.

Lemma count_other_create (u : Z) (row : AddressRow) (db : DB) :
  db_wf db -> usuario_id row <> u ->
  ShippingAddress.count (ShippingAddress.where_owner u) (ShippingAddress.create row db).2
  = ShippingAddress.count (ShippingAddress.where_owner u) db.
Proof.
  intros Hwf Hne. unfold ShippingAddress.count, ShippingAddress.select,
    ShippingAddress.create; simpl.
  assert (Hfresh : addresses db !! next_address_id db = None).
  { apply eq_None_not_Some. intros Hs. apply Hwf in Hs. lia. }
  rewrite map_filter_insert_False
    by (simpl; rewrite satisfies_where_owner; exact Hne).
  rewrite delete_id by exact Hfresh. reflexivity.
Qed.

Lemma run_app (is_default_init : bool) (l1 l2 : list AddressRequest) (db : DB) :
  run is_default_init (l1 ++ l2) db = run is_default_init l2 (run is_default_init l1 db).
Proof. revert db. induction l1 as [|r l1 IH]; intros db; [reflexivity | apply IH]. Qed.

(** X14: starting from a database in which every key is below the
    counter and no user owns more than five addresses, both stay true
    after any sequence of requests to the full controller. *)
Theorem run_keeps_limit (is_default_init : bool) (requests : list AddressRequest)
    (db : DB) :
  db_wf db -> limit_ok db ->
  db_wf (run is_default_init requests db) /\ limit_ok (run is_default_init requests db).
Proof.
  revert db. induction requests as [|request requests IH]; intros db Hwf Hlim;
    [split; assumption|].
  cbn [run]. apply IH.
  - destruct (handle_cases is_default_init request db)
      as [Hs | (now & reqBody & uid & _ & _ & ->)].
    + exact (shrinks_wf _ _ Hs Hwf).
    + apply create_wf, Hwf.
  - destruct (handle_cases is_default_init request db)
      as [Hs | (now & reqBody & uid & _ & Hn & ->)]; intros u.
    + pose proof (shrinks_count u _ _ Hs). specialize (Hlim u). lia.
    + destruct (decide (uid = u)) as [<-|Hne].
      * pose proof (count_owner_create (created_row is_default_init now uid reqBody)
                      db Hwf) as Hc.
        change (usuario_id (created_row is_default_init now uid reqBody)) with uid in Hc.
        lia.
      * rewrite count_other_create by assumption. apply Hlim.
Qed.

Lemma count_le_size (w : ShippingAddress.Where) (db : DB) :
  ShippingAddress.count w db <= Z.of_nat (size (addresses db)).
Proof.
  unfold ShippingAddress.count, ShippingAddress.select.
  apply inj_le, map_subseteq_size, map_filter_subseteq.
Qed.

Lemma sample_db_limit_ok : limit_ok sample_db.
Proof.
  intros u. pose proof (count_le_size (ShippingAddress.where_owner u) sample_db) as H.
  change (size (addresses sample_db)) with 3%nat in H. lia.
Defined.

Lemma run_keeps_limit_witness :
  let requests :=
    [CreateShippingAddress 40 (sample_body 1);
     SetDefaultAddress 2 1;
     UpdateShippingAddress 41 (Some 3) (mkCaller 1 false)
       (mkAddressBody None (Some " Jr. Cusco 5 ") None None None None);
     DeleteShippingAddress (Some 1) (mkCaller 9 true);
     BulkDeleteAddresses [2; 3] (mkCaller 2 false)] in
  db_wf (run false requests sample_db) /\ limit_ok (run false requests sample_db).
Proof.
  intros requests. apply (run_keeps_limit false requests sample_db).
  - exact sample_db_wf.
  - exact sample_db_limit_ok.
Defined.

(** The format of stored rows. *)

Lemma created_row_format (is_default_init : bool) (now uid : Z) (reqBody : AddressBody) :
  postalCodeRegex_test (JS.trim (str (body_codigo_postal reqBody))) = true ->
  row_format (created_row is_default_init now uid reqBody).
Proof.
  intros Hre. split; [|exact Hre].
  unfold text_fields, created_row. repeat constructor; cbn; apply trim_idempotent.
Qed.

Lemma updated_trimmed (supplied : option string) (old : string) :
  JS.trim old = old ->
  JS.trim (default old (trimmed_if_truthy supplied)) = default old (trimmed_if_truthy supplied).
Proof.
  intros Hold. unfold trimmed_if_truthy.
  destruct (JS.truthy supplied); cbn; [apply trim_idempotent | exact Hold].
Qed.

Lemma apply_updates_format (now : Z) (reqBody : AddressBody) (a : AddressRow) :
  (JS.truthy (body_codigo_postal reqBody) = true ->
   postalCodeRegex_test (JS.trim (str (body_codigo_postal reqBody))) = true) ->
  row_format a ->
  row_format
    (apply_updates
       {| upd_updated_at := now;
          upd_direccion := trimmed_if_truthy (body_direccion reqBody);
          upd_ciudad := trimmed_if_truthy (body_ciudad reqBody);
          upd_estado_provincia := trimmed_if_truthy (body_estado_provincia reqBody);
          upd_codigo_postal := trimmed_if_truthy (body_codigo_postal reqBody);
          upd_pais := trimmed_if_truthy (body_pais reqBody) |} a).
Proof.
  intros Hpostal [Htrim Hcode]. unfold text_fields in Htrim.
  inversion Htrim as [|? ? H1 Ht1]; subst. inversion Ht1 as [|? ? H2 Ht2]; subst.
  inversion Ht2 as [|? ? H3 Ht3]; subst. inversion Ht3 as [|? ? H4 Ht4]; subst.
  inversion Ht4 as [|? ? H5 _]; subst. cbn in H1, H2, H3, H4, H5.
  split.
  - unfold text_fields, apply_updates.
    repeat constructor; cbn; apply updated_trimmed; assumption.
  - unfold apply_updates. cbn. unfold trimmed_if_truthy.
    destruct (JS.truthy (body_codigo_postal reqBody)); cbn;
      [apply Hpostal; reflexivity | exact Hcode].
Qed.

Lemma set_is_default_format (b : bool) (a : AddressRow) :
  row_format a -> row_format (set_is_default b a).
Proof.
  intros [Ht Hc]. split; [|exact Hc]. unfold text_fields in *.
  repeat (apply Forall_cons in Ht as [? Ht]). repeat constructor; assumption.
Qed.

Lemma handle_keeps_format (is_default_init : bool) (request : AddressRequest) (db : DB) :
  stored_format db -> stored_format (handle is_default_init request db).2.
Proof.
  intros Hfmt.
  destruct request as [now reqBody|usuarioId q|q|id|now id req reqBody|id req|id uid|ids req];
    cbn [handle].
  - destruct (Full_create_cases is_default_init now reqBody db)
      as [((Hv & _ & _) & _ & Hdb) | (_ & _ & Hdb)]; rewrite Hdb; [|exact Hfmt].
    intros k a. unfold ShippingAddress.create. cbn [snd addresses].
    intros H. apply lookup_insert_Some in H as [[_ <-]|[_ H]]; [|exact (Hfmt k a H)].
    apply created_row_format. apply Hv.
  - rewrite (proj1 (Full_reads_keep usuarioId None q db)). exact Hfmt.
  - rewrite (proj1 (proj2 (Full_reads_keep None None q db))). exact Hfmt.
  - rewrite (proj2 (proj2 (Full_reads_keep None id
               (mkListQuery None None None None None) db))). exact Hfmt.
  - destruct (Full_update_cases now id req reqBody db)
      as [Hdb | (k & a & Ha & Hpostal & Hdb)]; rewrite Hdb; [exact Hfmt|].
    intros k' a'. cbn [addresses set_addresses].
    intros H. apply lookup_insert_Some in H as [[_ <-]|[_ H]]; [|exact (Hfmt k' a' H)].
    apply apply_updates_format; [exact Hpostal | exact (Hfmt k a Ha)].
  - destruct (Full_delete_cases id req db) as [Hdb | (k & Hdb)]; rewrite Hdb;
      [exact Hfmt|].
    intros k' a'. unfold ShippingAddress.destroy. cbn [addresses set_addresses].
    intros H. apply lookup_delete_Some in H as [_ H]. exact (Hfmt k' a' H).
  - intros k a'. rewrite setDefaultAddress_lookup.
    destruct (addresses db !! k) as [a|] eqn:Ha; [|discriminate]. cbn. intros [= <-].
    apply set_is_default_format. exact (Hfmt k a Ha).
  - intros k a' H. apply bulkDelete_lookup in H as [H _]. exact (Hfmt k a' H).
Qed.

(** X15: if every stored address has text fields without surrounding
    whitespace and a postal code of the pattern, the same holds after any
    sequence of requests to the full controller. *)
Theorem run_keeps_format (is_default_init : bool) (requests : list AddressRequest)
    (db : DB) :
  stored_format db -> stored_format (run is_default_init requests db).
Proof.
  revert db. induction requests as [|request requests IH]; intros db Hfmt;
    [exact Hfmt|].
  cbn [run]. apply IH, handle_keeps_format, Hfmt.
Qed.

Lemma home_format (owner : Z) (dflt : bool) (t : Z) : row_format (home owner dflt t).
Proof. split; [repeat constructor | reflexivity]. Defined.

Lemma sample_db_format : stored_format sample_db.
Proof.
  intros id a Ha. apply sample_db_lookup in Ha as [[_ ->]|[[_ ->]|[_ ->]]];
    apply home_format.
Defined.

Lemma run_keeps_format_witness :
  let requests :=
    [CreateShippingAddress 40 (sample_body 1);
     UpdateShippingAddress 41 (Some 3) (mkCaller 1 false)
       (mkAddressBody None (Some " Jr. Cusco 5 ") None None (Some " 15001 ") None);
     SetDefaultAddress 2 1] in
  stored_format (run false requests sample_db).
Proof.
  intros requests. apply (run_keeps_format false requests sample_db).
  exact sample_db_format.
Defined.

(** Where the rows of the final database come from. *)
Lemma run_rows (is_default_init : bool) (requests : list AddressRequest) (db : DB) :
  db_wf db ->
  let db' := run is_default_init requests db in
  users db' = users db
  /\ next_address_id db <= next_address_id db'
  /\ forall k a',
       addresses db' !! k = Some a' ->
       (exists a, addresses db !! k = Some a
                  /\ usuario_id a' = usuario_id a /\ created_at a' = created_at a)
       \/ next_address_id db <= k.
Proof.
  revert db. induction requests as [|request requests IH]; intros db Hwf db'; subst db'.
  - cbn [run]. split; [reflexivity|]. split; [lia|]. eauto.
  - cbn [run].
    destruct (handle_cases is_default_init request db)
      as [Hs | (now & reqBody & uid & _ & _ & Hdb)].
    + destruct (IH _ (shrinks_wf _ _ Hs Hwf)) as (Hu & Hn & Hrows).
      destruct Hs as (Hu1 & Hn1 & Hrows1).
      split; [congruence|]. split; [lia|]. intros k a' Ha'.
      destruct (Hrows k a' Ha') as [(a1 & Ha1 & Ho & Hc) | Hfresh]; [|right; lia].
      destruct (Hrows1 k a1 Ha1) as (a & Ha & Ho1 & Hc1).
      left. exists a. split; [exact Ha|]. split; congruence.
    + rewrite Hdb.
      destruct (IH _ (create_wf (created_row is_default_init now uid reqBody) db Hwf))
        as (Hu & Hn & Hrows).
      cbn [ShippingAddress.create snd users next_address_id addresses]
        in Hu, Hn, Hrows |- *.
      split; [exact Hu|]. split; [lia|]. intros k a' Ha'.
      destruct (Hrows k a' Ha') as [(a1 & Ha1 & Ho & Hc) | Hfresh]; [|right; lia].
      apply lookup_insert_Some in Ha1 as [[<- _]|[_ Ha1]]; [right; lia|].
      left. eauto.
Qed.

(** X16: no sequence of requests to the full controller writes the users
    table, lowers the counter, or changes the owner or the creation time
    of an address: an address that is still stored afterwards belongs to
    whom it belonged and was created when it was. *)
Theorem run_keeps_owner (is_default_init : bool) (requests : list AddressRequest)
    (db : DB) :
  db_wf db ->
  let db' := run is_default_init requests db in
  users db' = users db
  /\ next_address_id db <= next_address_id db'
  /\ forall k a a',
       addresses db !! k = Some a -> addresses db' !! k = Some a' ->
       usuario_id a' = usuario_id a /\ created_at a' = created_at a.
Proof.
  intros Hwf db'. destruct (run_rows is_default_init requests db Hwf) as (Hu & Hn & Hrows).
  fold db' in Hu, Hn, Hrows. split; [exact Hu|]. split; [exact Hn|].
  intros k a a' Ha Ha'.
  destruct (Hrows k a' Ha') as [(a0 & Ha0 & Ho & Hc) | Hfresh].
  - rewrite Ha in Ha0. injection Ha0 as <-. auto.
  - exfalso. assert (k < next_address_id db) by (apply Hwf; eauto). lia.
Qed.

Lemma run_keeps_owner_witness :
  let requests :=
    [DeleteShippingAddress (Some 1) (mkCaller 1 false);
     CreateShippingAddress 40 (sample_body 2);
     UpdateShippingAddress 41 (Some 3) (mkCaller 9 true) (sample_body 2);
     SetDefaultAddress 3 2] in
  let db' := run false requests sample_db in
  users db' = users sample_db
  /\ next_address_id sample_db <= next_address_id db'
  /\ forall k a a',
       addresses sample_db !! k = Some a -> addresses db' !! k = Some a' ->
       usuario_id a' = usuario_id a /\ created_at a' = created_at a.
Proof.
  intros requests. apply (run_keeps_owner false requests sample_db). exact sample_db_wf.
Defined.

(** ** The minimal controller beside the full one *)



(** What the minimal controller stores that the full one refuses. *)
Example minimal_create_is_laxer :
  let reqBody := mkAddressBody (Some 7) (Some "x") (Some "y") (Some "z")
                               (Some "abcde") (Some "w") in
  status (Full.createShippingAddress false 40 reqBody sample_db).1 = 404
  /\ status (Minimal.createShippingAddress false 40 reqBody sample_db).1 = 201.
Proof. vm_compute. split; reflexivity. Qed.

(** X18: take an existing user whose addresses were created at pairwise
    different instants, [sorted] being these addresses from newest to
    oldest, and a query whose page is at least 1 (or absent) and whose
    limit lies in 1..50 (or is absent).  The two per-user listings then
    agree: when the database accepts the offset [(page - 1) * limit] (at
    most 2^63 - 1) both answer 200 with the same pagination and list the
    same window of [sorted], the full one adding the joined user to each
    row; when it refuses the offset both answer 500. *)
Theorem minimal_list_agrees_within_bounds (uid : Z) (user : UserRow) (q : ListQuery)
    (sorted : list (Z * AddressRow)) (db : DB) :
  users db !! uid = Some user ->
  let mine := ShippingAddress.select (ShippingAddress.where_owner uid) db in
  let page := JS.or_default (JS.parseInt (query_page q)) 1 in
  let limit := JS.or_default (JS.parseInt (query_limit q)) 10 in
  let offset := window_offset page limit in
  ShippingAddress.count (ShippingAddress.where_owner uid) db <> 0 ->
  1 <= page ->
  1 <= limit <= 50 ->
  (forall k1 k2 a1 a2, mine !! k1 = Some a1 -> mine !! k2 = Some a2 ->
     created_at a1 = created_at a2 -> k1 = k2) ->
  sorted ≡ₚ map_to_list mine ->
  StronglySorted (fun x y => created_at y.2 <= created_at x.2) sorted ->
  let f := (Full.getShippingAddressesByUserId (Some uid) q db).1 in
  let m := (Minimal.getShippingAddressesByUserId (Some uid) q db).1 in
  let rows := take (Z.to_nat limit) (drop (Z.to_nat offset) sorted) in
  (ShippingAddress.max_bigint < offset -> status f = 500 /\ status m = 500)
  /\ (offset <= ShippingAddress.max_bigint ->
      status f = 200 /\ status m = 200
      /\ is_Some (pagination_of f)
      /\ pagination_of m = pagination_of f
      /\ addresses_of m
         = Some (JArr (map (fun kv => JObj (ShippingAddress.listing_json kv.1 kv.2))
                           rows))
      /\ addresses_of f
         = Some (JArr (map (fun kv =>
                              ShippingAddress.with_user User.minimal_json db
                                (ShippingAddress.listing_json kv.1 kv.2) kv.2) rows))).
Proof.
  intros Hu mine page limit offset Hn Hpage Hlimit Hdist Hperm Hsorted f m rows.
  pose proof (newest_first_unique mine sorted Hdist Hperm Hsorted) as Huniq.
  assert (Hp : Full.page_of_query q = page) by (unfold Full.page_of_query; fold page; lia).
  assert (Hl : Full.limit_of_query q = limit)
    by (unfold Full.limit_of_query; fold limit; lia).
  assert (Hm : m = if ShippingAddress.max_bigint <? offset then query_failed
               else respond 200
      (JObj [("message", JStr "Shipping addresses retrieved successfully");
             ("data",
              JObj [("addresses",
                     JArr (map (fun kv => JObj (ShippingAddress.listing_json kv.1 kv.2))
                             (ShippingAddress.page_of limit offset mine)));
                    ("pagination",
                     pagination_json page
                       (JS.ceil_div
                          (ShippingAddress.count (ShippingAddress.where_owner uid) db)
                          limit)
                       (ShippingAddress.count (ShippingAddress.where_owner uid) db)
                       limit)])])).
  { subst m. unfold Minimal.getShippingAddressesByUserId.
    apply Z.eqb_neq in Hn. rewrite Hn. cbv zeta. fold page limit.
    fold (window_offset page limit). fold offset.
    unfold ShippingAddress.findAndCountAll. subst offset.
    rewrite (window_refused_within page limit Hpage Hlimit).
    destruct (ShippingAddress.max_bigint <? window_offset page limit); reflexivity. }
  split.
  - intros Hw. subst f. rewrite (Full_list_refused uid user q db Hu) by (rewrite Hp, Hl; exact Hw).
    rewrite Hm. apply Z.ltb_lt in Hw. rewrite Hw. split; reflexivity.
  - intros Hw.
    destruct (Full_list_found uid user q db Hu) as (Hfs & Hfp & Hfa);
      [rewrite Hp, Hl; exact Hw | exact Hn |].
    fold f in Hfs, Hfp, Hfa. rewrite Hp, Hl in Hfp, Hfa. fold offset mine in Hfa.
    rewrite Hm. apply Z.ltb_ge in Hw. rewrite Hw.
    split; [exact Hfs|]. split; [reflexivity|].
    split; [rewrite Hfp; eauto|]. split; [rewrite Hfp; reflexivity|].
    unfold ShippingAddress.page_of in *. rewrite Huniq in *.
    split; [reflexivity | exact Hfa].
Qed.

Lemma minimal_list_agrees_within_bounds_witness :
  let q := mkListQuery (Some "2") (Some "1") None None None in
  let f := (Full.getShippingAddressesByUserId (Some 1) q sample_db).1 in
  let m := (Minimal.getShippingAddressesByUserId (Some 1) q sample_db).1 in
  let rows := [(1, home 1 true 10)] in
  status f = 200 /\ status m = 200
  /\ is_Some (pagination_of f)
  /\ pagination_of m = pagination_of f
  /\ addresses_of m
     = Some (JArr (map (fun kv => JObj (ShippingAddress.listing_json kv.1 kv.2)) rows))
  /\ addresses_of f
     = Some (JArr (map (fun kv =>
                          ShippingAddress.with_user User.minimal_json sample_db
                            (ShippingAddress.listing_json kv.1 kv.2) kv.2) rows)).
Proof.
  intros q.
  destruct (minimal_list_agrees_within_bounds 1 ana q
              [(3, home 1 false 30); (1, home 1 true 10)] sample_db) as (_ & H).
  - reflexivity.
  - vm_compute. discriminate.
  - vm_compute. discriminate.
  - vm_compute. split; discriminate.
  - intros k1 k2 a1 a2 H1 H2 Ht.
    apply select_owner_lookup in H1 as [H1 _], H2 as [H2 _].
    apply sample_db_lookup in H1 as [[-> ->]|[[-> ->]|[-> ->]]];
      apply sample_db_lookup in H2 as [[-> ->]|[[-> ->]|[-> ->]]];
      cbn in Ht; congruence.
  - vm_compute. reflexivity.
  - repeat constructor; cbn; lia.
  - apply H. vm_compute. discriminate.
Defined.

(** ** The user controller *)

Section Profiles.

Variable bcrypt_hash : string -> string -> string.

(** X19: a profile update of an existing user answers 200 with the record
    that a read of the profile returns right after it.  It writes that
    one user and no address: the e-mail where the request carries a
    non-empty one, the credential where it carries a non-empty password,
    the first and last names never.  The [nombre] of the request is
    assigned to the instance only: the answer and the database are those
    of the same request without it, and the answer has no such key. *)
Theorem updateUserProfile_then_read (salt : string) (id : Z) (reqBody : ProfileBody)
    (user : UserRow) (db : DB) :
  users db !! id = Some user ->
  let u := UserController.updateUserProfile bcrypt_hash salt id reqBody db in
  let g := UserController.getUserProfile id u.2 in
  status u.1 = 200 /\ g = u
  /\ addresses u.2 = addresses db
  /\ next_address_id u.2 = next_address_id db
  /\ (forall k, k <> id -> users u.2 !! k = users db !! k)
  /\ u = UserController.updateUserProfile bcrypt_hash salt id
           (mkProfileBody None (body_email reqBody) (body_password reqBody)) db
  /\ json_get "nombre" (body u.1) = None
  /\ exists user',
       users u.2 !! id = Some user'
       /\ email user' = (if JS.truthy (body_email reqBody)
                         then str (body_email reqBody) else email user)
       /\ hashed_password user'
          = (if JS.truthy (body_password reqBody)
             then bcrypt_hash (str (body_password reqBody)) salt
             else hashed_password user)
       /\ firstName user' = firstName user
       /\ lastName_father user' = lastName_father user
       /\ lastName_mother user' = lastName_mother user.
Proof.
  intros Hu u g. subst g u.
  unfold UserController.updateUserProfile, UserController.getUserProfile, User.findByPk.
  rewrite Hu. cbn [fst snd status respond body body_nombre body_email body_password].
  unfold User.save, set_users. cbn [users addresses next_address_id].
  rewrite lookup_insert_eq.
  split; [reflexivity|]. split; [reflexivity|]. split; [reflexivity|].
  split; [reflexivity|].
  split; [intros k Hk; apply lookup_insert_ne; congruence|].
  split.
  { destruct (JS.truthy (body_nombre reqBody)), (JS.truthy (body_email reqBody)),
      (JS.truthy (body_password reqBody)); reflexivity. }
  split; [reflexivity|].
  eexists. split; [reflexivity|].
  destruct (JS.truthy (body_nombre reqBody)), (JS.truthy (body_email reqBody)),
    (JS.truthy (body_password reqBody)); repeat split.
Qed.

(** X20: for an id that is not in the users table, reading and updating
    the profile both answer 404 and return the database they received. *)
Theorem unknown_user_is_404 (salt : string) (id : Z) (reqBody : ProfileBody) (db : DB) :
  users db !! id = None ->
  UserController.getUserProfile id db = (respond 404 (error_body "User not found"), db)
  /\ UserController.updateUserProfile bcrypt_hash salt id reqBody db
     = (respond 404 (error_body "User not found"), db).
Proof.
  intros Hu. unfold UserController.updateUserProfile, UserController.getUserProfile,
    User.findByPk. rewrite Hu. split; reflexivity.
Qed.

End Profiles.

Lemma updateUserProfile_then_read_witness :
  let reqBody := mkProfileBody (Some "Ana Maria") (Some "") (Some "secret") in
  let u := UserController.updateUserProfile toy_hash "salt" 1 reqBody sample_db in
  let g := UserController.getUserProfile 1 u.2 in
  status u.1 = 200 /\ g = u
  /\ addresses u.2 = addresses sample_db
  /\ next_address_id u.2 = next_address_id sample_db
  /\ (forall k, k <> 1 -> users u.2 !! k = users sample_db !! k)
  /\ u = UserController.updateUserProfile toy_hash "salt" 1
           (mkProfileBody None (Some "") (Some "secret")) sample_db
  /\ json_get "nombre" (body u.1) = None
  /\ exists user',
       users u.2 !! 1 = Some user'
       /\ email user' = (if JS.truthy (body_email reqBody)
                         then str (body_email reqBody) else email ana)
       /\ hashed_password user'
          = (if JS.truthy (body_password reqBody)
             then toy_hash (str (body_password reqBody)) "salt"
             else hashed_password ana)
       /\ firstName user' = firstName ana
       /\ lastName_father user' = lastName_father ana
       /\ lastName_mother user' = lastName_mother ana.
Proof.
  intros reqBody.
  apply (updateUserProfile_then_read toy_hash "salt" 1 reqBody ana sample_db).
  reflexivity.
Defined.

Lemma unknown_user_is_404_witness :
  UserController.getUserProfile 7 sample_db
  = (respond 404 (error_body "User not found"), sample_db)
  /\ UserController.updateUserProfile toy_hash "salt" 7
       (mkProfileBody (Some "x") None None) sample_db
     = (respond 404 (error_body "User not found"), sample_db).
Proof.
  apply (unknown_user_is_404 toy_hash "salt" 7 (mkProfileBody (Some "x") None None)
           sample_db).
  reflexivity.
Defined.

(** X21: the list of all users never writes and always answers 200, for
    an empty table with the empty array: an array is truthy, so the 404
    branch is never taken.  The array has one entry per user, and its
    entries are exactly the records that reading a profile returns. *)
Theorem getAllUsers_lists_profiles (db : DB) :
  let r := UserController.getAllUsers db in
  r.2 = db /\ status r.1 = 200
  /\ exists entries,
       body r.1 = JArr entries
       /\ length entries = size (users db)
       /\ forall j, j ∈ entries
                    <-> exists id, (UserController.getUserProfile id db).1 = respond 200 j.
Proof.
  intros r. subst r. unfold UserController.getAllUsers, UserController.truthy_array.
  cbn [negb fst snd status respond body]. split; [reflexivity|]. split; [reflexivity|].
  eexists. split; [reflexivity|]. unfold User.findAll.
  split; [rewrite length_map; apply length_map_to_list|].
  intros j. rewrite list_elem_of_In, in_map_iff. split.
  - intros ([id u] & <- & Hin). apply list_elem_of_In, elem_of_map_to_list in Hin.
    exists id. unfold UserController.getUserProfile, User.findByPk. rewrite Hin.
    reflexivity.
  - intros [id H]. unfold UserController.getUserProfile, User.findByPk in H.
    destruct (users db !! id) as [u|] eqn:Hu; cbn in H; [|discriminate H].
    injection H as <-. exists (id, u). split; [reflexivity|].
    apply list_elem_of_In, elem_of_map_to_list. exact Hu.
Qed.

(** ** Creating, then reading *)

(** X22: a create that succeeds answers with the stored row, trimmed, and
    with the user reduced to id, first name and paternal last name; a read
    of the new key right after it answers 200 with the same [data]. *)
Theorem create_then_read (is_default_init : bool) (now uid : Z)
    (reqBody : AddressBody) (user : UserRow) (db : DB) :
  valid_create uid reqBody ->
  users db !! uid = Some user ->
  ShippingAddress.count (ShippingAddress.where_owner uid) db <= 4 ->
  let c := Full.createShippingAddress is_default_init now reqBody db in
  let id := next_address_id db in
  let g := Full.getShippingAddressById (Some id) c.2 in
  status c.1 = 201 /\ status g.1 = 200
  /\ json_get "data" (body c.1)
     = Some (JObj (ShippingAddress.to_json id
                     (created_row is_default_init now uid reqBody)
                   ++ [("User",
                        JObj [("id", JNum uid); ("firstName", JStr (firstName user));
                              ("lastName_father", JStr (lastName_father user))])]))
  /\ json_get "data" (body g.1) = json_get "data" (body c.1)
  /\ g.2 = c.2.
Proof.
  intros (Hid & Hnz & Hd & Hc & He & Hp & Hpa & Hre) Hu Hn c id g. subst g c id.
  rewrite (Full_create_checked _ _ uid) by (rewrite ?Hu; eauto).
  cbv zeta. rewrite Hre.
  assert (H5 : (5 <=? ShippingAddress.count (ShippingAddress.where_owner uid) db) = false)
    by (apply Z.leb_gt; lia).
  rewrite H5. cbn [negb fst snd status respond body].
  unfold Full.getShippingAddressById, ShippingAddress.findByPk_include,
    ShippingAddress.create, ShippingAddress.with_user.
  cbn [snd addresses users]. rewrite lookup_insert_eq.
  cbn [usuario_id created_row]. rewrite Hu.
  repeat split.
Qed.

Lemma create_then_read_witness :
  let c := Full.createShippingAddress false 40 (sample_body 2) sample_db in
  let id := next_address_id sample_db in
  let g := Full.getShippingAddressById (Some id) c.2 in
  status c.1 = 201 /\ status g.1 = 200
  /\ json_get "data" (body c.1)
     = Some (JObj (ShippingAddress.to_json id (created_row false 40 2 (sample_body 2))
                   ++ [("User",
                        JObj [("id", JNum 2); ("firstName", JStr (firstName luis));
                              ("lastName_father", JStr (lastName_father luis))])]))
  /\ json_get "data" (body g.1) = json_get "data" (body c.1)
  /\ g.2 = c.2.
Proof.
  apply (create_then_read false 40 2 (sample_body 2) luis sample_db).
  - apply sample_body_valid. lia.
  - reflexivity.
  - vm_compute. discriminate.
Defined.
